(** * models/resnet18.py: the ResNet-18 embedding network of the few-shot
      pipeline, and its episodic feature export.

    The development follows the Python source.  The tensor engine (torch)
    is modelled by what the source relies on: tensors are a size list with
    row-major storage, every engine call has its size arithmetic and its
    error conditions written out, and the numerical kernels of the backbone
    layers (convolution, batch normalisation, pooling, dropout, the
    classifier products) are the fields of a record [Kernels].  Python
    exceptions are the [Raise] results of an error monad.  Floating-point
    numbers are idealised as real numbers; integer labels are computed in
    the integer type of their tensor, with its wrap-around. *)

From Stdlib Require Import String Ascii DecimalString DecimalNat.
From Stdlib Require Import List ZArith Reals QArith Lia Lra Bool Arith.
Import ListNotations.
Local Open Scope nat_scope.

(* ================================================================== *)
(** ** Python exceptions *)

Inductive exn : Type :=
| AttributeError (attr : string)
| KeyError
| IndexError
| TypeError
| ValueError
| RuntimeError.

Inductive result (A : Type) : Type :=
| Ok (a : A)
| Raise (e : exn).
Arguments Ok {A} a.
Arguments Raise {A} e.

Definition bind {A B : Type} (r : result A) (k : A -> result B) : result B :=
  match r with
  | Ok a => k a
  | Raise e => Raise e
  end.

Notation "x <- e ;; k" := (bind e (fun x => k))
  (at level 61, e at next level, right associativity).

(* ================================================================== *)
(** ** Tensors *)

(** A tensor is its size list and its contiguous row-major storage. *)
Record tensor : Type := mkTensor { shape : list nat; data : list R }.

Definition numel (sh : list nat) : nat := fold_right Nat.mul 1 sh.

(** The tensor of size [sh] whose entry at flat position [i] is [f i]. *)
Definition tabulate (sh : list nat) (f : nat -> R) : tensor :=
  mkTensor sh (map f (seq 0 (numel sh))).

Definition full (sh : list nat) (c : R) : tensor := tabulate sh (fun _ => c).

Fixpoint shape_eqb (a b : list nat) : bool :=
  match a, b with
  | [], [] => true
  | x :: a', y :: b' => (x =? y) && shape_eqb a' b'
  | _, _ => false
  end.

(** *** NumPy: integer arrays

    A label tensor reaches NumPy as an array of its own integer type, and
    the arithmetic on the array is done in that type: a result outside the
    range of the type wraps around silently. *)
Inductive dtype : Type :=
| UInt8
| UInt16
| UInt32
| UInt64
| Int8
| Int16
| Int32
| Int64.

Definition bits (d : dtype) : Z :=
  match d with
  | UInt8 | Int8 => 8
  | UInt16 | Int16 => 16
  | UInt32 | Int32 => 32
  | UInt64 | Int64 => 64
  end.

Definition signed (d : dtype) : bool :=
  match d with
  | Int8 | Int16 | Int32 | Int64 => true
  | UInt8 | UInt16 | UInt32 | UInt64 => false
  end.

(** The least value of the type, and the first integer above its values. *)
Definition dtype_min (d : dtype) : Z :=
  if signed d then (- 2 ^ (bits d - 1))%Z else 0%Z.

Definition dtype_sup (d : dtype) : Z :=
  if signed d then (2 ^ (bits d - 1))%Z else (2 ^ bits d)%Z.

(** The integer [k] is a value of the type. *)
Definition fits (d : dtype) (k : Z) : bool :=
  ((dtype_min d <=? k) && (k <? dtype_sup d))%Z.

(** The value of the type congruent to [x] modulo [2 ^ bits]: what an
    operation in the type stores for the exact result [x]. *)
Definition wrap (d : dtype) (x : Z) : Z :=
  ((x - dtype_min d) mod 2 ^ bits d + dtype_min d)%Z.

(** The type of a result: an integer type, or [None] for a type in which no
    value in play wraps (float64 under the idealisation of floats, or
    Python objects). *)
Definition cast (t : option dtype) (x : Z) : Z :=
  match t with
  | Some d => wrap d x
  | None => x
  end.

(** The numerical kernels of the tensor engine.  Each gives the entry of
    the result at a flat position; the sizes of the results are computed by
    the layer definitions below. *)
Record Kernels : Type := {
  conv2d_at : tensor -> nat -> nat -> tensor -> nat -> R;
      (* weight, stride, padding, input *)
  batch_norm_at : bool -> tensor -> tensor -> tensor -> tensor -> tensor -> nat -> R;
      (* training, weight, bias, running_mean, running_var, input *)
  max_pool2d_at : nat -> nat -> nat -> tensor -> nat -> R;
      (* kernel_size, stride, padding, input *)
  adaptive_avg_pool2d_at : tensor -> nat -> R;
  dropout_at : Q -> nat -> tensor -> nat -> R;
      (* p, state of the random generator, input *)
  linear_at : tensor -> tensor -> tensor -> nat -> R;
      (* weight, bias, input *)
  cosine_at : tensor -> tensor -> nat -> R;
      (* weight, input *)
  kaiming_normal_at : string -> nat -> R;
      (* the draw made for the parameter of that name *)
  default_init_at : string -> nat -> R;
  python_int_type : dtype -> Z -> option dtype
      (* the type of [a * k] for an array [a] of the integer type and a Python
         int [k] that is not a value of that type: by the value-based casting
         of NumPy 1 a wider type, [None] when it is float64 or object.
         (NumPy 2 raises OverflowError there instead; when [k] is a value of
         the type the two agree, and the result has the type of [a].) *)
}.

(** *** torch: the operations the source calls *)

(** [x.squeeze()]: every dimension of size 1 is removed. *)
Definition squeeze (x : tensor) : tensor :=
  mkTensor (filter (fun d => negb (d =? 1)) (shape x)) (data x).

(** [nn.ReLU(inplace=True)]. *)
Definition relu (x : tensor) : tensor :=
  mkTensor (shape x) (map (Rmax 0) (data x)).

Fixpoint zip_with {A B C : Type} (f : A -> B -> C) (l : list A) (l' : list B) : list C :=
  match l, l' with
  | a :: t, b :: t' => f a b :: zip_with f t t'
  | _, _ => []
  end.

(** [out += identity].  On every path through this network the two sizes
    are equal, so broadcasting is not modelled: different sizes raise. *)
Definition iadd (out identity : tensor) : result tensor :=
  if shape_eqb (shape out) (shape identity)
  then Ok (mkTensor (shape out) (zip_with Rplus (data out) (data identity)))
  else Raise RuntimeError.

(** Flat position of a multi-index, and back (row-major order). *)
Fixpoint ravel (sh idx : list nat) : nat :=
  match sh, idx with
  | d :: sh', i :: idx' => i * numel sh' + ravel sh' idx'
  | _, _ => 0
  end.

Fixpoint unravel (sh : list nat) (i : nat) : list nat :=
  match sh with
  | [] => []
  | d :: sh' => (i / numel sh') mod d :: unravel sh' (i mod numel sh')
  end.

(** [w.T]: the dimensions reversed (the transpose of a matrix). *)
Definition T (w : tensor) : tensor :=
  let sh' := rev (shape w) in
  mkTensor sh'
    (map (fun i => nth (ravel (shape w) (rev (unravel sh' i))) (data w) 0%R)
         (seq 0 (numel sh'))).

(** [torch.atleast_2d]. *)
Definition atleast_2d (x : tensor) : tensor :=
  match shape x with
  | [] => mkTensor [1; 1] (data x)
  | [n] => mkTensor [1; n] (data x)
  | _ => x
  end.

(** [torch.vstack]: every tensor is viewed with at least two dimensions and
    the views are concatenated along the first; all sizes but the first must
    agree. *)
Definition vstack (ts : list tensor) : result tensor :=
  match map atleast_2d ts with
  | [] => Raise RuntimeError
  | t0 :: rest =>
      if forallb (fun t => shape_eqb (tl (shape t)) (tl (shape t0))) rest
      then Ok (mkTensor
                 (fold_right Nat.add 0 (map (fun t => hd 0 (shape t)) (t0 :: rest))
                    :: tl (shape t0))
                 (concat (map data (t0 :: rest))))
      else Raise RuntimeError
  end.

(** The vectors along the last dimension, in storage order. *)
Definition rows (x : tensor) : list (list R) :=
  let d := last (shape x) 1 in
  map (fun i => firstn d (skipn (i * d) (data x)))
      (seq 0 (numel (removelast (shape x)))).

Definition sum_R (v : list R) : R := fold_right Rplus 0%R v.

Definition norm2 (v : list R) : R := sqrt (sum_R (map (fun a => (a * a)%R) v)).

(** [v / max(||v||_2, eps)]. *)
Definition normalize_row (eps : R) (v : list R) : list R :=
  map (fun a => (a / Rmax (norm2 v) eps)%R) v.

(** [torch.nn.functional.normalize(x, p=2, dim=-1, eps=eps)]. *)
Definition normalize (x : tensor) (eps : R) : tensor :=
  mkTensor (shape x) (concat (map (normalize_row eps) (rows x))).

(** [np.arange(n)]. *)
Definition arange (n : Z) : list Z := map Z.of_nat (seq 0 (Z.to_nat n)).

(* ================================================================== *)
(** ** torch.nn: the layers the network is built from *)

(** *** The state of a module

    [nn.Module.state_dict] names every parameter and buffer by the dotted
    path of attribute names that leads to it; [load_state_dict] copies the
    tensors of a dictionary back by these names. *)

(** The first value stored under the key [k]. *)
Fixpoint lookup {V : Type} (d : list (string * V)) (k : string) : option V :=
  match d with
  | [] => None
  | (k', v) :: d' => if String.eqb k' k then Some v else lookup d' k
  end.

(** The dotted name of a path. *)
Fixpoint join (p : list string) : string :=
  match p with
  | [] => ""
  | a :: rest =>
      match rest with
      | [] => a
      | _ :: _ => a ++ "." ++ join rest
      end
  end%string.

(** Tensors under their paths, relative to a module. *)
Definition state : Type := list (list string * tensor).

Definition leaf (t : tensor) : state := [([], t)].

Definition under (name : string) (es : state) : state :=
  map (fun pt => (name :: fst pt, snd pt)) es.

Definition children (cs : list (string * state)) : state :=
  flat_map (fun c => under (fst c) (snd c)) cs.

Definition state_dict (es : state) : list (string * tensor) :=
  map (fun pt => (join (fst pt), snd pt)) es.

(** One tensor of [load_state_dict]: the tensor stored under the name
    replaces the module's own, and must have its size; a name that is
    missing is an error in strict mode and keeps the tensor otherwise. *)
Definition load_tensor (sd : list (string * tensor)) (strict : bool)
    (path : list string) (old : tensor) : result tensor :=
  match lookup sd (join path) with
  | Some v => if shape_eqb (shape v) (shape old) then Ok v else Raise RuntimeError
  | None => if strict then Raise RuntimeError else Ok old
  end.

Fixpoint mapM {A B : Type} (f : A -> result B) (l : list A) : result (list B) :=
  match l with
  | [] => Ok []
  | a :: l' => b <- f a ;; bs <- mapM f l' ;; Ok (b :: bs)
  end.

Module Conv2d.
(** [nn.Conv2d(in_channels, out_channels, kernel_size, stride, padding,
    bias=False)]: square kernels, no bias. *)
Record t : Type := mk {
  in_channels : nat;
  out_channels : nat;
  kernel_size : nat;
  stride : nat;
  padding : nat;
  weight : tensor
}.

(** The weight drawn by the constructor; [ResNet.__init__] overwrites it
    in its initialisation loop. *)
Definition new (K : Kernels) (cin cout k s p : nat) : t :=
  mk cin cout k s p (tabulate [cout; cin; k; k] (default_init_at K "conv")).

Definition out_size (c : t) (h : nat) : nat :=
  (h + 2 * padding c - kernel_size c) / stride c + 1.

(** A batch [n; c; h; w] with [c = in_channels] whose padded height and
    width hold the kernel gives [n; out_channels; h'; w']. *)
Definition forward (K : Kernels) (c : t) (x : tensor) : result tensor :=
  match shape x with
  | [n; ci; h; w] =>
      if (ci =? in_channels c)
         && (kernel_size c <=? h + 2 * padding c)
         && (kernel_size c <=? w + 2 * padding c)
      then Ok (tabulate [n; out_channels c; out_size c h; out_size c w]
                 (conv2d_at K (weight c) (stride c) (padding c) x))
      else Raise RuntimeError
  | _ => Raise RuntimeError
  end.

Definition entries (c : t) : state := children [("weight"%string, leaf (weight c))].

Definition load (sd : list (string * tensor)) (strict : bool) (path : list string)
    (c : t) : result t :=
  w <- load_tensor sd strict (path ++ ["weight"%string]) (weight c) ;;
  Ok (mk (in_channels c) (out_channels c) (kernel_size c) (stride c) (padding c) w).

(** [named_parameters]: the weight. *)
Definition parameters (c : t) : state := children [("weight"%string, leaf (weight c))].
End Conv2d.

Module BatchNorm2d.
Record t : Type := mk {
  num_features : nat;
  weight : tensor;
  bias : tensor;
  running_mean : tensor;
  running_var : tensor;
  num_batches_tracked : tensor
}.

Definition new (c : nat) : t :=
  mk c (full [c] 1) (full [c] 0) (full [c] 0) (full [c] 1) (full [] 0).

(** The result has the size of the input.  The input must have four
    dimensions; in training mode there must be more than one value per
    channel.  (The running statistics a training-mode call updates are
    read by evaluation-mode calls only; the update is not modelled.) *)
Definition forward (K : Kernels) (training : bool) (b : t) (x : tensor)
  : result tensor :=
  match shape x with
  | [n; c; h; w] =>
      if training && (n * (h * w) =? 1) then Raise ValueError
      else if negb (c =? num_features b) then Raise RuntimeError
      else Ok (tabulate (shape x)
                 (batch_norm_at K training (weight b) (bias b)
                    (running_mean b) (running_var b) x))
  | _ => Raise ValueError
  end.

Definition entries (b : t) : state :=
  children [("weight"%string, leaf (weight b));
            ("bias"%string, leaf (bias b));
            ("running_mean"%string, leaf (running_mean b));
            ("running_var"%string, leaf (running_var b));
            ("num_batches_tracked"%string, leaf (num_batches_tracked b))].

Definition load (sd : list (string * tensor)) (strict : bool) (path : list string)
    (b : t) : result t :=
  w <- load_tensor sd strict (path ++ ["weight"%string]) (weight b) ;;
  bi <- load_tensor sd strict (path ++ ["bias"%string]) (bias b) ;;
  rm <- load_tensor sd strict (path ++ ["running_mean"%string]) (running_mean b) ;;
  rv <- load_tensor sd strict (path ++ ["running_var"%string]) (running_var b) ;;
  nb <- load_tensor sd strict (path ++ ["num_batches_tracked"%string])
          (num_batches_tracked b) ;;
  Ok (mk (num_features b) w bi rm rv nb).

(** [named_parameters]: the weight and the bias.  The running statistics
    and the batch counter are buffers, not parameters. *)
Definition parameters (b : t) : state :=
  children [("weight"%string, leaf (weight b)); ("bias"%string, leaf (bias b))].
End BatchNorm2d.

Module MaxPool2d.
Record t : Type := mk { kernel_size : nat; stride : nat; padding : nat }.

Definition forward (K : Kernels) (m : t) (x : tensor) : result tensor :=
  match shape x with
  | [n; c; h; w] =>
      if (kernel_size m <=? h + 2 * padding m)
         && (kernel_size m <=? w + 2 * padding m)
      then Ok (tabulate
                 [n; c; (h + 2 * padding m - kernel_size m) / stride m + 1;
                        (w + 2 * padding m - kernel_size m) / stride m + 1]
                 (max_pool2d_at K (kernel_size m) (stride m) (padding m) x))
      else Raise RuntimeError
  | _ => Raise RuntimeError
  end.
End MaxPool2d.

Module AdaptiveAvgPool2d.
(** [nn.AdaptiveAvgPool2d((1, 1))]. *)
Definition forward (K : Kernels) (x : tensor) : result tensor :=
  match shape x with
  | [n; c; h; w] =>
      if (1 <=? h) && (1 <=? w)
      then Ok (tabulate [n; c; 1; 1] (adaptive_avg_pool2d_at K x))
      else Raise RuntimeError
  | _ => Raise RuntimeError
  end.
End AdaptiveAvgPool2d.

Module Dropout.
Record t : Type := mk { p : Q }.

(** [nn.Dropout(p)] refuses a probability outside [0, 1]. *)
Definition new (p : Q) : result t :=
  if Qle_bool 0 p && Qle_bool p 1 then Ok (mk p) else Raise ValueError.

(** The identity in evaluation mode; in training mode the entries are
    zeroed at random, from the state [rng] of the generator. *)
Definition forward (K : Kernels) (training : bool) (rng : nat) (d : t)
    (x : tensor) : tensor :=
  if training then tabulate (shape x) (dropout_at K (p d) rng x) else x.
End Dropout.

Module Linear.
(** [nn.Linear(in_features, out_features)]: the weight has size
    [out_features; in_features]. *)
Record t : Type := mk {
  in_features : nat;
  out_features : nat;
  weight : tensor;
  bias : tensor
}.

Definition new (K : Kernels) (fin fout : nat) : t :=
  mk fin fout
     (tabulate [fout; fin] (default_init_at K "cls_fn.weight"))
     (tabulate [fout] (default_init_at K "cls_fn.bias")).

Definition forward (K : Kernels) (l : t) (x : tensor) : result tensor :=
  match rev (shape x) with
  | d :: lead =>
      if d =? in_features l
      then Ok (tabulate (rev (out_features l :: lead))
                 (linear_at K (weight l) (bias l) x))
      else Raise RuntimeError
  | [] => Raise RuntimeError
  end.

Definition entries (l : t) : state :=
  children [("weight"%string, leaf (weight l)); ("bias"%string, leaf (bias l))].

Definition load (sd : list (string * tensor)) (strict : bool) (path : list string)
    (l : t) : result t :=
  w <- load_tensor sd strict (path ++ ["weight"%string]) (weight l) ;;
  b <- load_tensor sd strict (path ++ ["bias"%string]) (bias l) ;;
  Ok (mk (in_features l) (out_features l) w b).

Definition parameters (l : t) : state :=
  children [("weight"%string, leaf (weight l)); ("bias"%string, leaf (bias l))].
End Linear.

Module CosineClassifier.
(** Modelled from the spec: models/model_utils.py, which defines
    [CosineClassifier], is not among the sources.  The head holds "learned
    per-class reference vectors" and its weight is "transposed to one row
    per class" by the feature export: the weight has one column per class,
    size [n_feat; num_classes]. *)
Record t : Type := mk {
  n_feat : nat;
  num_classes : nat;
  weight : tensor
}.

(** Modelled from the spec: the constructor call
    [CosineClassifier(self.outplanes, num_classes)] of models/model_utils.py,
    giving the reference vectors their initial values. *)
Definition new (K : Kernels) (n_feat num_classes : nat) : t :=
  mk n_feat num_classes
     (tabulate [n_feat; num_classes] (default_init_at K "cls_fn.weight")).

(** Modelled from the spec: the forward pass of models/model_utils.py, "a
    cosine-similarity-based transform against learned per-class reference
    vectors": one score per class for every embedding. *)
Definition forward (K : Kernels) (c : t) (x : tensor) : result tensor :=
  match rev (shape x) with
  | d :: lead =>
      if d =? n_feat c
      then Ok (tabulate (rev (num_classes c :: lead))
                 (cosine_at K (weight c) x))
      else Raise RuntimeError
  | [] => Raise RuntimeError
  end.

(** Modelled from the spec: the parameters of the head of
    models/model_utils.py, its reference-vector matrix [weight]. *)
Definition entries (c : t) : state := children [("weight"%string, leaf (weight c))].

(** Modelled from the spec: loading the parameters of the head of
    models/model_utils.py. *)
Definition load (sd : list (string * tensor)) (strict : bool) (path : list string)
    (c : t) : result t :=
  w <- load_tensor sd strict (path ++ ["weight"%string]) (weight c) ;;
  Ok (mk (n_feat c) (num_classes c) w).

(** Modelled from the spec: the parameters of the head of
    models/model_utils.py, its reference-vector matrix [weight]. *)
Definition parameters (c : t) : state := children [("weight"%string, leaf (weight c))].
End CosineClassifier.

(** The classifier head assigned to [self.cls_fn]. *)
Inductive head : Type :=
| LinearHead (l : Linear.t)
| CosineHead (c : CosineClassifier.t).

Definition cls_weight (c : head) : tensor :=
  match c with
  | LinearHead l => Linear.weight l
  | CosineHead c => CosineClassifier.weight c
  end.

Definition cls_forward (K : Kernels) (c : head) (x : tensor) : result tensor :=
  match c with
  | LinearHead l => Linear.forward K l x
  | CosineHead c => CosineClassifier.forward K c x
  end.

Definition head_entries (c : head) : state :=
  match c with
  | LinearHead l => Linear.entries l
  | CosineHead c => CosineClassifier.entries c
  end.

Definition head_parameters (c : head) : state :=
  match c with
  | LinearHead l => Linear.parameters l
  | CosineHead c => CosineClassifier.parameters c
  end.

Definition load_head (sd : list (string * tensor)) (strict : bool) (path : list string)
    (c : head) : result head :=
  match c with
  | LinearHead l => l' <- Linear.load sd strict path l ;; Ok (LinearHead l')
  | CosineHead c => c' <- CosineClassifier.load sd strict path c ;; Ok (CosineHead c')
  end.

(* ================================================================== *)
(** ** models/losses.py *)

(** Modelled from the spec: models/losses.py, which defines
    [compute_prototypes], is not among the sources.  The "support
    embeddings sharing that class label": the rows of the embeddings whose
    label is [c]. *)
Definition class_members (embeddings : tensor) (labels : list Z) (c : Z)
  : list (list R) :=
  map snd (filter (fun lr => (fst lr =? c)%Z) (combine labels (rows embeddings))).

(** Modelled from the spec: the "mean of all support embeddings sharing
    that class label" of models/losses.py, entry by entry. *)
Definition mean_rows (d : nat) (rs : list (list R)) : list R :=
  map (fun j => (sum_R (map (fun r => nth j r 0%R) rs) / INR (length rs))%R)
      (seq 0 d).

(** Modelled from the spec: the loop over the classes of
    [compute_prototypes] (models/losses.py): "Must handle the case of zero
    support examples for a class as an error (undefined mean)". *)
Fixpoint prototypes_of (embeddings : tensor) (labels : list Z) (d : nat)
    (classes : list Z) : result (list (list R)) :=
  match classes with
  | [] => Ok []
  | c :: cs =>
      match class_members embeddings labels c with
      | [] => Raise ValueError
      | rs =>
          ps <- prototypes_of embeddings labels d cs ;;
          Ok (mean_rows d rs :: ps)
      end
  end.

(** Modelled from the spec: [compute_prototypes] of models/losses.py, which
    is not among the sources.  "Input: support embeddings + support labels.
    Output: one prototype vector per class, computed as the mean of all
    support embeddings sharing that class label." *)
Definition compute_prototypes (embeddings : tensor) (labels : list Z) (n_way : Z)
  : result tensor :=
  let d := last (shape embeddings) 1 in
  ps <- prototypes_of embeddings labels d (arange n_way) ;;
  Ok (mkTensor [Z.to_nat n_way; d] (concat ps)).

(* ================================================================== *)
(** ** models/resnet18.py *)

(** 3x3 convolution with padding *)
Definition conv3x3 (K : Kernels) (in_planes out_planes stride : nat) : Conv2d.t :=
  Conv2d.new K in_planes out_planes 3 stride 1.

(** 1x1 convolution *)
Definition conv1x1 (K : Kernels) (in_planes out_planes stride : nat) : Conv2d.t :=
  Conv2d.new K in_planes out_planes 1 stride 0.

(** [nn.Sequential]: the modules applied in order. *)
Fixpoint sequential {M : Type} (fwd : M -> tensor -> result tensor)
    (ms : list M) (x : tensor) : result tensor :=
  match ms with
  | [] => Ok x
  | m :: ms' => y <- fwd m x ;; sequential fwd ms' y
  end.

Module BasicBlock.
Definition expansion : nat := 1.

Record t : Type := mk {
  conv1 : Conv2d.t;
  bn1 : BatchNorm2d.t;
  conv2 : Conv2d.t;
  bn2 : BatchNorm2d.t;
  downsample : option (Conv2d.t * BatchNorm2d.t);
  stride : nat
}.

Definition __init__ (K : Kernels) (inplanes planes stride : nat)
    (downsample : option (Conv2d.t * BatchNorm2d.t)) : t :=
  mk (conv3x3 K inplanes planes stride)
     (BatchNorm2d.new planes)
     (conv3x3 K planes planes 1)
     (BatchNorm2d.new planes)
     downsample
     stride.

Definition forward (K : Kernels) (training : bool) (self : t) (x : tensor)
  : result tensor :=
  let identity := x in
  out <- Conv2d.forward K (conv1 self) x ;;
  out <- BatchNorm2d.forward K training (bn1 self) out ;;
  let out := relu out in
  out <- Conv2d.forward K (conv2 self) out ;;
  out <- BatchNorm2d.forward K training (bn2 self) out ;;
  identity <- match downsample self with
              | Some (c, b) =>
                  y <- Conv2d.forward K c x ;;
                  BatchNorm2d.forward K training b y
              | None => Ok identity
              end ;;
  out <- iadd out identity ;;
  let out := relu out in
  Ok out.

(** The children in registration order; [downsample] is an
    [nn.Sequential] of a convolution and a batch normalisation, or [None]. *)
Definition entries (b : t) : state :=
  children
    ([("conv1"%string, Conv2d.entries (conv1 b));
      ("bn1"%string, BatchNorm2d.entries (bn1 b));
      ("conv2"%string, Conv2d.entries (conv2 b));
      ("bn2"%string, BatchNorm2d.entries (bn2 b))]
     ++ match downsample b with
        | Some (c, n) =>
            [("downsample"%string,
              children [("0"%string, Conv2d.entries c);
                        ("1"%string, BatchNorm2d.entries n)])]
        | None => []
        end).

Definition load (sd : list (string * tensor)) (strict : bool) (path : list string)
    (b : t) : result t :=
  c1 <- Conv2d.load sd strict (path ++ ["conv1"%string]) (conv1 b) ;;
  b1 <- BatchNorm2d.load sd strict (path ++ ["bn1"%string]) (bn1 b) ;;
  c2 <- Conv2d.load sd strict (path ++ ["conv2"%string]) (conv2 b) ;;
  b2 <- BatchNorm2d.load sd strict (path ++ ["bn2"%string]) (bn2 b) ;;
  d <- match downsample b with
       | Some (c, n) =>
           c' <- Conv2d.load sd strict (path ++ ["downsample"; "0"]%string) c ;;
           n' <- BatchNorm2d.load sd strict (path ++ ["downsample"; "1"]%string) n ;;
           Ok (Some (c', n'))
       | None => Ok None
       end ;;
  Ok (mk c1 b1 c2 b2 d (stride b)).

Definition parameters (b : t) : state :=
  children
    ([("conv1"%string, Conv2d.parameters (conv1 b));
      ("bn1"%string, BatchNorm2d.parameters (bn1 b));
      ("conv2"%string, Conv2d.parameters (conv2 b));
      ("bn2"%string, BatchNorm2d.parameters (bn2 b))]
     ++ match downsample b with
        | Some (c, n) =>
            [("downsample"%string,
              children [("0"%string, Conv2d.parameters c);
                        ("1"%string, BatchNorm2d.parameters n)])]
        | None => []
        end).
End BasicBlock.

Definition string_of_nat (n : nat) : string :=
  NilEmpty.string_of_uint (Nat.to_uint n).

(** The blocks of an [nn.Sequential] are named by their positions. *)
Definition indexed {A : Type} (start : nat) (l : list A) : list (nat * A) :=
  combine (seq start (length l)) l.

Definition layer_entries (l : list BasicBlock.t) : state :=
  children (map (fun ib => (string_of_nat (fst ib), BasicBlock.entries (snd ib)))
                (indexed 0 l)).

Definition layer_parameters (l : list BasicBlock.t) : state :=
  children (map (fun ib => (string_of_nat (fst ib), BasicBlock.parameters (snd ib)))
                (indexed 0 l)).

Definition load_layer (sd : list (string * tensor)) (strict : bool) (path : list string)
    (l : list BasicBlock.t) : result (list BasicBlock.t) :=
  mapM (fun ib => BasicBlock.load sd strict (path ++ [string_of_nat (fst ib)]) (snd ib))
       (indexed 0 l).

Module ResNet.
Record t : Type := mk {
  initial_pool : bool;
  inplanes : nat;
  conv1 : Conv2d.t;
  bn1 : BatchNorm2d.t;
  maxpool : MaxPool2d.t;
  layer1 : list BasicBlock.t;
  layer2 : list BasicBlock.t;
  layer3 : list BasicBlock.t;
  layer4 : list BasicBlock.t;
  dropout : Dropout.t;
  outplanes : nat;
  num_classes : option Z;          (* [None] is Python's [None] *)
  cls_fn : option head;      (* [None]: the attribute was never assigned *)
  training : bool
}.

(** One block from [self.inplanes] to [planes] channels with the stride,
    then [range(1, blocks)] further blocks; returns the layer and the new
    value of [self.inplanes]. *)
Definition _make_layer (K : Kernels) (inplanes planes blocks stride : nat)
  : list BasicBlock.t * nat :=
  let downsample :=
    if negb (stride =? 1) || negb (inplanes =? planes * BasicBlock.expansion)
    then Some (conv1x1 K inplanes (planes * BasicBlock.expansion) stride,
               BatchNorm2d.new (planes * BasicBlock.expansion))
    else None in
  let layers := [BasicBlock.__init__ K inplanes planes stride downsample] in
  let inplanes := planes * BasicBlock.expansion in
  let layers :=
    layers ++ map (fun _ => BasicBlock.__init__ K inplanes planes 1 None)
                  (seq 1 (blocks - 1)) in
  (layers, inplanes).

(** The loop over [self.modules()] that ends [__init__]: every
    convolution weight is drawn again, every batch-norm weight is set to
    1 and bias to 0.  The draw is named by the path of the module. *)
Definition init_conv (K : Kernels) (name : string) (c : Conv2d.t) : Conv2d.t :=
  Conv2d.mk (Conv2d.in_channels c) (Conv2d.out_channels c)
    (Conv2d.kernel_size c) (Conv2d.stride c) (Conv2d.padding c)
    (tabulate (shape (Conv2d.weight c))
       (kaiming_normal_at K (name ++ ".weight"))).

Definition init_bn (b : BatchNorm2d.t) : BatchNorm2d.t :=
  BatchNorm2d.mk (BatchNorm2d.num_features b)
    (full (shape (BatchNorm2d.weight b)) 1)
    (full (shape (BatchNorm2d.bias b)) 0)
    (BatchNorm2d.running_mean b) (BatchNorm2d.running_var b)
    (BatchNorm2d.num_batches_tracked b).

Definition init_block (K : Kernels) (name : string) (b : BasicBlock.t)
  : BasicBlock.t :=
  BasicBlock.mk
    (init_conv K (name ++ ".conv1") (BasicBlock.conv1 b))
    (init_bn (BasicBlock.bn1 b))
    (init_conv K (name ++ ".conv2") (BasicBlock.conv2 b))
    (init_bn (BasicBlock.bn2 b))
    (match BasicBlock.downsample b with
     | Some (c, n) => Some (init_conv K (name ++ ".downsample.0") c, init_bn n)
     | None => None
     end)
    (BasicBlock.stride b).

Definition init_layer (K : Kernels) (name : string) (l : list BasicBlock.t)
  : list BasicBlock.t :=
  map (fun ib => init_block K (name ++ "." ++ string_of_nat (fst ib)) (snd ib))
      (combine (seq 0 (length l)) l).

Definition init_modules (K : Kernels) (self : t) : t :=
  mk (initial_pool self) (inplanes self)
     (init_conv K "conv1" (conv1 self))
     (init_bn (bn1 self))
     (maxpool self)
     (init_layer K "layer1" (layer1 self))
     (init_layer K "layer2" (layer2 self))
     (init_layer K "layer3" (layer3 self))
     (init_layer K "layer4" (layer4 self))
     (dropout self) (outplanes self) (num_classes self) (cls_fn self)
     (training self).

Definition layers_at (layers : list nat) (i : nat) : result nat :=
  match nth_error layers i with
  | Some n => Ok n
  | None => Raise IndexError
  end.

(** [ResNet(block, layers, classifier, num_classes, dropout)], with
    [block = BasicBlock].  The classifier is created only for the kinds
    'linear' and 'cosine'; otherwise [cls_fn] is left unassigned. *)
Definition __init__ (K : Kernels) (layers : list nat)
    (classifier : option string) (num_classes : option Z) (dropout : Q)
  : result t :=
  let initial_pool := false in
  let inplanes := 64 in
  let self_inplanes := 64 in
  let conv1 := Conv2d.new K 3 self_inplanes 5 2 1 in
  let bn1 := BatchNorm2d.new self_inplanes in
  let maxpool := MaxPool2d.mk 3 2 1 in
  n0 <- layers_at layers 0 ;;
  let '(layer1, self_inplanes) := _make_layer K self_inplanes inplanes n0 1 in
  n1 <- layers_at layers 1 ;;
  let '(layer2, self_inplanes) := _make_layer K self_inplanes (inplanes * 2) n1 2 in
  n2 <- layers_at layers 2 ;;
  let '(layer3, self_inplanes) := _make_layer K self_inplanes (inplanes * 4) n2 2 in
  n3 <- layers_at layers 3 ;;
  let '(layer4, self_inplanes) := _make_layer K self_inplanes (inplanes * 8) n3 2 in
  dropout <- Dropout.new dropout ;;
  let outplanes := 512 in
  (* handle classifier creation *)
  cls_fn <-
    match num_classes with
    | Some nc =>
        match classifier with
        | Some kind =>
            if String.eqb kind "linear" then
              if (nc <? 0)%Z then Raise RuntimeError
              else Ok (Some (LinearHead (Linear.new K outplanes (Z.to_nat nc))))
            else if String.eqb kind "cosine" then
              if (nc <? 0)%Z then Raise RuntimeError
              else Ok (Some (CosineHead
                               (CosineClassifier.new K outplanes (Z.to_nat nc))))
            else Ok None
        | None => Ok None
        end
    | None => Ok None
    end ;;
  Ok (init_modules K
        (mk initial_pool self_inplanes conv1 bn1 maxpool
            layer1 layer2 layer3 layer4 dropout outplanes num_classes cls_fn
            true)).

(** [self.train(mode)] / [self.eval()]. *)
Definition train (mode : bool) (self : t) : t :=
  mk (initial_pool self) (inplanes self) (conv1 self) (bn1 self) (maxpool self)
     (layer1 self) (layer2 self) (layer3 self) (layer4 self)
     (dropout self) (outplanes self) (num_classes self) (cls_fn self) mode.

(** [self.embed(x)]: the stem, the four layers and the pooling, then
    [x.squeeze()].  [initial_pool] is [False], so the max pooling is
    skipped. *)
Definition embed (K : Kernels) (self : t) (x : tensor) : result tensor :=
  x <- Conv2d.forward K (conv1 self) x ;;
  x <- BatchNorm2d.forward K (training self) (bn1 self) x ;;
  let x := relu x in
  x <- (if initial_pool self then MaxPool2d.forward K (maxpool self) x else Ok x) ;;
  x <- sequential (BasicBlock.forward K (training self)) (layer1 self) x ;;
  x <- sequential (BasicBlock.forward K (training self)) (layer2 self) x ;;
  x <- sequential (BasicBlock.forward K (training self)) (layer3 self) x ;;
  x <- sequential (BasicBlock.forward K (training self)) (layer4 self) x ;;
  x <- AdaptiveAvgPool2d.forward K x ;;
  Ok (squeeze x).

(** [self.cls_fn]: reading an attribute that was never assigned raises. *)
Definition get_cls_fn (self : t) : result head :=
  match cls_fn self with
  | Some c => Ok c
  | None => Raise (AttributeError "cls_fn")
  end.

(** [self.forward(x)]: the embedding, the dropout layer, the classifier.
    [rng] is the state of the random generator when the call is made. *)
Definition forward (K : Kernels) (rng : nat) (self : t) (x : tensor)
  : result tensor :=
  x <- embed K self x ;;
  let x := Dropout.forward K (training self) rng (dropout self) x in
  c <- get_cls_fn self ;;
  cls_forward K c x.

(** An episode: two parallel batches of images and integer labels.  A
    label tensor is the values it holds and its integer type. *)
Record episode : Type := mkEpisode {
  support_images : tensor;
  support_labels : list Z;
  query_images : tensor;
  query_labels : list Z;
  support_dtype : dtype;
  query_dtype : dtype
}.

(** The label lists of the export, as [get_final_features] appends them.

    [np.zeros_like(s) + s] is computed in the type of the support labels.

    [np.ones_like(q) * 2 * self.num_classes + q]: [np.ones_like] keeps the
    type of the query labels, and so does the product by 2, a value of
    every integer type.  The product by [num_classes] keeps the type when
    [num_classes] is a value of it, and has the wider type of the engine
    otherwise; the sum has the type of the product.  Every operation wraps
    around in its type.

    [3 * self.num_classes + np.arange(self.num_classes)] and the prototype
    labels are sums of a Python int and an int64 array; they are exact as
    long as no sum leaves the int64 range: the offsets stay below
    [5 * num_classes], where [np.arange(num_classes)] has to fit in
    memory.  [np.concatenate] then converts the four arrays to one type
    that holds all their values. *)
Definition support_band (d : dtype) (support_labels : list Z) : list Z :=
  map (fun l => wrap d (wrap d 0 + l)) support_labels.

Definition query_band (K : Kernels) (d : dtype) (nc : Z) (query_labels : list Z)
  : list Z :=
  let t := if fits d nc then Some d else python_int_type K d nc in
  map (fun l => cast t (cast t (wrap d (wrap d 1 * 2) * nc) + l)) query_labels.

Definition weight_band (nc : Z) : list Z :=
  map (fun i => (3 * nc + i)%Z) (arange nc).

Definition proto_band (nc : Z) : list Z :=
  map (fun i => (4 * nc + i)%Z) (arange nc).

(** The Python list [features] of [get_final_features] before it is
    stacked, with the list [labels] before it is concatenated.  With
    [num_classes = None] the product on the query labels raises as soon as
    there is a query label, and [3 * None] raises in the classifier
    branch. *)
Definition final_blocks (K : Kernels) (self : t) (ep : episode)
  : result (list tensor * list (list Z)) :=
  (* support features *)
  support_features <- embed K self (support_images ep) ;;
  (* query features *)
  query_features <- embed K self (query_images ep) ;;
  let features := [] in
  let labels := [] in
  let labels := labels ++ [support_band (support_dtype ep) (support_labels ep)] in
  let features := features ++ [support_features] in
  match num_classes self with
  | None =>
      match query_labels ep with
      | _ :: _ => Raise TypeError
      | [] => _ <- get_cls_fn self ;; Raise TypeError
      end
  | Some nc =>
      let labels := labels ++ [query_band K (query_dtype ep) nc (query_labels ep)] in
      let features := features ++ [query_features] in
      (* classifier weights *)
      cls <- get_cls_fn self ;;
      (* [self.cls_fn != None] holds of every module *)
      let labels := labels ++ [weight_band nc] in
      let features := features ++ [T (cls_weight cls)] in
      (* Centroids *)
      let labels := labels ++ [proto_band nc] in
      protos <- compute_prototypes support_features (support_labels ep) nc ;;
      let features := features ++ [protos] in
      Ok (features, labels)
  end.

(** [self.get_final_features(episode)]: the labels concatenated, the
    features stacked and every row divided by its norm. *)
Definition get_final_features (K : Kernels) (self : t) (ep : episode)
  : result (tensor * list Z) :=
  fl <- final_blocks K self ep ;;
  let labels := concat (snd fl) in
  features <- vstack (fst fl) ;;
  let features := normalize features (/ 10 ^ 12)%R in
  Ok (features, labels).

(** [self.state_dict()]: the entries of the module and of its children in
    registration order ([conv1], [bn1], [layer1] .. [layer4], [cls_fn];
    the modules without parameters have no entry). *)
Definition entries (self : t) : state :=
  children
    ([("conv1"%string, Conv2d.entries (conv1 self));
      ("bn1"%string, BatchNorm2d.entries (bn1 self));
      ("layer1"%string, layer_entries (layer1 self));
      ("layer2"%string, layer_entries (layer2 self));
      ("layer3"%string, layer_entries (layer3 self));
      ("layer4"%string, layer_entries (layer4 self))]
     ++ match cls_fn self with
        | Some c => [("cls_fn"%string, head_entries c)]
        | None => []
        end).

(** Outputs all the state elements *)
Definition get_state_dict (self : t) : list (string * tensor) := state_dict (entries self).

(** [self.load_state_dict(sd, strict)], inherited from [nn.Module]: in
    strict mode a key of [sd] that names no tensor of the module is an
    error, like a tensor of the module that [sd] misses; every tensor found
    is copied, and must have the size of the one it replaces. *)
Definition load_state_dict (self : t) (sd : list (string * tensor)) (strict : bool)
  : result t :=
  if strict && negb (forallb (fun kv => existsb (String.eqb (fst kv))
                                          (map fst (get_state_dict self))) sd)
  then Raise RuntimeError
  else
    c1 <- Conv2d.load sd strict ["conv1"%string] (conv1 self) ;;
    b1 <- BatchNorm2d.load sd strict ["bn1"%string] (bn1 self) ;;
    l1 <- load_layer sd strict ["layer1"%string] (layer1 self) ;;
    l2 <- load_layer sd strict ["layer2"%string] (layer2 self) ;;
    l3 <- load_layer sd strict ["layer3"%string] (layer3 self) ;;
    l4 <- load_layer sd strict ["layer4"%string] (layer4 self) ;;
    cls <- match cls_fn self with
           | Some c => c' <- load_head sd strict ["cls_fn"%string] c ;; Ok (Some c')
           | None => Ok None
           end ;;
    Ok (mk (initial_pool self) (inplanes self) c1 b1 (maxpool self) l1 l2 l3 l4
           (dropout self) (outplanes self) (num_classes self) cls (training self)).

(** [self.named_parameters()]: the parameters of the module and of its
    children, in registration order. *)
Definition parameters (self : t) : state :=
  children
    ([("conv1"%string, Conv2d.parameters (conv1 self));
      ("bn1"%string, BatchNorm2d.parameters (bn1 self));
      ("layer1"%string, layer_parameters (layer1 self));
      ("layer2"%string, layer_parameters (layer2 self));
      ("layer3"%string, layer_parameters (layer3 self));
      ("layer4"%string, layer_parameters (layer4 self))]
     ++ match cls_fn self with
        | Some c => [("cls_fn"%string, head_parameters c)]
        | None => []
        end).

Definition named_parameters (self : t) : list (string * tensor) :=
  state_dict (parameters self).

(** Outputs all the parameters *)
Definition get_parameters (self : t) : list tensor :=
  map snd (named_parameters self).
End ResNet.

(** A key given to a Python subscript. *)
Inductive key : Type :=
| KStr (s : string)
| KInt (i : Z).

(** [d[k]] on a dictionary whose keys are strings. *)
Definition getitem {V : Type} (d : list (string * V)) (k : key) : result V :=
  match k with
  | KStr s =>
      match lookup d s with
      | Some v => Ok v
      | None => Raise KeyError
      end
  | KInt _ => Raise KeyError
  end.

(** What [torch.load] returns for a checkpoint file: a dictionary whose
    entry 'state_dict' maps parameter names to tensors. *)
Definition checkpoint : Type := list (string * list (string * tensor)).

(** Constructs a ResNet-18 model.  The result carries the lines printed.
    [ResNet] defines no method [load_parameters]. *)
Definition resnet18 (K : Kernels) (torch_load : option string -> result checkpoint)
    (pretrained : bool) (pretrained_model_path : option string)
    (classifier : option string) (num_classes : option Z) (dropout : Q)
  : result (ResNet.t * list string) :=
  model <- ResNet.__init__ K [2; 2; 2; 2] classifier num_classes dropout ;;
  if pretrained then
    first <- getitem (ResNet.get_state_dict model) (KInt 0) ;;
    let device := tt in
    ckpt_dict <- torch_load pretrained_model_path ;;
    state_dict <- getitem ckpt_dict (KStr "state_dict") ;;
    _ <- (Raise (AttributeError "load_parameters") : result unit) ;;
    let printed :=
      ["Loaded shared weights from "
       ++ match pretrained_model_path with Some f => f | None => "None" end]%string in
    Ok (model, printed)
  else Ok (model, []).

(* ================================================================== *)
(** * Properties

    ** The architecture the constructor builds *)

(** The configuration of a convolution. *)
Definition conv_cfg (c : Conv2d.t) (cin cout k s p : nat) : Prop :=
  Conv2d.in_channels c = cin /\ Conv2d.out_channels c = cout
  /\ Conv2d.kernel_size c = k /\ Conv2d.stride c = s /\ Conv2d.padding c = p.

(** A residual block from [cin] to [planes] channels with stride [s]. *)
Definition block_ok (cin planes s : nat) (b : BasicBlock.t) : Prop :=
  conv_cfg (BasicBlock.conv1 b) cin planes 3 s 1
  /\ BatchNorm2d.num_features (BasicBlock.bn1 b) = planes
  /\ conv_cfg (BasicBlock.conv2 b) planes planes 3 1 1
  /\ BatchNorm2d.num_features (BasicBlock.bn2 b) = planes
  /\ match BasicBlock.downsample b with
     | Some (c, n) => conv_cfg c cin planes 1 s 0 /\ BatchNorm2d.num_features n = planes
     | None => s = 1 /\ cin = planes
     end.

Definition layer_ok (cin planes s : nat) (l : list BasicBlock.t) : Prop :=
  match l with
  | [] => False
  | b :: rest => block_ok cin planes s b /\ Forall (block_ok planes planes 1) rest
  end.

Record ResNet_ok (m : ResNet.t) : Prop := {
  ok_pool : ResNet.initial_pool m = false;
  ok_conv1 : conv_cfg (ResNet.conv1 m) 3 64 5 2 1;
  ok_bn1 : BatchNorm2d.num_features (ResNet.bn1 m) = 64;
  ok_layer1 : layer_ok 64 64 1 (ResNet.layer1 m);
  ok_layer2 : layer_ok 64 128 2 (ResNet.layer2 m);
  ok_layer3 : layer_ok 128 256 2 (ResNet.layer3 m);
  ok_layer4 : layer_ok 256 512 2 (ResNet.layer4 m)
}.

(** An engine whose kernels all return 0: it runs the model on concrete
    inputs. *)
Definition null_engine : Kernels :=
  {| conv2d_at := fun _ _ _ _ _ => 0%R;
     batch_norm_at := fun _ _ _ _ _ _ _ => 0%R;
     max_pool2d_at := fun _ _ _ _ _ => 0%R;
     adaptive_avg_pool2d_at := fun _ _ => 0%R;
     dropout_at := fun _ _ _ _ => 0%R;
     linear_at := fun _ _ _ _ => 0%R;
     cosine_at := fun _ _ _ => 0%R;
     kaiming_normal_at := fun _ _ => 0%R;
     default_init_at := fun _ _ => 0%R;
     python_int_type := fun _ _ => None |}.

(** What the constructor leaves in the attribute [cls_fn]. *)
Definition made_head (K : Kernels) (classifier : option string) (num_classes : option Z)
  : option head :=
  match num_classes, classifier with
  | Some nc, Some kind =>
      if String.eqb kind "linear"
      then Some (LinearHead (Linear.new K 512 (Z.to_nat nc)))
      else if String.eqb kind "cosine"
      then Some (CosineHead (CosineClassifier.new K 512 (Z.to_nat nc)))
      else None
  | _, _ => None
  end.

(** ** Tensors, labels and rows *)

(** The storage holds as many numbers as the sizes say. *)
Definition wf (x : tensor) : Prop := length (data x) = numel (shape x).

(** The label vector of the export for [nc] classes. *)
Definition export_labels (K : Kernels) (nc : Z) (ep : ResNet.episode) : list Z :=
  ResNet.support_band (ResNet.support_dtype ep) (ResNet.support_labels ep)
  ++ ResNet.query_band K (ResNet.query_dtype ep) nc (ResNet.query_labels ep)
  ++ map (fun i => (3 * nc + i)%Z) (arange nc)
  ++ map (fun i => (4 * nc + i)%Z) (arange nc).

(** A batch of [n] zero images of height [h] and width [w]. *)
Definition images (n h w : nat) : tensor := full [n; 3; h; w] 0.

(** Two support images of classes 0 and 1 and one query image; the labels
    are int64 tensors, the type of class indices in torch. *)
Definition episode_2way : ResNet.episode :=
  ResNet.mkEpisode (images 2 84 84) [0; 1]%Z (images 1 84 84) [1]%Z Int64 Int64.


(** The model with another dropout module. *)
Definition set_dropout (d : Dropout.t) (m : ResNet.t) : ResNet.t :=
  ResNet.mk (ResNet.initial_pool m) (ResNet.inplanes m) (ResNet.conv1 m)
    (ResNet.bn1 m) (ResNet.maxpool m) (ResNet.layer1 m) (ResNet.layer2 m)
    (ResNet.layer3 m) (ResNet.layer4 m) d (ResNet.outplanes m)
    (ResNet.num_classes m) (ResNet.cls_fn m) (ResNet.training m).

(** A classifier kind that is neither 'linear' nor 'cosine'. *)
Definition unrecognized (classifier : option string) : Prop :=
  match classifier with
  | Some kind => String.eqb kind "linear" = false /\ String.eqb kind "cosine" = false
  | None => True
  end.



(** A row of zeros. *)
Definition zeros (v : list R) : Prop := Forall (fun a => a = 0%R) v.

(** ** Names of the state dictionary *)

(** A name component: a string without a dot. *)
Fixpoint nodot (s : string) : bool :=
  match s with
  | EmptyString => true
  | String c s' => negb (Ascii.eqb c ".") && nodot s'
  end.

(** A path of the state: not empty, every component without a dot. *)
Definition good_path (p : list string) : Prop :=
  p <> [] /\ Forall (fun c => nodot c = true) p.

(** The paths of the entries, in order. *)
Definition paths (es : state) : list (list string) := map fst es.

(** The paths are distinct and made of components without dots. *)
Definition tidy (es : state) : Prop :=
  NoDup (paths es) /\ Forall (Forall (fun c => nodot c = true)) (paths es).

(** Every entry of [es] is found in [sd] under its name below [prefix]. *)
Definition covers (sd : list (string * tensor)) (prefix : list string) (es : state)
  : Prop :=
  forall p t, In (p, t) es -> lookup sd (join (prefix ++ p)) = Some t.

(** ** Models of one configuration

    Equal hyperparameters, and tensors of equal sizes under every name. *)
Definition conv_like (c0 c : Conv2d.t) : Prop :=
  Conv2d.in_channels c0 = Conv2d.in_channels c
  /\ Conv2d.out_channels c0 = Conv2d.out_channels c
  /\ Conv2d.kernel_size c0 = Conv2d.kernel_size c
  /\ Conv2d.stride c0 = Conv2d.stride c
  /\ Conv2d.padding c0 = Conv2d.padding c
  /\ shape (Conv2d.weight c0) = shape (Conv2d.weight c).

Definition bn_like (b0 b : BatchNorm2d.t) : Prop :=
  BatchNorm2d.num_features b0 = BatchNorm2d.num_features b
  /\ shape (BatchNorm2d.weight b0) = shape (BatchNorm2d.weight b)
  /\ shape (BatchNorm2d.bias b0) = shape (BatchNorm2d.bias b)
  /\ shape (BatchNorm2d.running_mean b0) = shape (BatchNorm2d.running_mean b)
  /\ shape (BatchNorm2d.running_var b0) = shape (BatchNorm2d.running_var b)
  /\ shape (BatchNorm2d.num_batches_tracked b0)
     = shape (BatchNorm2d.num_batches_tracked b).

Definition downsample_like (d0 d : option (Conv2d.t * BatchNorm2d.t)) : Prop :=
  match d0, d with
  | Some (c0, n0), Some (c, n) => conv_like c0 c /\ bn_like n0 n
  | None, None => True
  | _, _ => False
  end.

Definition block_like (b0 b : BasicBlock.t) : Prop :=
  conv_like (BasicBlock.conv1 b0) (BasicBlock.conv1 b)
  /\ bn_like (BasicBlock.bn1 b0) (BasicBlock.bn1 b)
  /\ conv_like (BasicBlock.conv2 b0) (BasicBlock.conv2 b)
  /\ bn_like (BasicBlock.bn2 b0) (BasicBlock.bn2 b)
  /\ downsample_like (BasicBlock.downsample b0) (BasicBlock.downsample b)
  /\ BasicBlock.stride b0 = BasicBlock.stride b.

Definition head_like (h0 h : option head) : Prop :=
  match h0, h with
  | Some (LinearHead l0), Some (LinearHead l) =>
      Linear.in_features l0 = Linear.in_features l
      /\ Linear.out_features l0 = Linear.out_features l
      /\ shape (Linear.weight l0) = shape (Linear.weight l)
      /\ shape (Linear.bias l0) = shape (Linear.bias l)
  | Some (CosineHead c0), Some (CosineHead c) =>
      CosineClassifier.n_feat c0 = CosineClassifier.n_feat c
      /\ CosineClassifier.num_classes c0 = CosineClassifier.num_classes c
      /\ shape (CosineClassifier.weight c0) = shape (CosineClassifier.weight c)
  | None, None => True
  | _, _ => False
  end.

Record resnet_like (m0 m : ResNet.t) : Prop := {
  like_pool : ResNet.initial_pool m0 = ResNet.initial_pool m;
  like_inplanes : ResNet.inplanes m0 = ResNet.inplanes m;
  like_conv1 : conv_like (ResNet.conv1 m0) (ResNet.conv1 m);
  like_bn1 : bn_like (ResNet.bn1 m0) (ResNet.bn1 m);
  like_maxpool : ResNet.maxpool m0 = ResNet.maxpool m;
  like_layer1 : Forall2 block_like (ResNet.layer1 m0) (ResNet.layer1 m);
  like_layer2 : Forall2 block_like (ResNet.layer2 m0) (ResNet.layer2 m);
  like_layer3 : Forall2 block_like (ResNet.layer3 m0) (ResNet.layer3 m);
  like_layer4 : Forall2 block_like (ResNet.layer4 m0) (ResNet.layer4 m);
  like_dropout : ResNet.dropout m0 = ResNet.dropout m;
  like_outplanes : ResNet.outplanes m0 = ResNet.outplanes m;
  like_num_classes : ResNet.num_classes m0 = ResNet.num_classes m;
  like_cls_fn : head_like (ResNet.cls_fn m0) (ResNet.cls_fn m)
}.

(** An engine whose initial draws are all 1. *)
Definition ones_engine : Kernels :=
  {| conv2d_at := fun _ _ _ _ _ => 0%R;
     batch_norm_at := fun _ _ _ _ _ _ _ => 0%R;
     max_pool2d_at := fun _ _ _ _ _ => 0%R;
     adaptive_avg_pool2d_at := fun _ _ => 0%R;
     dropout_at := fun _ _ _ _ => 0%R;
     linear_at := fun _ _ _ _ => 0%R;
     cosine_at := fun _ _ _ => 0%R;
     kaiming_normal_at := fun _ _ => 1%R;
     default_init_at := fun _ _ => 1%R;
     python_int_type := fun _ _ => None |}.

(** ** Parameters and buffers *)

(** The path ends in the name of a buffer of a batch normalisation. *)
Definition buffer_path (p : list string) : bool :=
  let a := last p ""%string in
  String.eqb a "running_mean" || String.eqb a "running_var"
  || String.eqb a "num_batches_tracked".

Definition is_parameter (pt : list string * tensor) : bool :=
  negb (buffer_path (fst pt)).

(** The batch normalisations of a block and of the network. *)
Definition block_bns (b : BasicBlock.t) : list BatchNorm2d.t :=
  [BasicBlock.bn1 b; BasicBlock.bn2 b]
  ++ match BasicBlock.downsample b with
     | Some (_, n) => [n]
     | None => []
     end.

Definition bns (m : ResNet.t) : list BatchNorm2d.t :=
  ResNet.bn1 m
  :: flat_map block_bns
       (ResNet.layer1 m ++ ResNet.layer2 m ++ ResNet.layer3 m ++ ResNet.layer4 m).

(** The convolutions of a block and of the network. *)
Definition block_convs (b : BasicBlock.t) : list Conv2d.t :=
  [BasicBlock.conv1 b; BasicBlock.conv2 b]
  ++ match BasicBlock.downsample b with
     | Some (c, _) => [c]
     | None => []
     end.

Definition convs (m : ResNet.t) : list Conv2d.t :=
  ResNet.conv1 m
  :: flat_map block_convs
       (ResNet.layer1 m ++ ResNet.layer2 m ++ ResNet.layer3 m ++ ResNet.layer4 m).

(** ** The names of the 18-layer network *)

Definition bn_keys (prefix : string) : list string :=
  map (String.append prefix)
      [".weight"; ".bias"; ".running_mean"; ".running_var"; ".num_batches_tracked"]%string.

(** The names of a block, with or without the shortcut convolution. *)
Definition block_keys (prefix : string) (shortcut : bool) : list string :=
  [prefix ++ ".conv1.weight"]%string
  ++ bn_keys (prefix ++ ".bn1")
  ++ [prefix ++ ".conv2.weight"]%string
  ++ bn_keys (prefix ++ ".bn2")
  ++ (if shortcut
      then [prefix ++ ".downsample.0.weight"]%string ++ bn_keys (prefix ++ ".downsample.1")
      else []).

Definition resnet18_keys : list string :=
  ["conv1.weight"%string] ++ bn_keys "bn1"
  ++ block_keys "layer1.0" false ++ block_keys "layer1.1" false
  ++ block_keys "layer2.0" true ++ block_keys "layer2.1" false
  ++ block_keys "layer3.0" true ++ block_keys "layer3.1" false
  ++ block_keys "layer4.0" true ++ block_keys "layer4.1" false.

(** ** The sizes of the tensors of the 18-layer network *)

Definition bn_sizes (c : nat) : list (list nat) := [[c]; [c]; [c]; [c]; []].

(** The sizes of the tensors of a block from [cin] to [cout] channels. *)
Definition block_sizes (cin cout : nat) (shortcut : bool) : list (list nat) :=
  [[cout; cin; 3; 3]] ++ bn_sizes cout
  ++ [[cout; cout; 3; 3]] ++ bn_sizes cout
  ++ (if shortcut then [[cout; cin; 1; 1]] ++ bn_sizes cout else []).

Definition resnet18_sizes : list (list nat) :=
  [[64; 3; 5; 5]] ++ bn_sizes 64
  ++ block_sizes 64 64 false ++ block_sizes 64 64 false
  ++ block_sizes 64 128 true ++ block_sizes 128 128 false
  ++ block_sizes 128 256 true ++ block_sizes 256 256 false
  ++ block_sizes 256 512 true ++ block_sizes 512 512 false.

(** ** Sizes of the feature maps

    The height (or width) after the stem convolution [conv1] (kernel 5,
    stride 2, padding 1), after a layer whose first block has stride [s],
    and of the last feature map, the one that is pooled. *)
Definition stem_size (h : nat) : nat := (h + 2 * 1 - 5) / 2 + 1.

Definition strided (s h : nat) : nat := (h - 1) / s + 1.

Definition last_size (h : nat) : nat :=
  strided 2 (strided 2 (strided 2 (strided 1 (stem_size h)))).

(* ================================================================== *)
(** ** Sizes through the layers *)

Lemma bind_ok {A B : Type} (r : result A) (k : A -> result B) (a : A) :
  r = Ok a -> bind r k = k a.
Proof. intros ->. reflexivity. Qed.

Lemma shape_eqb_refl (s : list nat) : shape_eqb s s = true.
Proof.
  induction s as [|d s IH]; [reflexivity|].
  cbn [shape_eqb]. now rewrite Nat.eqb_refl, IH.
Qed.

Lemma shape_eqb_eq (a b : list nat) : shape_eqb a b = true -> a = b.
Proof.
  revert b. induction a as [|x a IH]; intros [|y b]; cbn [shape_eqb]; try discriminate.
  - reflexivity.
  - intros H. apply andb_true_iff in H as [H1 H2].
    apply Nat.eqb_eq in H1. subst. f_equal. now apply IH.
Qed.

Section Sizes.
Variable K : Kernels.

Lemma conv_forward_shape (c : Conv2d.t) (x : tensor) (cin cout k s p n h w : nat) :
  conv_cfg c cin cout k s p ->
  shape x = [n; cin; h; w] ->
  k <= h + 2 * p -> k <= w + 2 * p ->
  exists y, Conv2d.forward K c x = Ok y
            /\ shape y = [n; cout; (h + 2 * p - k) / s + 1; (w + 2 * p - k) / s + 1].
Proof.
  intros (Hi & Ho & Hk & Hs & Hp) Hx Hh Hw.
  unfold Conv2d.forward, Conv2d.out_size. rewrite Hx, Hi, Ho, Hk, Hs, Hp.
  rewrite Nat.eqb_refl.
  apply Nat.leb_le in Hh, Hw. rewrite Hh, Hw. cbn [andb].
  eexists. split; reflexivity.
Qed.

Lemma bn_forward_shape (tr : bool) (b : BatchNorm2d.t) (x : tensor) (c n h w : nat) :
  BatchNorm2d.num_features b = c ->
  shape x = [n; c; h; w] ->
  1 <= h -> 1 <= w ->
  tr = false \/ 2 <= n \/ 2 <= h ->
  exists y, BatchNorm2d.forward K tr b x = Ok y /\ shape y = [n; c; h; w].
Proof.
  intros Hc Hx Hh Hw Hb.
  unfold BatchNorm2d.forward. rewrite Hx, Hc, Nat.eqb_refl.
  assert (Hne : tr && (n * (h * w) =? 1) = false).
  { destruct tr; [|reflexivity]. cbn [andb]. apply Nat.eqb_neq. intros E.
    apply Nat.eq_mul_1 in E as [En E]. apply Nat.eq_mul_1 in E as [Eh _].
    destruct Hb as [Hb|[Hb|Hb]]; [discriminate|lia|lia]. }
  rewrite Hne. cbn [negb]. eexists. split; reflexivity.
Qed.

Lemma block_forward_shape (tr : bool) (b : BasicBlock.t) (x : tensor)
    (cin planes s n h w : nat) :
  block_ok cin planes s b ->
  1 <= s ->
  shape x = [n; cin; h; w] ->
  1 <= h -> 1 <= w ->
  tr = false \/ 2 <= n \/ 2 <= (h - 1) / s + 1 ->
  exists y, BasicBlock.forward K tr b x = Ok y
            /\ shape y = [n; planes; (h - 1) / s + 1; (w - 1) / s + 1].
Proof.
  intros (Hc1 & Hb1 & Hc2 & Hb2 & Hd) Hs Hx Hh Hw Hb.
  unfold BasicBlock.forward.
  destruct (conv_forward_shape _ x _ _ _ _ _ n h w Hc1 Hx) as (y1 & E1 & S1); [lia|lia|].
  replace (h + 2 * 1 - 3) with (h - 1) in S1 by lia.
  replace (w + 2 * 1 - 3) with (w - 1) in S1 by lia.
  rewrite (bind_ok _ _ _ E1).
  destruct (bn_forward_shape tr _ y1 _ _ _ _ Hb1 S1) as (y2 & E2 & S2); [lia|lia|exact Hb|].
  rewrite (bind_ok _ _ _ E2).
  assert (S2' : shape (relu y2) = [n; planes; (h - 1) / s + 1; (w - 1) / s + 1])
    by exact S2.
  destruct (conv_forward_shape _ (relu y2) _ _ _ _ _ _ _ _ Hc2 S2') as (y3 & E3 & S3);
    [lia|lia|].
  replace (((h - 1) / s + 1 + 2 * 1 - 3) / 1 + 1) with ((h - 1) / s + 1) in S3
    by (rewrite Nat.div_1_r; lia).
  replace (((w - 1) / s + 1 + 2 * 1 - 3) / 1 + 1) with ((w - 1) / s + 1) in S3
    by (rewrite Nat.div_1_r; lia).
  rewrite (bind_ok _ _ _ E3).
  destruct (bn_forward_shape tr _ y3 _ _ _ _ Hb2 S3) as (y4 & E4 & S4); [lia|lia|exact Hb|].
  rewrite (bind_ok _ _ _ E4).
  assert (Hid : exists i,
             match BasicBlock.downsample b with
             | Some (c, bn) =>
                 y <- Conv2d.forward K c x ;; BatchNorm2d.forward K tr bn y
             | None => Ok x
             end = Ok i
             /\ shape i = [n; planes; (h - 1) / s + 1; (w - 1) / s + 1]).
  { destruct (BasicBlock.downsample b) as [[c bn]|].
    - destruct Hd as [Hc Hn].
      destruct (conv_forward_shape _ x _ _ _ _ _ n h w Hc Hx) as (d1 & D1 & T1); [lia|lia|].
      replace (h + 2 * 0 - 1) with (h - 1) in T1 by lia.
      replace (w + 2 * 0 - 1) with (w - 1) in T1 by lia.
      rewrite (bind_ok _ _ _ D1).
      destruct (bn_forward_shape tr _ d1 _ _ _ _ Hn T1) as (d2 & D2 & T2);
        [lia|lia|exact Hb|].
      exists d2. split; assumption.
    - destruct Hd as [-> ->]. exists x. split; [reflexivity|].
      rewrite Hx, !Nat.div_1_r. repeat f_equal; lia. }
  destruct Hid as (i & Ei & Si). rewrite (bind_ok _ _ _ Ei).
  unfold iadd. rewrite S4, Si, shape_eqb_refl. cbn [bind].
  eexists. split; reflexivity.
Qed.

Lemma sequential_same_shape (tr : bool) (l : list BasicBlock.t) (x : tensor)
    (planes n h w : nat) :
  Forall (block_ok planes planes 1) l ->
  shape x = [n; planes; h; w] ->
  1 <= h -> 1 <= w ->
  tr = false \/ 2 <= n \/ 2 <= h ->
  exists y, sequential (BasicBlock.forward K tr) l x = Ok y
            /\ shape y = [n; planes; h; w].
Proof.
  intros Hl. revert x. induction Hl as [|b l Hb Hl IH]; intros x Hx Hh Hw Hbn.
  - exists x. split; [reflexivity|exact Hx].
  - cbn [sequential].
    destruct (block_forward_shape tr b x _ _ _ n h w Hb (le_n 1) Hx Hh Hw) as (y & E & S).
    { rewrite Nat.div_1_r. destruct Hbn as [?|[?|?]]; [now left|right; now left|right; right; lia]. }
    rewrite !Nat.div_1_r in S.
    replace (h - 1 + 1) with h in S by lia. replace (w - 1 + 1) with w in S by lia.
    rewrite (bind_ok _ _ _ E). now apply IH.
Qed.

Lemma layer_forward_shape (tr : bool) (l : list BasicBlock.t) (x : tensor)
    (cin planes s n h w : nat) :
  layer_ok cin planes s l ->
  1 <= s ->
  shape x = [n; cin; h; w] ->
  1 <= h -> 1 <= w ->
  tr = false \/ 2 <= n \/ 2 <= (h - 1) / s + 1 ->
  exists y, sequential (BasicBlock.forward K tr) l x = Ok y
            /\ shape y = [n; planes; (h - 1) / s + 1; (w - 1) / s + 1].
Proof.
  intros Hl Hs Hx Hh Hw Hbn. destruct l as [|b rest]; [destruct Hl|].
  destruct Hl as [Hb Hrest]. cbn [sequential].
  destruct (block_forward_shape tr b x _ _ _ n h w Hb Hs Hx Hh Hw Hbn) as (y & E & S).
  rewrite (bind_ok _ _ _ E).
  apply (sequential_same_shape tr rest y planes n _ _ Hrest S); [lia|lia|exact Hbn].
Qed.

End Sizes.

(* ================================================================== *)
(** ** The constructor establishes the architecture *)

Lemma init_conv_cfg (K : Kernels) (name : string) (c : Conv2d.t) (cin cout k s p : nat) :
  conv_cfg c cin cout k s p -> conv_cfg (ResNet.init_conv K name c) cin cout k s p.
Proof. intros H. exact H. Qed.

Lemma new_conv_cfg (K : Kernels) (cin cout k s p : nat) :
  conv_cfg (Conv2d.new K cin cout k s p) cin cout k s p.
Proof. repeat split. Qed.

Lemma init_block_ok (K : Kernels) (name : string) (b : BasicBlock.t) (cin planes s : nat) :
  block_ok cin planes s b -> block_ok cin planes s (ResNet.init_block K name b).
Proof.
  intros (H1 & H2 & H3 & H4 & H5). unfold block_ok, ResNet.init_block.
  cbn [BasicBlock.conv1 BasicBlock.bn1 BasicBlock.conv2 BasicBlock.bn2
       BasicBlock.downsample].
  repeat split; try apply H1; try apply H3; try assumption.
  destruct (BasicBlock.downsample b) as [[c n]|]; exact H5.
Qed.

Lemma init_blocks_ok (K : Kernels) (name : nat -> string) (l : list BasicBlock.t)
    (cin planes s start : nat) :
  Forall (block_ok cin planes s) l ->
  Forall (block_ok cin planes s)
    (map (fun ib => ResNet.init_block K (name (fst ib)) (snd ib))
         (combine (seq start (length l)) l)).
Proof.
  intros H. revert start. induction H as [|b l Hb Hl IH]; intros start.
  - constructor.
  - cbn [length seq combine map fst snd]. constructor.
    + now apply init_block_ok.
    + apply IH.
Qed.

Lemma init_layer_ok (K : Kernels) (name : string) (l : list BasicBlock.t)
    (cin planes s : nat) :
  layer_ok cin planes s l -> layer_ok cin planes s (ResNet.init_layer K name l).
Proof.
  destruct l as [|b rest]; [intros []|]. intros [Hb Hrest].
  unfold ResNet.init_layer. cbn [length seq combine map fst snd layer_ok]. split.
  - now apply init_block_ok.
  - apply (init_blocks_ok K (fun i => (name ++ "." ++ string_of_nat i)%string)).
    exact Hrest.
Qed.

Lemma make_layer_ok (K : Kernels) (inplanes planes blocks stride : nat) :
  layer_ok inplanes planes stride
    (fst (ResNet._make_layer K inplanes planes blocks stride))
  /\ snd (ResNet._make_layer K inplanes planes blocks stride) = planes.
Proof.
  unfold ResNet._make_layer, BasicBlock.expansion. rewrite !Nat.mul_1_r.
  cbn [fst snd app layer_ok]. split; [|reflexivity]. split.
  - unfold block_ok, BasicBlock.__init__, conv3x3.
    cbn [BasicBlock.conv1 BasicBlock.bn1 BasicBlock.conv2 BasicBlock.bn2
         BasicBlock.downsample].
    repeat split.
    destruct (negb (stride =? 1) || negb (inplanes =? planes)) eqn:E.
    + repeat split.
    + apply orb_false_iff in E as [E1 E2].
      apply negb_false_iff in E1, E2. apply Nat.eqb_eq in E1, E2. now split.
  - apply Forall_forall. intros b Hin. apply in_map_iff in Hin as (i & <- & _).
    unfold block_ok, BasicBlock.__init__, conv3x3.
    cbn [BasicBlock.conv1 BasicBlock.bn1 BasicBlock.conv2 BasicBlock.bn2
         BasicBlock.downsample].
    repeat split.
Qed.

Lemma init_inv (K : Kernels) (layers : list nat) (classifier : option string)
    (num_classes : option Z) (p : Q) (m : ResNet.t) :
  ResNet.__init__ K layers classifier num_classes p = Ok m ->
  ResNet_ok m
  /\ ResNet.training m = true
  /\ ResNet.num_classes m = num_classes
  /\ ResNet.cls_fn m = made_head K classifier num_classes
  /\ ResNet.dropout m = Dropout.mk p.
Proof.
  unfold ResNet.__init__.
  destruct (ResNet.layers_at layers 0) as [n0|]; [|discriminate].
  destruct (ResNet.layers_at layers 1) as [n1|]; [|discriminate].
  destruct (ResNet.layers_at layers 2) as [n2|]; [|discriminate].
  destruct (ResNet.layers_at layers 3) as [n3|]; [|discriminate].
  cbn [bind].
  destruct (make_layer_ok K 64 64 n0 1) as [L1 I1].
  destruct (ResNet._make_layer K 64 64 n0 1) as [l1 i1]. cbn [fst snd] in L1, I1. subst i1.
  destruct (make_layer_ok K 64 (64 * 2) n1 2) as [L2 I2].
  destruct (ResNet._make_layer K 64 (64 * 2) n1 2) as [l2 i2]. cbn [fst snd] in L2, I2.
  subst i2.
  destruct (make_layer_ok K (64 * 2) (64 * 4) n2 2) as [L3 I3].
  destruct (ResNet._make_layer K (64 * 2) (64 * 4) n2 2) as [l3 i3].
  cbn [fst snd] in L3, I3. subst i3.
  destruct (make_layer_ok K (64 * 4) (64 * 8) n3 2) as [L4 I4].
  destruct (ResNet._make_layer K (64 * 4) (64 * 8) n3 2) as [l4 i4].
  cbn [fst snd] in L4, I4. subst i4.
  unfold Dropout.new. destruct (Qle_bool 0 p && Qle_bool p 1); [|discriminate].
  cbn [bind].
  assert (Hh : forall r : result (option head),
             r = match num_classes with
                 | Some nc =>
                     match classifier with
                     | Some kind =>
                         if String.eqb kind "linear"
                         then if (nc <? 0)%Z then Raise RuntimeError
                              else Ok (Some (LinearHead (Linear.new K 512 (Z.to_nat nc))))
                         else if String.eqb kind "cosine"
                         then if (nc <? 0)%Z then Raise RuntimeError
                              else Ok (Some (CosineHead
                                               (CosineClassifier.new K 512 (Z.to_nat nc))))
                         else Ok None
                     | None => Ok None
                     end
                 | None => Ok None
                 end ->
             forall h, r = Ok h -> h = made_head K classifier num_classes).
  { intros r -> h. unfold made_head.
    destruct num_classes as [nc|]; [|now intros [= <-]].
    destruct classifier as [kind|]; [|now intros [= <-]].
    destruct (String.eqb kind "linear").
    - destruct (nc <? 0)%Z; [discriminate|now intros [= <-]].
    - destruct (String.eqb kind "cosine"); [|now intros [= <-]].
      destruct (nc <? 0)%Z; [discriminate|now intros [= <-]]. }
  match goal with |- bind ?r _ = _ -> _ => specialize (Hh r eq_refl); destruct r as [h|] end;
    [|discriminate].
  specialize (Hh h eq_refl). cbn [bind]. intros [= <-].
  unfold ResNet.init_modules.
  cbn [ResNet.training ResNet.num_classes ResNet.cls_fn ResNet.dropout].
  split; [|repeat split; assumption].
  constructor;
    cbn [ResNet.initial_pool ResNet.conv1 ResNet.bn1 ResNet.layer1 ResNet.layer2
         ResNet.layer3 ResNet.layer4].
  - reflexivity.
  - apply init_conv_cfg, new_conv_cfg.
  - reflexivity.
  - now apply init_layer_ok.
  - now apply init_layer_ok.
  - now apply init_layer_ok.
  - now apply init_layer_ok.
Qed.

(** The constructor of the 18-layer variant succeeds on a valid dropout
    probability and a class count that is not negative. *)
Lemma resnet18_init_ok (K : Kernels) (classifier : option string)
    (num_classes : option Z) (p : Q) :
  Qle_bool 0 p && Qle_bool p 1 = true ->
  match num_classes with Some nc => (0 <= nc)%Z | None => True end ->
  exists m, ResNet.__init__ K [2; 2; 2; 2] classifier num_classes p = Ok m.
Proof.
  intros Hp Hnc. unfold ResNet.__init__, ResNet.layers_at. cbn [nth_error bind].
  destruct (ResNet._make_layer K 64 64 2 1) as [l1 i1].
  destruct (ResNet._make_layer K i1 (64 * 2) 2 2) as [l2 i2].
  destruct (ResNet._make_layer K i2 (64 * 4) 2 2) as [l3 i3].
  destruct (ResNet._make_layer K i3 (64 * 8) 2 2) as [l4 i4].
  unfold Dropout.new. rewrite Hp. cbn [bind].
  destruct num_classes as [nc|]; [|eexists; reflexivity].
  destruct classifier as [kind|]; [|eexists; reflexivity].
  assert (Hn : (nc <? 0)%Z = false) by (apply Z.ltb_ge; exact Hnc).
  rewrite Hn.
  destruct (String.eqb kind "linear"); [eexists; reflexivity|].
  destruct (String.eqb kind "cosine"); eexists; reflexivity.
Qed.

(* ================================================================== *)
(** ** [embed]: the size of the embeddings *)

Lemma numel_pooled (n : nat) : numel [n; 512; 1; 1] = n * 512.
Proof. unfold numel, fold_right. lia. Qed.

(** On a batch of [n] three-channel images of height and width at least 3,
    [embed] returns [n * 512] numbers: a matrix [n; 512] or, for [n = 1],
    a single vector [512].  In training mode batch normalisation needs more
    than one value per channel: two images, or a last feature map with two
    rows (height 19 at least). *)
Lemma half_lower (a q : nat) : 2 * q <= a -> q <= a / 2.
Proof. intros H. apply Nat.div_le_lower_bound; [discriminate|exact H]. Qed.

Lemma down_lower (a q : nat) : 2 * q + 1 <= a -> q + 1 <= (a - 1) / 2 + 1.
Proof. intros H. assert (q <= (a - 1) / 2) by (apply half_lower; lia). lia. Qed.

Lemma embed_value (K : Kernels) (m : ResNet.t) (x : tensor) (n h w : nat) :
  ResNet_ok m ->
  shape x = [n; 3; h; w] ->
  3 <= h -> 3 <= w ->
  ResNet.training m = false \/ 2 <= n \/ 19 <= h ->
  exists z, ResNet.embed K m x
            = Ok (mkTensor (if n =? 1 then [512] else [n; 512])
                           (map (adaptive_avg_pool2d_at K z) (seq 0 (n * 512)))).
Proof.
  intros [Hpool Hc1 Hb1 L1 L2 L3 L4] Hx Hh Hw Hbn.
  unfold ResNet.embed. rewrite Hpool.
  set (tr := ResNet.training m) in *.
  destruct (conv_forward_shape K _ x _ _ _ _ _ n h w Hc1 Hx) as (y1 & E1 & S1); [lia|lia|].
  replace (h + 2 * 1 - 5) with (h - 3) in S1 by lia.
  replace (w + 2 * 1 - 5) with (w - 3) in S1 by lia.
  rewrite (bind_ok _ _ _ E1).
  set (h1 := (h - 3) / 2 + 1) in *. set (w1 := (w - 3) / 2 + 1) in *.
  assert (Hh1 : 1 <= h1) by (unfold h1; lia). assert (Hw1 : 1 <= w1) by (unfold w1; lia).
  assert (B1 : tr = false \/ 2 <= n \/ 9 <= h1).
  { destruct Hbn as [?|[?|?]]; [now left|right; now left|right; right].
    unfold h1. assert (8 <= (h - 3) / 2) by (apply half_lower; lia). lia. }
  destruct (bn_forward_shape K tr _ y1 _ _ _ _ Hb1 S1) as (y2 & E2 & S2);
    [lia|lia|destruct B1 as [?|[?|?]]; [now left|right; now left|right; right; lia]|].
  rewrite (bind_ok _ _ _ E2). cbn [bind].
  assert (S2' : shape (relu y2) = [n; 64; h1; w1]) by exact S2.
  destruct (layer_forward_shape K tr _ (relu y2) _ _ _ n h1 w1 L1 (le_n 1) S2' Hh1 Hw1)
    as (z1 & F1 & T1).
  { rewrite Nat.div_1_r.
    destruct B1 as [?|[?|?]]; [now left|right; now left|right; right; lia]. }
  rewrite !Nat.div_1_r in T1.
  replace (h1 - 1 + 1) with h1 in T1 by lia. replace (w1 - 1 + 1) with w1 in T1 by lia.
  rewrite (bind_ok _ _ _ F1).
  set (h2 := (h1 - 1) / 2 + 1). set (w2 := (w1 - 1) / 2 + 1).
  assert (B2 : tr = false \/ 2 <= n \/ 5 <= h2).
  { destruct B1 as [?|[?|?]]; [now left|right; now left|right; right].
    apply (down_lower h1 4). lia. }
  destruct (layer_forward_shape K tr _ z1 _ _ _ n h1 w1 L2 (le_S _ _ (le_n 1)) T1 Hh1 Hw1)
    as (z2 & F2 & T2).
  { fold h2. destruct B2 as [?|[?|?]]; [now left|right; now left|right; right; lia]. }
  fold h2 w2 in T2. rewrite (bind_ok _ _ _ F2).
  assert (Hh2 : 1 <= h2) by (unfold h2; lia). assert (Hw2 : 1 <= w2) by (unfold w2; lia).
  set (h3 := (h2 - 1) / 2 + 1). set (w3 := (w2 - 1) / 2 + 1).
  assert (B3 : tr = false \/ 2 <= n \/ 3 <= h3).
  { destruct B2 as [?|[?|?]]; [now left|right; now left|right; right].
    apply (down_lower h2 2). lia. }
  destruct (layer_forward_shape K tr _ z2 _ _ _ n h2 w2 L3 (le_S _ _ (le_n 1)) T2 Hh2 Hw2)
    as (z3 & F3 & T3).
  { fold h3. destruct B3 as [?|[?|?]]; [now left|right; now left|right; right; lia]. }
  fold h3 w3 in T3. rewrite (bind_ok _ _ _ F3).
  assert (Hh3 : 1 <= h3) by (unfold h3; lia). assert (Hw3 : 1 <= w3) by (unfold w3; lia).
  set (h4 := (h3 - 1) / 2 + 1). set (w4 := (w3 - 1) / 2 + 1).
  assert (B4 : tr = false \/ 2 <= n \/ 2 <= h4).
  { destruct B3 as [?|[?|?]]; [now left|right; now left|right; right].
    apply (down_lower h3 1). lia. }
  destruct (layer_forward_shape K tr _ z3 _ _ _ n h3 w3 L4 (le_S _ _ (le_n 1)) T3 Hh3 Hw3)
    as (z4 & F4 & T4); [exact B4|].
  fold h4 w4 in T4. rewrite (bind_ok _ _ _ F4).
  assert (Hh4 : 1 <= h4) by (unfold h4; lia). assert (Hw4 : 1 <= w4) by (unfold w4; lia).
  unfold AdaptiveAvgPool2d.forward. rewrite T4.
  apply Nat.leb_le in Hh4, Hw4. rewrite Hh4, Hw4. cbn [andb bind].
  exists z4.
  unfold squeeze, tabulate. cbn [shape data]. rewrite numel_pooled. f_equal. f_equal.
  cbn [filter]. replace (512 =? 1) with false by reflexivity.
  rewrite Nat.eqb_refl. cbn [negb]. destruct (n =? 1); reflexivity.
Qed.

(* ================================================================== *)
(** ** Storage and rows *)

Lemma bind_inv {A B : Type} (r : result A) (k : A -> result B) (b : B) :
  bind r k = Ok b -> exists a, r = Ok a /\ k a = Ok b.
Proof. destruct r as [a|e]; [|discriminate]. intros H. now exists a. Qed.

Lemma numel_split (sh : list nat) : numel sh = numel (removelast sh) * last sh 1.
Proof.
  induction sh as [|d sh IH]; [reflexivity|].
  destruct sh as [|d' sh'].
  - cbn. lia.
  - change (numel (d :: d' :: sh')) with (d * numel (d' :: sh')).
    change (removelast (d :: d' :: sh')) with (d :: removelast (d' :: sh')).
    change (last (d :: d' :: sh') 1) with (last (d' :: sh') 1).
    change (numel (d :: removelast (d' :: sh'))) with (d * numel (removelast (d' :: sh'))).
    rewrite IH. lia.
Qed.

Lemma tabulate_wf (sh : list nat) (f : nat -> R) : wf (tabulate sh f).
Proof. unfold wf, tabulate. cbn [data shape]. now rewrite length_map, length_seq. Qed.

Lemma numel_squeeze (sh : list nat) :
  numel (filter (fun d => negb (d =? 1)) sh) = numel sh.
Proof.
  induction sh as [|d sh IH]; [reflexivity|]. cbn [filter].
  change (numel (d :: sh)) with (d * numel sh).
  destruct (d =? 1) eqn:E; cbn [negb].
  - apply Nat.eqb_eq in E. subst. rewrite IH. lia.
  - change (numel (d :: filter (fun d => negb (d =? 1)) sh))
      with (d * numel (filter (fun d => negb (d =? 1)) sh)).
    now rewrite IH.
Qed.

Lemma squeeze_wf (x : tensor) : wf x -> wf (squeeze x).
Proof. unfold wf, squeeze. cbn [data shape]. now rewrite numel_squeeze. Qed.

Lemma atleast_2d_wf (x : tensor) : wf x -> wf (atleast_2d x).
Proof.
  unfold wf, atleast_2d. destruct (shape x) as [|n [|n' sh]] eqn:E; cbn [data shape].
  - intros ->. reflexivity.
  - intros ->. cbn. lia.
  - rewrite E. trivial.
Qed.

Lemma T_wf (w : tensor) : wf (T w).
Proof. unfold wf, T. cbn [data shape]. now rewrite length_map, length_seq. Qed.

Lemma chunks_concat (d : nat) (ls : list (list R)) :
  Forall (fun r => length r = d) ls ->
  map (fun i => firstn d (skipn (i * d) (concat ls))) (seq 0 (length ls)) = ls.
Proof.
  induction 1 as [|r ls Hr Hls IH]; [reflexivity|].
  cbn [length seq map concat]. f_equal.
  - cbn [Nat.mul skipn]. rewrite firstn_app, Hr, Nat.sub_diag, firstn_O, app_nil_r.
    rewrite <- Hr. apply firstn_all.
  - rewrite <- seq_shift, map_map. rewrite <- IH at 2.
    apply map_ext. intros i. f_equal.
    replace (S i * d) with (length r + i * d) by (rewrite Hr; lia).
    rewrite skipn_app, Nat.add_comm, Nat.add_sub.
    rewrite skipn_all2 by lia. reflexivity.
Qed.

Lemma rows_concat (sh : list nat) (ls : list (list R)) :
  Forall (fun r => length r = last sh 1) ls ->
  length ls = numel (removelast sh) ->
  rows (mkTensor sh (concat ls)) = ls.
Proof.
  intros Hl Hn. unfold rows. cbn [shape data]. rewrite <- Hn.
  now apply chunks_concat.
Qed.

Lemma rows_length (x : tensor) : length (rows x) = numel (removelast (shape x)).
Proof. unfold rows. now rewrite length_map, length_seq. Qed.

Lemma rows_full (x : tensor) :
  wf x -> Forall (fun r => length r = last (shape x) 1) (rows x).
Proof.
  unfold wf, rows. rewrite numel_split. intros Hlen.
  apply Forall_forall. intros r Hin. apply in_map_iff in Hin as (i & <- & Hi).
  apply in_seq in Hi. rewrite length_firstn, length_skipn, Hlen. nia.
Qed.

Lemma rows_normalize (x : tensor) (e : R) :
  wf x -> rows (normalize x e) = map (normalize_row e) (rows x).
Proof.
  intros Hwf. unfold normalize. apply rows_concat.
  - apply Forall_forall. intros r Hin. apply in_map_iff in Hin as (v & <- & Hv).
    unfold normalize_row. rewrite length_map.
    pose proof (rows_full x Hwf) as Hf. rewrite Forall_forall in Hf. now apply Hf.
  - rewrite length_map. apply rows_length.
Qed.

Lemma avgpool_wf (K : Kernels) (z p : tensor) :
  AdaptiveAvgPool2d.forward K z = Ok p -> wf p.
Proof.
  unfold AdaptiveAvgPool2d.forward.
  destruct (shape z) as [|n [|c [|h [|w [|? ?]]]]]; try discriminate.
  destruct ((1 <=? h) && (1 <=? w)); [|discriminate].
  intros [= <-]. apply tabulate_wf.
Qed.

(** Whatever the model, an embedding that is returned is well formed: it
    is the squeezed result of the pooling. *)
Lemma embed_wf (K : Kernels) (m : ResNet.t) (x y : tensor) :
  ResNet.embed K m x = Ok y -> wf y.
Proof.
  unfold ResNet.embed. intros H.
  apply bind_inv in H as (x1 & _ & H). apply bind_inv in H as (x2 & _ & H).
  cbv zeta in H.
  apply bind_inv in H as (x3 & _ & H). apply bind_inv in H as (x4 & _ & H).
  apply bind_inv in H as (x5 & _ & H). apply bind_inv in H as (x6 & _ & H).
  apply bind_inv in H as (x7 & _ & H). apply bind_inv in H as (x8 & Hp & H).
  injection H as <-. apply squeeze_wf. exact (avgpool_wf K _ _ Hp).
Qed.

(** *** Prototypes *)

Lemma mean_rows_length (d : nat) (rs : list (list R)) : length (mean_rows d rs) = d.
Proof. unfold mean_rows. now rewrite length_map, length_seq. Qed.

Lemma prototypes_of_inv (e : tensor) (l : list Z) (d : nat) (cs : list Z)
    (ps : list (list R)) :
  prototypes_of e l d cs = Ok ps ->
  ps = map (fun c => mean_rows d (class_members e l c)) cs
  /\ Forall (fun c => class_members e l c <> []) cs.
Proof.
  revert ps. induction cs as [|c cs IH]; intros ps; cbn [prototypes_of map].
  - intros [= <-]. split; [reflexivity|constructor].
  - destruct (class_members e l c) as [|r rs] eqn:E; [discriminate|].
    intros H. apply bind_inv in H as (ps' & Hps & H). injection H as <-.
    destruct (IH ps' Hps) as [-> Hall]. split; [reflexivity|].
    constructor; [|exact Hall]. rewrite E. discriminate.
Qed.

Lemma prototypes_of_ok (e : tensor) (l : list Z) (d : nat) (cs : list Z) :
  Forall (fun c => class_members e l c <> []) cs ->
  prototypes_of e l d cs = Ok (map (fun c => mean_rows d (class_members e l c)) cs).
Proof.
  induction 1 as [|c cs Hc Hcs IH]; [reflexivity|].
  cbn [prototypes_of map]. rewrite IH.
  destruct (class_members e l c) as [|r rs]; [contradiction|reflexivity].
Qed.

Lemma prototypes_of_empty (e : tensor) (l : list Z) (d : nat) (cs : list Z) (c : Z) :
  In c cs -> class_members e l c = [] ->
  prototypes_of e l d cs = Raise ValueError.
Proof.
  intros Hin He. induction cs as [|c' cs IH]; [destruct Hin|].
  cbn [prototypes_of]. destruct Hin as [->|Hin].
  - now rewrite He.
  - rewrite (IH Hin). now destruct (class_members e l c').
Qed.

Lemma arange_length (n : Z) : length (arange n) = Z.to_nat n.
Proof. unfold arange. now rewrite length_map, length_seq. Qed.

Lemma arange_in (n c : Z) : In c (arange n) <-> (0 <= c < n)%Z.
Proof.
  unfold arange. rewrite in_map_iff. split.
  - intros (i & <- & Hi). apply in_seq in Hi. lia.
  - intros Hc. exists (Z.to_nat c). split; [lia|]. apply in_seq. lia.
Qed.

Lemma arange_nth (n : Z) (i : nat) :
  i < Z.to_nat n -> nth i (arange n) 0%Z = Z.of_nat i.
Proof.
  intros Hi. unfold arange.
  rewrite (nth_indep _ 0%Z (Z.of_nat 0)) by now rewrite length_map, length_seq.
  rewrite map_nth, seq_nth by exact Hi. reflexivity.
Qed.

Lemma compute_prototypes_inv (e : tensor) (l : list Z) (nc : Z) (protos : tensor) :
  compute_prototypes e l nc = Ok protos ->
  shape protos = [Z.to_nat nc; last (shape e) 1]
  /\ rows protos
     = map (fun c => mean_rows (last (shape e) 1) (class_members e l c)) (arange nc)
  /\ Forall (fun c => class_members e l c <> []) (arange nc)
  /\ wf protos.
Proof.
  unfold compute_prototypes. intros H. apply bind_inv in H as (ps & Hps & H).
  injection H as <-. destruct (prototypes_of_inv _ _ _ _ _ Hps) as [-> Hne].
  assert (Hrows : rows (mkTensor [Z.to_nat nc; last (shape e) 1]
                      (concat (map (fun c => mean_rows (last (shape e) 1)
                                                 (class_members e l c)) (arange nc))))
                  = map (fun c => mean_rows (last (shape e) 1) (class_members e l c))
                        (arange nc)).
  { apply rows_concat.
    - apply Forall_forall. intros r Hin. apply in_map_iff in Hin as (c & <- & _).
      cbn [last]. apply mean_rows_length.
    - rewrite length_map, arange_length. cbn. lia. }
  repeat split; try assumption.
  unfold wf. cbn [data shape].
  rewrite length_concat, map_map.
  rewrite (map_ext _ (fun _ => last (shape e) 1)) by (intros; apply mean_rows_length).
  unfold numel, fold_right. rewrite Nat.mul_1_r.
  generalize (arange_length nc). generalize (arange nc) as cs. intros cs <-.
  induction cs as [|c cs IH]; [reflexivity|].
  cbn [map length]. change (list_sum (?a :: ?l)) with (a + list_sum l).
  rewrite IH. lia.
Qed.

Lemma compute_prototypes_ok (e : tensor) (l : list Z) (nc : Z) :
  Forall (fun c => class_members e l c <> []) (arange nc) ->
  exists protos, compute_prototypes e l nc = Ok protos.
Proof.
  intros H. unfold compute_prototypes. rewrite (prototypes_of_ok _ _ _ _ H).
  eexists. reflexivity.
Qed.

(** *** Stacking *)

Lemma atleast_2d_dims (x : tensor) :
  exists a b sh, shape (atleast_2d x) = a :: b :: sh.
Proof.
  unfold atleast_2d. destruct (shape x) as [|n [|n' sh]] eqn:E; cbn [shape]; eauto.
Qed.

Lemma rows_atleast_2d (x : tensor) : rows (atleast_2d x) = rows x.
Proof.
  unfold atleast_2d, rows. destruct (shape x) as [|n [|n' sh]] eqn:E; cbn [shape data];
    try rewrite E; reflexivity.
Qed.

Lemma concat_chunks (d k : nat) (l : list R) :
  length l = k * d ->
  concat (map (fun i => firstn d (skipn (i * d) l)) (seq 0 k)) = l.
Proof.
  revert l. induction k as [|k IH]; intros l Hl.
  - destruct l; [reflexivity|discriminate].
  - cbn [seq map concat]. rewrite <- seq_shift, map_map.
    cbn [Nat.mul skipn].
    rewrite (map_ext _ (fun i => firstn d (skipn (i * d) (skipn d l)))).
    + rewrite IH by (rewrite length_skipn; lia). apply firstn_skipn.
    + intros i. now rewrite skipn_skipn, (Nat.add_comm (i * d) d).
Qed.

Lemma concat_rows (x : tensor) : wf x -> concat (rows x) = data x.
Proof.
  unfold wf, rows. rewrite numel_split. intros H. now apply concat_chunks.
Qed.

Lemma last_tl (a b : nat) (sh : list nat) : last (a :: b :: sh) 1 = last (b :: sh) 1.
Proof. reflexivity. Qed.

(** The rows of a stack are the rows of its blocks, in order. *)
Lemma vstack_rows (ts : list tensor) (s : tensor) :
  Forall wf ts ->
  vstack ts = Ok s ->
  rows s = concat (map rows ts) /\ wf s.
Proof.
  intros Hwf. unfold vstack.
  assert (Hwf2 : Forall wf (map atleast_2d ts)).
  { apply Forall_forall. intros t Hin. apply in_map_iff in Hin as (x & <- & Hx).
    apply atleast_2d_wf. rewrite Forall_forall in Hwf. now apply Hwf. }
  assert (Hrows : map rows ts = map rows (map atleast_2d ts)).
  { rewrite map_map. apply map_ext. intros. now rewrite rows_atleast_2d. }
  assert (Hdims : Forall (fun t => exists a b sh, shape t = a :: b :: sh)
                         (map atleast_2d ts)).
  { apply Forall_forall. intros t Hin. apply in_map_iff in Hin as (x & <- & _).
    apply atleast_2d_dims. }
  rewrite Hrows. clear Hrows Hwf.
  destruct (map atleast_2d ts) as [|t0 rest]; [discriminate|].
  destruct (forallb _ rest) eqn:Hall; [|discriminate].
  intros [= <-].
  assert (Hsame : Forall (fun t => tl (shape t) = tl (shape t0)) (t0 :: rest)).
  { constructor; [reflexivity|]. apply Forall_forall. intros t Hin.
    rewrite forallb_forall in Hall. now apply shape_eqb_eq, Hall. }
  clear Hall.
  inversion Hdims as [|? ? (a0 & b0 & sh0 & E0) _]; subst.
  set (tail := tl (shape t0)) in *.
  assert (Htail : tail = b0 :: sh0) by (unfold tail; now rewrite E0).
  assert (Hgen : forall l,
             Forall wf l ->
             Forall (fun t => tl (shape t) = tail) l ->
             Forall (fun t => exists a b sh, shape t = a :: b :: sh) l ->
             Forall (fun r => length r = last tail 1) (concat (map rows l))
             /\ length (concat (map rows l))
                = fold_right Nat.add 0 (map (fun t => hd 0 (shape t)) l)
                  * numel (removelast tail)
             /\ concat (concat (map rows l)) = concat (map data l)).
  { induction l as [|t l IH]; intros W S D.
    - repeat split. constructor.
    - inversion W as [|? ? Wt Wl]; inversion S as [|? ? St Sl];
        inversion D as [|? ? (a & b & sh & Et) Dl]; subst.
      destruct (IH Wl Sl Dl) as (I1 & I2 & I3).
      cbn [map concat fold_right].
      assert (Ht : shape t = a :: tail) by (rewrite Et in St |- *; cbn [tl] in St; now rewrite St).
      repeat split.
      + apply Forall_app. split; [|exact I1].
        pose proof (rows_full t Wt) as Hf. rewrite Ht in Hf.
        rewrite Htail in Hf |- *. exact Hf.
      + rewrite length_app, I2, rows_length, Ht. cbn [hd].
        rewrite Htail. change (removelast (a :: b0 :: sh0)) with (a :: removelast (b0 :: sh0)).
        change (numel (a :: removelast (b0 :: sh0))) with (a * numel (removelast (b0 :: sh0))).
        lia.
      + rewrite concat_app, I3, concat_rows by exact Wt. reflexivity. }
  destruct (Hgen (t0 :: rest) Hwf2 Hsame Hdims) as (G1 & G2 & G3).
  assert (Hr : rows {| shape := fold_right Nat.add 0
                                  (map (fun t => hd 0 (shape t)) (t0 :: rest)) :: tail;
                       data := concat (map data (t0 :: rest)) |}
               = concat (map rows (t0 :: rest))).
  { rewrite <- G3. apply rows_concat.
    - rewrite Htail. rewrite last_tl. rewrite Htail in G1. exact G1.
    - rewrite G2, Htail.
      change (removelast (?x :: b0 :: sh0)) with (x :: removelast (b0 :: sh0)).
      reflexivity. }
  split; [exact Hr|].
  change (length (concat (map data (t0 :: rest)))
          = numel (fold_right Nat.add 0 (map (fun t => hd 0 (shape t)) (t0 :: rest))
                     :: tail)).
  rewrite <- G3, length_concat.
  change (numel (?x :: tail)) with (x * numel tail).
  rewrite (numel_split tail), Nat.mul_assoc, <- G2.
  clear - G1. induction G1 as [|r l Hr Hl IH]; [reflexivity|].
  cbn [map length]. change (list_sum (?a :: ?l)) with (a + list_sum l).
  rewrite IH, Hr. lia.
Qed.

(* ================================================================== *)
(** ** [get_final_features]: what a run that returns has done *)

Lemma final_blocks_inv (K : Kernels) (m : ResNet.t) (ep : ResNet.episode)
    (fs : list tensor) (ls : list (list Z)) :
  ResNet.final_blocks K m ep = Ok (fs, ls) ->
  exists sf qf nc cls protos,
    ResNet.embed K m (ResNet.support_images ep) = Ok sf
    /\ ResNet.embed K m (ResNet.query_images ep) = Ok qf
    /\ ResNet.num_classes m = Some nc
    /\ ResNet.cls_fn m = Some cls
    /\ compute_prototypes sf (ResNet.support_labels ep) nc = Ok protos
    /\ fs = [sf; qf; T (cls_weight cls); protos]
    /\ concat ls = export_labels K nc ep.
Proof.
  unfold ResNet.final_blocks. intros H.
  apply bind_inv in H as (sf & Hsf & H). apply bind_inv in H as (qf & Hqf & H).
  cbv zeta in H.
  destruct (ResNet.num_classes m) as [nc|] eqn:Hnc.
  - apply bind_inv in H as (cls & Hcls & H).
    apply bind_inv in H as (protos & Hp & H). injection H as <- <-.
    unfold ResNet.get_cls_fn in Hcls.
    destruct (ResNet.cls_fn m) as [c|] eqn:Hc; [|discriminate]. injection Hcls as ->.
    exists sf, qf, nc, cls, protos. repeat split; try assumption.
    cbn [app concat]. rewrite app_nil_r. reflexivity.
  - destruct (ResNet.query_labels ep); [|discriminate].
    destruct (ResNet.get_cls_fn m); discriminate.
Qed.

Lemma get_final_features_inv (K : Kernels) (m : ResNet.t) (ep : ResNet.episode)
    (f : tensor) (l : list Z) :
  ResNet.get_final_features K m ep = Ok (f, l) ->
  exists sf qf nc cls protos stacked,
    ResNet.embed K m (ResNet.support_images ep) = Ok sf
    /\ ResNet.embed K m (ResNet.query_images ep) = Ok qf
    /\ ResNet.num_classes m = Some nc
    /\ ResNet.cls_fn m = Some cls
    /\ compute_prototypes sf (ResNet.support_labels ep) nc = Ok protos
    /\ vstack [sf; qf; T (cls_weight cls); protos] = Ok stacked
    /\ f = normalize stacked (/ 10 ^ 12)%R
    /\ l = export_labels K nc ep.
Proof.
  unfold ResNet.get_final_features. intros H.
  apply bind_inv in H as ([fs ls] & Hb & H). cbv zeta in H. cbn [fst snd] in H.
  apply bind_inv in H as (stacked & Hv & H). injection H as <- <-.
  destruct (final_blocks_inv K m ep fs ls Hb)
    as (sf & qf & nc & cls & protos & H1 & H2 & H3 & H4 & H5 & -> & H7).
  exists sf, qf, nc, cls, protos, stacked. repeat split; assumption.
Qed.

(** The rows of an export that is returned: the rows of the four blocks in
    order, each divided by its norm. *)
Lemma get_final_features_rows (K : Kernels) (m : ResNet.t) (ep : ResNet.episode)
    (f : tensor) (l : list Z) :
  ResNet.get_final_features K m ep = Ok (f, l) ->
  exists sf qf nc cls protos,
    ResNet.embed K m (ResNet.support_images ep) = Ok sf
    /\ ResNet.embed K m (ResNet.query_images ep) = Ok qf
    /\ ResNet.num_classes m = Some nc
    /\ ResNet.cls_fn m = Some cls
    /\ compute_prototypes sf (ResNet.support_labels ep) nc = Ok protos
    /\ rows f = map (normalize_row (/ 10 ^ 12)%R)
                    (rows sf ++ rows qf ++ rows (T (cls_weight cls)) ++ rows protos).
Proof.
  intros H.
  destruct (get_final_features_inv K m ep f l H)
    as (sf & qf & nc & cls & protos & stacked & H1 & H2 & H3 & H4 & H5 & H6 & -> & _).
  exists sf, qf, nc, cls, protos. repeat split; try assumption.
  assert (Hwf : Forall wf [sf; qf; T (cls_weight cls); protos]).
  { repeat constructor.
    - exact (embed_wf K _ _ _ H1).
    - exact (embed_wf K _ _ _ H2).
    - apply T_wf.
    - now destruct (compute_prototypes_inv _ _ _ _ H5) as (_ & _ & _ & W). }
  destruct (vstack_rows _ _ Hwf H6) as [Hr Hw].
  rewrite (rows_normalize _ _ Hw), Hr. cbn [map concat]. now rewrite app_nil_r.
Qed.

(** ** Running the export *)

Lemma in_combine_left {A B : Type} (a : A) (l : list A) (l' : list B) :
  In a l -> length l <= length l' -> exists b, In (a, b) (combine l l').
Proof.
  revert l'. induction l as [|x l IH]; intros l' Hin Hlen; [destruct Hin|].
  destruct l' as [|y l']; [cbn in Hlen; lia|].
  destruct Hin as [->|Hin].
  - exists y. now left.
  - destruct (IH l' Hin) as [b Hb]; [cbn in Hlen; lia|]. exists b. now right.
Qed.

Lemma class_members_nonempty (e : tensor) (l : list Z) (c : Z) :
  In c l -> length l <= length (rows e) -> class_members e l c <> [].
Proof.
  intros Hin Hlen. destruct (in_combine_left c l (rows e) Hin Hlen) as [r Hr].
  unfold class_members. intros E.
  assert (Hm : In r (map snd (filter (fun lr => (fst lr =? c)%Z) (combine l (rows e))))).
  { apply in_map_iff. exists (c, r). split; [reflexivity|].
    apply filter_In. split; [exact Hr|]. cbn [fst]. apply Z.eqb_refl. }
  rewrite E in Hm. destruct Hm.
Qed.

Lemma embedded_rows_length (n : nat) (d : list R) :
  length (rows (mkTensor (if n =? 1 then [512] else [n; 512]) d)) = n.
Proof.
  rewrite rows_length. cbn [shape]. destruct (n =? 1) eqn:E.
  - apply Nat.eqb_eq in E. now subst.
  - cbn [removelast numel fold_right]. lia.
Qed.

Lemma embedded_atleast_2d (n : nat) (d : list R) :
  shape (atleast_2d (mkTensor (if n =? 1 then [512] else [n; 512]) d)) = [n; 512].
Proof.
  unfold atleast_2d. cbn [shape]. destruct (n =? 1) eqn:E; cbn [shape].
  - apply Nat.eqb_eq in E. now subst.
  - reflexivity.
Qed.

Lemma embedded_last (n : nat) (d : list R) :
  last (shape (mkTensor (if n =? 1 then [512] else [n; 512]) d)) 1 = 512.
Proof. cbn [shape]. now destruct (n =? 1). Qed.

Lemma vstack_four (a b c d : tensor) (na nb p q nd : nat) :
  shape (atleast_2d a) = [na; 512] ->
  shape (atleast_2d b) = [nb; 512] ->
  shape c = [p; q] ->
  shape d = [nd; 512] ->
  (q = 512 -> exists s, vstack [a; b; c; d] = Ok s /\ shape s = [na + nb + p + nd; 512])
  /\ (q <> 512 -> vstack [a; b; c; d] = Raise RuntimeError).
Proof.
  intros Ha Hb Hc Hd. unfold vstack. cbn [map].
  assert (Hc2 : atleast_2d c = c) by (unfold atleast_2d; now rewrite Hc).
  assert (Hd2 : atleast_2d d = d) by (unfold atleast_2d; now rewrite Hd).
  rewrite Hc2, Hd2. cbn [forallb]. rewrite Ha, Hb, Hc, Hd. cbn [tl hd fold_right].
  rewrite shape_eqb_refl. cbn [andb shape_eqb]. rewrite andb_true_r, andb_true_r.
  split.
  - intros ->. rewrite Nat.eqb_refl. eexists. split; [reflexivity|].
    cbn [shape]. f_equal. lia.
  - intros Hq. apply Nat.eqb_neq in Hq. now rewrite Hq.
Qed.

Section ExportRun.
Variable K : Kernels.
Variables (m : ResNet.t) (ep : ResNet.episode).
Variables (ns nq h w h' w' p q : nat) (nc : Z) (cls : head).
Hypothesis Hm : ResNet_ok m.
Hypothesis Hs : shape (ResNet.support_images ep) = [ns; 3; h; w].
Hypothesis Hq : shape (ResNet.query_images ep) = [nq; 3; h'; w'].
Hypothesis Hh : 3 <= h /\ 3 <= w /\ 3 <= h' /\ 3 <= w'.
Hypothesis Hbs : ResNet.training m = false \/ 2 <= ns \/ 19 <= h.
Hypothesis Hbq : ResNet.training m = false \/ 2 <= nq \/ 19 <= h'.
Hypothesis Hnc : ResNet.num_classes m = Some nc.
Hypothesis Hcls : ResNet.cls_fn m = Some cls.
Hypothesis Hw : shape (cls_weight cls) = [p; q].
Hypothesis Hlen : length (ResNet.support_labels ep) = ns.
Hypothesis Hcover : forall c, (0 <= c < nc)%Z -> In c (ResNet.support_labels ep).

(** With a head whose weight has size [p; q], an episode that covers every
    class is exported when [p = 512], and the stacking raises otherwise. *)
Lemma export_run :
  (p = 512 ->
   exists f, ResNet.get_final_features K m ep = Ok (f, export_labels K nc ep)
             /\ shape f = [ns + nq + q + Z.to_nat nc; 512])
  /\ (p <> 512 -> ResNet.get_final_features K m ep = Raise RuntimeError).
Proof.
  destruct Hh as (H1 & H2 & H3 & H4).
  destruct (embed_value K m _ ns h w Hm Hs H1 H2 Hbs) as (zs & Es).
  destruct (embed_value K m _ nq h' w' Hm Hq H3 H4 Hbq) as (zq & Eq).
  set (sf := mkTensor (if ns =? 1 then [512] else [ns; 512])
               (map (adaptive_avg_pool2d_at K zs) (seq 0 (ns * 512)))) in *.
  set (qf := mkTensor (if nq =? 1 then [512] else [nq; 512])
               (map (adaptive_avg_pool2d_at K zq) (seq 0 (nq * 512)))) in *.
  assert (Hne : Forall (fun c => class_members sf (ResNet.support_labels ep) c <> [])
                       (arange nc)).
  { apply Forall_forall. intros c Hc. apply arange_in in Hc.
    apply class_members_nonempty; [now apply Hcover|].
    unfold sf. rewrite embedded_rows_length. lia. }
  destruct (compute_prototypes_ok _ _ _ Hne) as [protos Ep].
  destruct (compute_prototypes_inv _ _ _ _ Ep) as (Sp & _ & _ & _).
  unfold sf in Sp at 1. rewrite embedded_last in Sp.
  assert (HT : shape (T (cls_weight cls)) = [q; p])
    by (unfold T; cbn [shape]; now rewrite Hw).
  destruct (vstack_four sf qf (T (cls_weight cls)) protos ns nq q p (Z.to_nat nc)
              (embedded_atleast_2d _ _) (embedded_atleast_2d _ _) HT Sp) as [Vok Vbad].
  assert (Hblocks : ResNet.final_blocks K m ep
                    = Ok ([sf; qf; T (cls_weight cls); protos],
                          [ResNet.support_band (ResNet.support_dtype ep)
                             (ResNet.support_labels ep);
                           ResNet.query_band K (ResNet.query_dtype ep) nc
                             (ResNet.query_labels ep);
                           ResNet.weight_band nc; ResNet.proto_band nc])).
  { unfold ResNet.final_blocks. rewrite Es, Eq. cbn [bind]. rewrite Hnc.
    unfold ResNet.get_cls_fn. rewrite Hcls. cbn [bind]. rewrite Ep. reflexivity. }
  destruct (final_blocks_inv K m ep _ _ Hblocks)
    as (? & ? & nc' & ? & ? & _ & _ & Hnc' & _ & _ & _ & Hl).
  rewrite Hnc in Hnc'. injection Hnc' as <-.
  unfold ResNet.get_final_features. rewrite Hblocks. cbn [bind fst snd]. rewrite Hl.
  split.
  - intros Hp. destruct (Vok Hp) as (s & Vs & Ss). rewrite Vs. cbn [bind].
    eexists. split; [reflexivity|]. unfold normalize. cbn [shape]. exact Ss.
  - intros Hp. now rewrite (Vbad Hp).
Qed.

End ExportRun.

(* ================================================================== *)
(** ** The dropout module and the mode *)

Lemma init_dropout_only (K : Kernels) (layers : list nat) (classifier : option string)
    (num_classes : option Z) (p1 p2 : Q) (m1 m2 : ResNet.t) :
  ResNet.__init__ K layers classifier num_classes p1 = Ok m1 ->
  ResNet.__init__ K layers classifier num_classes p2 = Ok m2 ->
  m2 = set_dropout (Dropout.mk p2) m1.
Proof.
  unfold ResNet.__init__.
  destruct (ResNet.layers_at layers 0) as [n0|]; [|discriminate].
  destruct (ResNet.layers_at layers 1) as [n1|]; [|discriminate].
  destruct (ResNet.layers_at layers 2) as [n2|]; [|discriminate].
  destruct (ResNet.layers_at layers 3) as [n3|]; [|discriminate].
  cbn [bind].
  destruct (ResNet._make_layer K 64 64 n0 1) as [l1 i1].
  destruct (ResNet._make_layer K i1 (64 * 2) n1 2) as [l2 i2].
  destruct (ResNet._make_layer K i2 (64 * 4) n2 2) as [l3 i3].
  destruct (ResNet._make_layer K i3 (64 * 8) n3 2) as [l4 i4].
  unfold Dropout.new.
  destruct (Qle_bool 0 p1 && Qle_bool p1 1); [|discriminate].
  destruct (Qle_bool 0 p2 && Qle_bool p2 1); [|discriminate].
  cbn [bind].
  match goal with |- bind ?r _ = _ -> _ => destruct r as [hd|] end; [|discriminate].
  cbn [bind]. intros [= <-] [= <-]. reflexivity.
Qed.

Lemma embed_set_dropout (K : Kernels) (d : Dropout.t) (b : bool) (m : ResNet.t)
    (x : tensor) :
  ResNet.embed K (ResNet.train b (set_dropout d m)) x = ResNet.embed K (ResNet.train b m) x.
Proof. reflexivity. Qed.

Lemma export_set_dropout (K : Kernels) (d : Dropout.t) (b : bool) (m : ResNet.t)
    (ep : ResNet.episode) :
  ResNet.get_final_features K (ResNet.train b (set_dropout d m)) ep
  = ResNet.get_final_features K (ResNet.train b m) ep.
Proof. reflexivity. Qed.

(* ================================================================== *)
(** ** Norms *)

Lemma sum_sq_scale (v : list R) (c : R) :
  (c <> 0)%R ->
  sum_R (map (fun a => (a * a)%R) (map (fun a => (a / c)%R) v))
  = (sum_R (map (fun a => (a * a)%R) v) / (c * c))%R.
Proof.
  intros Hc. induction v as [|a v IH]; cbn [map sum_R fold_right].
  - unfold Rdiv. now rewrite Rmult_0_l.
  - fold (sum_R (map (fun a => (a * a)%R) (map (fun a => (a / c)%R) v))).
    fold (sum_R (map (fun a => (a * a)%R) v)). rewrite IH. field. exact Hc.
Qed.

Lemma norm2_scale (v : list R) (c : R) :
  (0 < c)%R -> norm2 (map (fun a => (a / c)%R) v) = (norm2 v / c)%R.
Proof.
  intros Hc. unfold norm2. rewrite sum_sq_scale by lra.
  rewrite sqrt_div_alt by (apply Rmult_lt_0_compat; exact Hc).
  rewrite sqrt_square by lra. reflexivity.
Qed.

Lemma eps_pos : (0 < / 10 ^ 12)%R.
Proof. apply Rinv_0_lt_compat. apply pow_lt. lra. Qed.

(** What [normalize] does to one row: the divisor is at least [e]; a row
    of norm at least [e] comes out with norm 1, a shorter row is only
    scaled by [1 / e] and stays shorter than 1. *)
Lemma normalize_row_norm (e : R) (v : list R) :
  (0 < e)%R ->
  (e <= Rmax (norm2 v) e)%R
  /\ ((e <= norm2 v)%R -> norm2 (normalize_row e v) = 1%R)
  /\ ((norm2 v < e)%R ->
      norm2 (normalize_row e v) = (norm2 v / e)%R
      /\ (norm2 (normalize_row e v) < 1)%R).
Proof.
  intros He. split; [apply Rmax_r|]. unfold normalize_row. split.
  - intros Hv. rewrite Rmax_left by exact Hv.
    rewrite norm2_scale by lra. field. lra.
  - intros Hv. rewrite Rmax_right by lra. rewrite norm2_scale by exact He.
    split; [reflexivity|].
    apply (Rmult_lt_reg_r e); [exact He|]. unfold Rdiv.
    rewrite Rmult_assoc, Rinv_l by lra. lra.
Qed.

Lemma norm2_zeros (v : list R) : zeros v -> norm2 v = 0%R.
Proof.
  intros Hv. unfold norm2.
  assert (E : sum_R (map (fun a => (a * a)%R) v) = 0%R).
  { induction Hv as [|a v Ha Hv IH]; [reflexivity|].
    cbn [map sum_R fold_right]. fold (sum_R (map (fun a => (a * a)%R) v)).
    rewrite IH, Ha. lra. }
  rewrite E. apply sqrt_0.
Qed.

Lemma normalize_row_zeros (e : R) (v : list R) : zeros v -> normalize_row e v = v.
Proof.
  intros Hv. unfold normalize_row.
  generalize (Rmax (norm2 v) e) as c. intros c.
  induction Hv as [|a v Ha Hv IH]; [reflexivity|].
  cbn [map]. rewrite IH, Ha. f_equal. unfold Rdiv. apply Rmult_0_l.
Qed.

Lemma in_firstn {A : Type} (n : nat) (l : list A) (a : A) :
  In a (firstn n l) -> In a l.
Proof. intros H. rewrite <- (firstn_skipn n l). apply in_or_app. now left. Qed.

Lemma in_skipn {A : Type} (n : nat) (l : list A) (a : A) :
  In a (skipn n l) -> In a l.
Proof. intros H. rewrite <- (firstn_skipn n l). apply in_or_app. now right. Qed.

Lemma rows_zeros (x : tensor) : zeros (data x) -> Forall zeros (rows x).
Proof.
  intros Hz. unfold rows. apply Forall_forall. intros r Hin.
  apply in_map_iff in Hin as (i & <- & _).
  apply Forall_forall. intros a Ha. apply in_firstn, in_skipn in Ha.
  unfold zeros in Hz. rewrite Forall_forall in Hz. now apply Hz.
Qed.

Lemma in_combine_nth_error {A B : Type} (l : list A) (l' : list B) (a : A) (b : B) :
  In (a, b) (combine l l')
  <-> exists i, nth_error l i = Some a /\ nth_error l' i = Some b.
Proof.
  revert l'. induction l as [|x l IH]; intros l'.
  - cbn. split; [intros []|]. intros (i & Hi & _). destruct i; discriminate.
  - destruct l' as [|y l'].
    + cbn. split; [intros []|]. intros (i & _ & Hi). destruct i; discriminate.
    + cbn [combine In]. rewrite IH. split.
      * intros [[= -> ->]|(i & H1 & H2)]; [exists 0; now split|exists (S i); now split].
      * intros ([|i] & H1 & H2); cbn [nth_error] in H1, H2.
        -- left. congruence.
        -- right. exists i. now split.
Qed.

(** The members of class [c] are exactly the rows whose label is [c]. *)
Lemma class_members_spec (e : tensor) (l : list Z) (c : Z) (r : list R) :
  In r (class_members e l c)
  <-> exists i, nth_error l i = Some c /\ nth_error (rows e) i = Some r.
Proof.
  unfold class_members. rewrite in_map_iff. split.
  - intros ([c' r'] & <- & Hin). apply filter_In in Hin as [Hin Hc].
    cbn [fst] in Hc. apply Z.eqb_eq in Hc. subst c'.
    now apply in_combine_nth_error.
  - intros Hi. exists (c, r). split; [reflexivity|]. apply filter_In. split.
    + now apply in_combine_nth_error.
    + cbn [fst]. apply Z.eqb_refl.
Qed.

Lemma nth_map_in {A B : Type} (f : A -> B) (l : list A) (j : nat) (a : A) (b : B) :
  j < length l -> nth j (map f l) b = f (nth j l a).
Proof.
  intros Hj. rewrite (nth_indep _ b (f a)) by now rewrite length_map.
  apply map_nth.
Qed.

Lemma mean_rows_nth (d : nat) (rs : list (list R)) (j : nat) :
  j < d ->
  nth j (mean_rows d rs) 0%R
  = (sum_R (map (fun r => nth j r 0%R) rs) / INR (length rs))%R.
Proof.
  intros Hj. unfold mean_rows.
  rewrite (nth_map_in _ _ _ 0) by now rewrite length_seq.
  now rewrite seq_nth by exact Hj.
Qed.

(* ================================================================== *)
(** ** The names of the state dictionary *)

Lemma split_dot (s t a b : string) :
  nodot s = true -> nodot t = true ->
  (s ++ "." ++ a = t ++ "." ++ b)%string -> s = t /\ a = b.
Proof.
  revert t. induction s as [|c s IH]; intros [|c' t] Hs Ht; cbn [append nodot] in *.
  - intros [= ->]. now split.
  - intros [= <- _]. discriminate.
  - intros [= -> _]. discriminate.
  - intros [= <- E]. apply andb_true_iff in Hs as [_ Hs], Ht as [_ Ht].
    destruct (IH t Hs Ht E) as [-> ->]. now split.
Qed.

Lemma nodot_no_split (s t a : string) :
  nodot s = true -> s <> (t ++ "." ++ a)%string.
Proof.
  revert t. induction s as [|c s IH]; intros [|c' t] Hs; cbn [append nodot] in *;
    try discriminate.
  - intros [= -> _]. discriminate.
  - intros [= <- E]. apply andb_true_iff in Hs as [_ Hs]. exact (IH t Hs E).
Qed.

Lemma join_cons (a b : string) (p : list string) :
  join (a :: b :: p) = (a ++ "." ++ join (b :: p))%string.
Proof. reflexivity. Qed.

Lemma join_inj (p q : list string) :
  good_path p -> good_path q -> join p = join q -> p = q.
Proof.
  revert q. induction p as [|a p IH]; intros q [Hp Fp] [Hq Fq]; [contradiction|].
  destruct q as [|b q]; [contradiction|].
  inversion Fp as [|? ? Ha Fp']; inversion Fq as [|? ? Hb Fq']; subst.
  destruct p as [|a' p]; destruct q as [|b' q].
  - cbn [join]. now intros ->.
  - rewrite join_cons. cbn [join]. intros E. now apply nodot_no_split in E.
  - rewrite join_cons. cbn [join]. intros E. symmetry in E. now apply nodot_no_split in E.
  - rewrite !join_cons. intros E. destruct (split_dot _ _ _ _ Ha Hb E) as [-> E'].
    f_equal. apply IH; [split; [discriminate|exact Fp']|split; [discriminate|exact Fq']|exact E'].
Qed.

Lemma nodot_string_of_uint (d : Decimal.uint) : nodot (NilEmpty.string_of_uint d) = true.
Proof. induction d; cbn [NilEmpty.string_of_uint nodot]; try rewrite IHd; reflexivity. Qed.

Lemma nodot_string_of_nat (n : nat) : nodot (string_of_nat n) = true.
Proof. apply nodot_string_of_uint. Qed.

Lemma string_of_nat_inj (i j : nat) : string_of_nat i = string_of_nat j -> i = j.
Proof.
  unfold string_of_nat. intros E. apply Unsigned.to_uint_inj.
  pose proof (NilEmpty.usu (Nat.to_uint i)) as Hi.
  pose proof (NilEmpty.usu (Nat.to_uint j)) as Hj.
  rewrite E in Hi. congruence.
Qed.

(** *** Paths of the entries *)

Lemma paths_under (n : string) (es : state) : paths (under n es) = map (cons n) (paths es).
Proof. unfold paths, under. rewrite !map_map. reflexivity. Qed.

Lemma paths_children (cs : list (string * state)) :
  paths (children cs) = flat_map (fun c => map (cons (fst c)) (paths (snd c))) cs.
Proof.
  unfold children. induction cs as [|c cs IH]; [reflexivity|].
  cbn [flat_map]. unfold paths in *. rewrite map_app, IH. f_equal. apply paths_under.
Qed.

Lemma tidy_leaf (t : tensor) : tidy (leaf t).
Proof. split; repeat constructor. intros []. Qed.

Lemma tidy_children (cs : list (string * state)) :
  NoDup (map fst cs) ->
  Forall (fun c => nodot (fst c) = true) cs ->
  Forall (fun c => tidy (snd c)) cs ->
  tidy (children cs).
Proof.
  intros Hn Hd Ht. unfold tidy. rewrite paths_children. split.
  - induction cs as [|c cs IH]; [constructor|].
    inversion Hn as [|? ? Hc Hn']; inversion Hd as [|? ? _ Hd'];
      inversion Ht as [|? ? [Hc1 _] Ht']; subst.
    cbn [flat_map]. apply NoDup_app.
    + apply NoDup_map_NoDup_ForallPairs; [|exact Hc1]. intros x y _ _ [= E]. exact E.
    + now apply IH.
    + intros p Hp Hp'. apply in_map_iff in Hp as (x & <- & _).
      apply in_flat_map in Hp' as (c' & Hc' & Hp'). apply in_map_iff in Hp' as (y & [= E _] & _).
      apply Hc. rewrite <- E. now apply in_map.
  - apply Forall_forall. intros p Hp. apply in_flat_map in Hp as (c & Hc & Hp).
    apply in_map_iff in Hp as (x & <- & Hx).
    rewrite Forall_forall in Hd, Ht. constructor; [now apply Hd|].
    destruct (Ht c Hc) as [_ Hf]. rewrite Forall_forall in Hf. now apply Hf.
Qed.

Lemma children_nonempty (cs : list (string * state)) :
  Forall (fun p => p <> []) (paths (children cs)).
Proof.
  rewrite paths_children. apply Forall_forall. intros p Hp.
  apply in_flat_map in Hp as (c & _ & Hp). apply in_map_iff in Hp as (x & <- & _).
  discriminate.
Qed.

(** Distinct concrete names, and a property of each listed child. *)
Ltac names_distinct :=
  cbn [map fst app];
  repeat (constructor; [cbn [In]; intuition discriminate|]); constructor.

Ltac each tac :=
  cbn [app]; repeat (apply Forall_cons; [cbn [fst snd]; tac|]); apply Forall_nil.

Lemma tidy_conv (c : Conv2d.t) : tidy (Conv2d.entries c).
Proof.
  apply tidy_children.
  - names_distinct.
  - each ltac:(reflexivity).
  - each ltac:(apply tidy_leaf).
Qed.

Lemma tidy_bn (b : BatchNorm2d.t) : tidy (BatchNorm2d.entries b).
Proof.
  apply tidy_children.
  - names_distinct.
  - each ltac:(reflexivity).
  - each ltac:(apply tidy_leaf).
Qed.

Lemma tidy_head (c : head) : tidy (head_entries c).
Proof.
  destruct c as [l|c]; apply tidy_children.
  - names_distinct.
  - each ltac:(reflexivity).
  - each ltac:(apply tidy_leaf).
  - names_distinct.
  - each ltac:(reflexivity).
  - each ltac:(apply tidy_leaf).
Qed.

Lemma tidy_downsample (c : Conv2d.t) (n : BatchNorm2d.t) :
  tidy (children [("0"%string, Conv2d.entries c); ("1"%string, BatchNorm2d.entries n)]).
Proof.
  apply tidy_children.
  - names_distinct.
  - each ltac:(reflexivity).
  - each ltac:(first [apply tidy_conv|apply tidy_bn]).
Qed.

Lemma tidy_block (b : BasicBlock.t) : tidy (BasicBlock.entries b).
Proof.
  unfold BasicBlock.entries.
  destruct (BasicBlock.downsample b) as [[c n]|]; apply tidy_children.
  - names_distinct.
  - each ltac:(reflexivity).
  - each ltac:(first [apply tidy_conv|apply tidy_bn|apply tidy_downsample]).
  - names_distinct.
  - each ltac:(reflexivity).
  - each ltac:(first [apply tidy_conv|apply tidy_bn]).
Qed.

Lemma indexed_cons {A : Type} (start : nat) (a : A) (l : list A) :
  indexed start (a :: l) = (start, a) :: indexed (S start) l.
Proof. reflexivity. Qed.

Lemma indexed_fst {A : Type} (start : nat) (l : list A) :
  map fst (indexed start l) = seq start (length l).
Proof.
  revert start. induction l as [|a l IH]; intros start; [reflexivity|].
  rewrite indexed_cons. cbn [map fst length seq]. now rewrite IH.
Qed.

Lemma tidy_layer (l : list BasicBlock.t) : tidy (layer_entries l).
Proof.
  unfold layer_entries. apply tidy_children.
  - rewrite map_map. cbn [fst].
    rewrite <- (map_map fst string_of_nat), indexed_fst.
    apply NoDup_map_NoDup_ForallPairs; [|apply seq_NoDup].
    intros i j _ _. apply string_of_nat_inj.
  - apply Forall_forall. intros c Hc. apply in_map_iff in Hc as (ib & <- & _).
    apply nodot_string_of_nat.
  - apply Forall_forall. intros c Hc. apply in_map_iff in Hc as (ib & <- & _).
    apply tidy_block.
Qed.

Lemma tidy_resnet (m : ResNet.t) : tidy (ResNet.entries m).
Proof.
  unfold ResNet.entries. destruct (ResNet.cls_fn m) as [c|]; apply tidy_children.
  - names_distinct.
  - each ltac:(reflexivity).
  - each ltac:(first [apply tidy_conv|apply tidy_bn|apply tidy_layer|apply tidy_head]).
  - names_distinct.
  - each ltac:(reflexivity).
  - each ltac:(first [apply tidy_conv|apply tidy_bn|apply tidy_layer]).
Qed.

(** *** Reading the state dictionary back *)

Lemma lookup_state_dict (es : state) (p : list string) (t : tensor) :
  NoDup (paths es) ->
  Forall good_path (paths es) ->
  In (p, t) es ->
  lookup (state_dict es) (join p) = Some t.
Proof.
  induction es as [|[p0 t0] es IH]; intros Hn Hg Hin; [destruct Hin|].
  cbn [paths map fst] in Hn, Hg. fold (paths es) in Hn, Hg.
  inversion Hn as [|? ? Hp0 Hn']; inversion Hg as [|? ? Hg0 Hg']; subst.
  cbn [state_dict map lookup fst snd]. fold (state_dict es).
  destruct Hin as [[= -> ->]|Hin].
  - now rewrite String.eqb_refl.
  - destruct (String.eqb (join p0) (join p)) eqn:E.
    + apply String.eqb_eq in E.
      assert (Hgp : good_path p).
      { rewrite Forall_forall in Hg'. apply Hg'. apply in_map_iff. now exists (p, t). }
      apply (join_inj _ _ Hg0 Hgp) in E. subst p0. exfalso. apply Hp0.
      apply in_map_iff. now exists (p, t).
    + now apply IH.
Qed.

Lemma tidy_good (cs : list (string * state)) :
  tidy (children cs) -> Forall good_path (paths (children cs)).
Proof.
  intros [_ Hd]. pose proof (children_nonempty cs) as Hne.
  rewrite Forall_forall in *. intros p Hp. split; [now apply Hne|now apply Hd].
Qed.

Lemma covers_state_dict (m : ResNet.t) :
  covers (ResNet.get_state_dict m) [] (ResNet.entries m).
Proof.
  intros p t Hin. cbn [app]. unfold ResNet.get_state_dict.
  pose proof (tidy_resnet m) as Ht.
  apply lookup_state_dict; [apply Ht| |exact Hin].
  unfold ResNet.entries in *. now apply tidy_good.
Qed.

Lemma covers_child (sd : list (string * tensor)) (prefix : list string)
    (cs : list (string * state)) (n : string) (es : state) :
  covers sd prefix (children cs) -> In (n, es) cs -> covers sd (prefix ++ [n]) es.
Proof.
  intros Hc Hin p t Hp. rewrite <- app_assoc. cbn [app]. apply Hc.
  unfold children. apply in_flat_map. exists (n, es). split; [exact Hin|].
  unfold under. apply in_map_iff. exists (p, t). now split.
Qed.

Lemma covers_leaf (sd : list (string * tensor)) (prefix : list string) (t : tensor) :
  covers sd prefix (leaf t) -> lookup sd (join prefix) = Some t.
Proof. intros Hc. rewrite <- (app_nil_r prefix). apply Hc. now left. Qed.

Lemma load_tensor_ok (sd : list (string * tensor)) (strict : bool)
    (prefix : list string) (cs : list (string * state)) (n : string) (old t : tensor) :
  covers sd prefix (children cs) ->
  In (n, leaf t) cs ->
  shape old = shape t ->
  load_tensor sd strict (prefix ++ [n]) old = Ok t.
Proof.
  intros Hc Hin Hs. unfold load_tensor.
  rewrite (covers_leaf _ _ _ (covers_child _ _ _ _ _ Hc Hin)).
  now rewrite Hs, shape_eqb_refl.
Qed.

(* ================================================================== *)
(** ** Loading the state of a like model *)

Section Load.
Variable sd : list (string * tensor).
Variable strict : bool.

Lemma conv_load_ok (path : list string) (c0 c : Conv2d.t) :
  covers sd path (Conv2d.entries c) -> conv_like c0 c ->
  Conv2d.load sd strict path c0 = Ok c.
Proof.
  intros Hc (H1 & H2 & H3 & H4 & H5 & H6). unfold Conv2d.load.
  rewrite (load_tensor_ok sd strict path _ _ _ (Conv2d.weight c) Hc (or_introl eq_refl) H6).
  cbn [bind]. destruct c0, c. cbn in *. congruence.
Qed.

Lemma bn_load_ok (path : list string) (b0 b : BatchNorm2d.t) :
  covers sd path (BatchNorm2d.entries b) -> bn_like b0 b ->
  BatchNorm2d.load sd strict path b0 = Ok b.
Proof.
  intros Hc (H1 & H2 & H3 & H4 & H5 & H6). unfold BatchNorm2d.load.
  rewrite (load_tensor_ok sd strict path _ _ _ (BatchNorm2d.weight b) Hc
             (or_introl eq_refl) H2).
  rewrite (load_tensor_ok sd strict path _ _ _ (BatchNorm2d.bias b) Hc
             (or_intror (or_introl eq_refl)) H3).
  rewrite (load_tensor_ok sd strict path _ _ _ (BatchNorm2d.running_mean b) Hc
             (or_intror (or_intror (or_introl eq_refl))) H4).
  rewrite (load_tensor_ok sd strict path _ _ _ (BatchNorm2d.running_var b) Hc
             (or_intror (or_intror (or_intror (or_introl eq_refl)))) H5).
  rewrite (load_tensor_ok sd strict path _ _ _ (BatchNorm2d.num_batches_tracked b) Hc
             (or_intror (or_intror (or_intror (or_intror (or_introl eq_refl))))) H6).
  cbn [bind]. destruct b0, b. cbn in *. congruence.
Qed.

Lemma head_load_ok (path : list string) (h0 h : head) :
  covers sd path (head_entries h) -> head_like (Some h0) (Some h) ->
  load_head sd strict path h0 = Ok h.
Proof.
  intros Hc Hl. destruct h0 as [l0|c0], h as [l|c]; cbn [head_like] in Hl;
    try contradiction; cbn [load_head head_entries] in *.
  - destruct Hl as (H1 & H2 & H3 & H4). unfold Linear.load.
    rewrite (load_tensor_ok sd strict path _ _ _ (Linear.weight l) Hc
               (or_introl eq_refl) H3).
    rewrite (load_tensor_ok sd strict path _ _ _ (Linear.bias l) Hc
               (or_intror (or_introl eq_refl)) H4).
    cbn [bind]. destruct l0, l. cbn in *. congruence.
  - destruct Hl as (H1 & H2 & H3). unfold CosineClassifier.load.
    rewrite (load_tensor_ok sd strict path _ _ _ (CosineClassifier.weight c) Hc
               (or_introl eq_refl) H3).
    cbn [bind]. destruct c0, c. cbn in *. congruence.
Qed.

Lemma block_load_ok (path : list string) (b0 b : BasicBlock.t) :
  covers sd path (BasicBlock.entries b) -> block_like b0 b ->
  BasicBlock.load sd strict path b0 = Ok b.
Proof.
  intros Hc (H1 & H2 & H3 & H4 & H5 & H6). unfold BasicBlock.load.
  unfold BasicBlock.entries in Hc.
  assert (In4 : forall n es,
             In (n, es) [("conv1"%string, Conv2d.entries (BasicBlock.conv1 b));
                         ("bn1"%string, BatchNorm2d.entries (BasicBlock.bn1 b));
                         ("conv2"%string, Conv2d.entries (BasicBlock.conv2 b));
                         ("bn2"%string, BatchNorm2d.entries (BasicBlock.bn2 b))] ->
             covers sd (path ++ [n]) es).
  { intros n es Hin. apply (covers_child _ _ _ _ _ Hc). apply in_or_app. now left. }
  rewrite (conv_load_ok _ _ _ (In4 _ _ (or_introl eq_refl)) H1).
  rewrite (bn_load_ok _ _ _ (In4 _ _ (or_intror (or_introl eq_refl))) H2).
  rewrite (conv_load_ok _ _ _ (In4 _ _ (or_intror (or_intror (or_introl eq_refl)))) H3).
  rewrite (bn_load_ok _ _ _
             (In4 _ _ (or_intror (or_intror (or_intror (or_introl eq_refl))))) H4).
  cbn [bind]. unfold downsample_like in H5.
  destruct (BasicBlock.downsample b0) as [[c0 n0]|],
           (BasicBlock.downsample b) as [[c n]|] eqn:Ed; try contradiction.
  - destruct H5 as [Hcl Hnl].
    assert (Hd : covers sd (path ++ ["downsample"%string])
                   (children [("0"%string, Conv2d.entries c);
                              ("1"%string, BatchNorm2d.entries n)])).
    { apply (covers_child _ _ _ _ _ Hc). apply in_or_app. right. now left. }
    pose proof (covers_child _ _ _ _ _ Hd (or_introl eq_refl)) as Hd0.
    pose proof (covers_child _ _ _ _ _ Hd (or_intror (or_introl eq_refl))) as Hd1.
    rewrite <- app_assoc in Hd0, Hd1. cbn [app] in Hd0, Hd1.
    rewrite (conv_load_ok _ _ _ Hd0 Hcl), (bn_load_ok _ _ _ Hd1 Hnl). cbn [bind].
    destruct b0, b. cbn in *. congruence.
  - cbn [bind]. destruct b0, b. cbn in *. congruence.
Qed.

Lemma blocks_load_ok (path : list string) (l0 l : list BasicBlock.t) (start : nat) :
  Forall2 block_like l0 l ->
  (forall i b, In (i, b) (indexed start l) ->
               covers sd (path ++ [string_of_nat i]) (BasicBlock.entries b)) ->
  mapM (fun ib => BasicBlock.load sd strict (path ++ [string_of_nat (fst ib)]) (snd ib))
       (indexed start l0) = Ok l.
Proof.
  intros Hl. revert start. induction Hl as [|b0 b l0 l Hb Hl IH]; intros start Hc.
  - reflexivity.
  - rewrite indexed_cons in *. cbn [mapM fst snd].
    rewrite (block_load_ok _ _ _ (Hc start b (or_introl eq_refl)) Hb). cbn [bind].
    rewrite (IH (S start)); [reflexivity|].
    intros i b' Hin. apply Hc. now right.
Qed.

Lemma layer_load_ok (path : list string) (l0 l : list BasicBlock.t) :
  covers sd path (layer_entries l) -> Forall2 block_like l0 l ->
  load_layer sd strict path l0 = Ok l.
Proof.
  intros Hc Hl. unfold load_layer. apply blocks_load_ok; [exact Hl|].
  intros i b Hin. apply (covers_child _ _ _ _ _ Hc).
  apply in_map_iff. now exists (i, b).
Qed.

End Load.

(** *** Like models have the same names *)

Lemma block_paths (b0 b : BasicBlock.t) :
  block_like b0 b -> paths (BasicBlock.entries b0) = paths (BasicBlock.entries b).
Proof.
  intros (_ & _ & _ & _ & Hd & _). unfold BasicBlock.entries, downsample_like in *.
  destruct (BasicBlock.downsample b0) as [[c0 n0]|],
           (BasicBlock.downsample b) as [[c n]|]; try contradiction; reflexivity.
Qed.

Lemma blocks_paths (l0 l : list BasicBlock.t) (start : nat) :
  Forall2 block_like l0 l ->
  paths (children (map (fun ib => (string_of_nat (fst ib), BasicBlock.entries (snd ib)))
                       (indexed start l0)))
  = paths (children (map (fun ib => (string_of_nat (fst ib), BasicBlock.entries (snd ib)))
                         (indexed start l))).
Proof.
  intros Hl. revert start. induction Hl as [|b0 b l0 l Hb Hl IH]; intros start.
  - reflexivity.
  - rewrite !indexed_cons. cbn [map]. specialize (IH (S start)).
    rewrite !paths_children in *. cbn [flat_map fst snd].
    rewrite (block_paths _ _ Hb). f_equal. exact IH.
Qed.

Lemma layer_paths (l0 l : list BasicBlock.t) :
  Forall2 block_like l0 l -> paths (layer_entries l0) = paths (layer_entries l).
Proof. apply blocks_paths. Qed.

Lemma head_paths (h0 h : head) :
  head_like (Some h0) (Some h) -> paths (head_entries h0) = paths (head_entries h).
Proof. destruct h0, h; cbn [head_like]; try contradiction; reflexivity. Qed.

Lemma resnet_paths (m0 m : ResNet.t) :
  resnet_like m0 m -> paths (ResNet.entries m0) = paths (ResNet.entries m).
Proof.
  intros H. unfold ResNet.entries. rewrite !paths_children.
  pose proof (like_cls_fn _ _ H) as Hh.
  assert (E : forall a b : list (string * state),
             flat_map (fun c => map (cons (fst c)) (paths (snd c))) (a ++ b)
             = flat_map (fun c => map (cons (fst c)) (paths (snd c))) a
               ++ flat_map (fun c => map (cons (fst c)) (paths (snd c))) b)
    by (intros; apply flat_map_app).
  rewrite !E. f_equal.
  - cbn [flat_map fst snd].
    rewrite (layer_paths _ _ (like_layer1 _ _ H)), (layer_paths _ _ (like_layer2 _ _ H)),
            (layer_paths _ _ (like_layer3 _ _ H)), (layer_paths _ _ (like_layer4 _ _ H)).
    reflexivity.
  - destruct (ResNet.cls_fn m0) as [h0|], (ResNet.cls_fn m) as [h|];
      cbn [head_like] in Hh; try contradiction; [|destruct h0; contradiction|reflexivity].
    cbn [flat_map fst snd]. now rewrite (head_paths _ _ Hh).
Qed.

Lemma state_dict_keys (es : state) : map fst (state_dict es) = map join (paths es).
Proof. unfold state_dict, paths. rewrite !map_map. reflexivity. Qed.

Lemma no_unexpected_keys (ks : list string) (sd : list (string * tensor)) :
  map fst sd = ks ->
  forallb (fun kv => existsb (String.eqb (fst kv)) ks) sd = true.
Proof.
  intros <-. apply forallb_forall. intros kv Hin. apply existsb_exists.
  exists (fst kv). split; [now apply in_map|apply String.eqb_refl].
Qed.

(** Loading the state dictionary of a model into a like model gives the
    model back, in the mode of the model that was loaded into. *)
Lemma load_state_dict_like (m0 m : ResNet.t) :
  resnet_like m0 m ->
  ResNet.load_state_dict m0 (ResNet.get_state_dict m) true
  = Ok (ResNet.train (ResNet.training m0) m).
Proof.
  intros H. unfold ResNet.load_state_dict.
  rewrite no_unexpected_keys
    by (unfold ResNet.get_state_dict; rewrite !state_dict_keys;
        now rewrite (resnet_paths _ _ H)).
  cbn [andb negb].
  pose proof (covers_state_dict m) as Hc. unfold ResNet.entries in Hc.
  assert (In6 : forall n es,
             In (n, es) [("conv1"%string, Conv2d.entries (ResNet.conv1 m));
                         ("bn1"%string, BatchNorm2d.entries (ResNet.bn1 m));
                         ("layer1"%string, layer_entries (ResNet.layer1 m));
                         ("layer2"%string, layer_entries (ResNet.layer2 m));
                         ("layer3"%string, layer_entries (ResNet.layer3 m));
                         ("layer4"%string, layer_entries (ResNet.layer4 m))] ->
             covers (ResNet.get_state_dict m) [n] es).
  { intros n es Hin. apply (covers_child _ [] _ _ _ Hc). apply in_or_app. now left. }
  rewrite (conv_load_ok _ _ _ _ _ (In6 _ _ (or_introl eq_refl)) (like_conv1 _ _ H)).
  rewrite (bn_load_ok _ _ _ _ _ (In6 _ _ (or_intror (or_introl eq_refl)))
             (like_bn1 _ _ H)).
  rewrite (layer_load_ok _ _ _ _ _
             (In6 _ _ (or_intror (or_intror (or_introl eq_refl)))) (like_layer1 _ _ H)).
  rewrite (layer_load_ok _ _ _ _ _
             (In6 _ _ (or_intror (or_intror (or_intror (or_introl eq_refl)))))
             (like_layer2 _ _ H)).
  rewrite (layer_load_ok _ _ _ _ _
             (In6 _ _ (or_intror (or_intror (or_intror (or_intror (or_introl eq_refl))))))
             (like_layer3 _ _ H)).
  rewrite (layer_load_ok _ _ _ _ _
             (In6 _ _ (or_intror (or_intror (or_intror (or_intror
                                                          (or_intror (or_introl eq_refl)))))))
             (like_layer4 _ _ H)).
  cbn [bind].
  pose proof (like_cls_fn _ _ H) as Hh.
  assert (Hcls : match ResNet.cls_fn m0 with
                 | Some c =>
                     c' <- load_head (ResNet.get_state_dict m) true ["cls_fn"%string] c ;;
                     Ok (Some c')
                 | None => Ok None
                 end = Ok (ResNet.cls_fn m)).
  { destruct (ResNet.cls_fn m0) as [h0|], (ResNet.cls_fn m) as [h|] eqn:Eh;
      cbn [head_like] in Hh; try contradiction; [|destruct h0; contradiction|reflexivity].
    assert (Hch : covers (ResNet.get_state_dict m) ["cls_fn"%string] (head_entries h)).
    { apply (covers_child _ [] _ _ _ Hc). apply in_or_app. right. now left. }
    now rewrite (head_load_ok _ _ _ _ _ Hch Hh). }
  rewrite Hcls. cbn [bind]. unfold ResNet.train.
  rewrite (like_pool _ _ H), (like_inplanes _ _ H), (like_maxpool _ _ H),
          (like_dropout _ _ H), (like_outplanes _ _ H), (like_num_classes _ _ H).
  reflexivity.
Qed.

(** *** The constructor builds like models *)

Lemma conv_like_refl (c : Conv2d.t) : conv_like c c.
Proof. repeat split. Qed.

Lemma bn_like_refl (b : BatchNorm2d.t) : bn_like b b.
Proof. repeat split. Qed.

Lemma block_like_refl (b : BasicBlock.t) : block_like b b.
Proof.
  unfold block_like, downsample_like.
  destruct (BasicBlock.downsample b) as [[c n]|];
    repeat split; try apply conv_like_refl; try apply bn_like_refl.
Qed.

Lemma blocks_like_refl (l : list BasicBlock.t) : Forall2 block_like l l.
Proof. induction l; constructor; [apply block_like_refl|assumption]. Qed.

(** A model in either mode is a model of its own configuration. *)
Lemma resnet_like_train (b : bool) (m : ResNet.t) : resnet_like m (ResNet.train b m).
Proof.
  constructor; try reflexivity; try apply conv_like_refl; try apply bn_like_refl;
    try apply blocks_like_refl.
  cbn [ResNet.train ResNet.cls_fn]. destruct (ResNet.cls_fn m) as [[l|c]|]; repeat split.
Qed.

Lemma init_block_like (K0 K : Kernels) (n0 n : string) (b0 b : BasicBlock.t) :
  block_like b0 b -> block_like (ResNet.init_block K0 n0 b0) (ResNet.init_block K n b).
Proof.
  intros ((A1 & A2 & A3 & A4 & A5 & A6) & (B1 & B2 & B3 & B4 & B5 & B6)
          & (C1 & C2 & C3 & C4 & C5 & C6) & (D1 & D2 & D3 & D4 & D5 & D6) & Hd & Hs).
  unfold block_like, ResNet.init_block, ResNet.init_conv, ResNet.init_bn, conv_like,
    bn_like, full, tabulate.
  cbn [BasicBlock.conv1 BasicBlock.bn1 BasicBlock.conv2 BasicBlock.bn2
       BasicBlock.downsample BasicBlock.stride Conv2d.in_channels Conv2d.out_channels
       Conv2d.kernel_size Conv2d.stride Conv2d.padding Conv2d.weight
       BatchNorm2d.num_features BatchNorm2d.weight BatchNorm2d.bias
       BatchNorm2d.running_mean BatchNorm2d.running_var BatchNorm2d.num_batches_tracked
       shape].
  repeat split; try assumption.
  unfold downsample_like in *.
  destruct (BasicBlock.downsample b0) as [[c0 m0]|],
           (BasicBlock.downsample b) as [[c m]|]; try contradiction; [|exact I].
  destruct Hd as [(E1 & E2 & E3 & E4 & E5 & E6) (F1 & F2 & F3 & F4 & F5 & F6)].
  unfold conv_like, bn_like.
  cbn [Conv2d.in_channels Conv2d.out_channels Conv2d.kernel_size Conv2d.stride
       Conv2d.padding Conv2d.weight BatchNorm2d.num_features BatchNorm2d.weight
       BatchNorm2d.bias BatchNorm2d.running_mean BatchNorm2d.running_var
       BatchNorm2d.num_batches_tracked shape].
  repeat split; assumption.
Qed.

Lemma init_layer_like (K0 K : Kernels) (name : string) (l0 l : list BasicBlock.t) :
  Forall2 block_like l0 l ->
  Forall2 block_like (ResNet.init_layer K0 name l0) (ResNet.init_layer K name l).
Proof.
  unfold ResNet.init_layer. fold (indexed 0 l0). fold (indexed 0 l).
  generalize 0 as start. intros start Hl. revert start.
  induction Hl as [|b0 b l0 l Hb Hl IH]; intros start; [constructor|].
  rewrite !indexed_cons. cbn [map]. constructor; [|apply IH].
  now apply init_block_like.
Qed.

Lemma new_block_like (K0 K : Kernels) (a b s : nat)
    (d0 d : option (Conv2d.t * BatchNorm2d.t)) :
  downsample_like d0 d ->
  block_like (BasicBlock.__init__ K0 a b s d0) (BasicBlock.__init__ K a b s d).
Proof. intros Hd. repeat split. exact Hd. Qed.

Lemma make_layer_like (K0 K : Kernels) (a b n s : nat) :
  Forall2 block_like (fst (ResNet._make_layer K0 a b n s))
                     (fst (ResNet._make_layer K a b n s)).
Proof.
  unfold ResNet._make_layer. cbn [fst app]. constructor.
  - apply new_block_like.
    destruct (negb (s =? 1) || negb (a =? b * BasicBlock.expansion)); [|exact I].
    repeat split.
  - induction (seq 1 (n - 1)) as [|i l IH]; cbn [map]; constructor; [|exact IH].
    apply new_block_like. exact I.
Qed.

Lemma init_like (K0 K : Kernels) (layers : list nat) (classifier : option string)
    (num_classes : option Z) (p : Q) (m0 m : ResNet.t) :
  ResNet.__init__ K0 layers classifier num_classes p = Ok m0 ->
  ResNet.__init__ K layers classifier num_classes p = Ok m ->
  resnet_like m0 m.
Proof.
  intros H0 H.
  destruct (init_inv _ _ _ _ _ _ H0) as (_ & _ & N0 & C0 & D0).
  destruct (init_inv _ _ _ _ _ _ H) as (_ & _ & N1 & C1 & D1).
  revert H0 H. unfold ResNet.__init__.
  destruct (ResNet.layers_at layers 0) as [n0|]; [|discriminate].
  destruct (ResNet.layers_at layers 1) as [n1|]; [|discriminate].
  destruct (ResNet.layers_at layers 2) as [n2|]; [|discriminate].
  destruct (ResNet.layers_at layers 3) as [n3|]; [|discriminate].
  cbn [bind].
  pose proof (make_layer_like K0 K 64 64 n0 1) as L1.
  pose proof (make_layer_ok K0 64 64 n0 1) as [_ I1].
  pose proof (make_layer_ok K 64 64 n0 1) as [_ J1].
  destruct (ResNet._make_layer K0 64 64 n0 1) as [a1 i1].
  destruct (ResNet._make_layer K 64 64 n0 1) as [b1 j1].
  cbn [fst snd] in L1, I1, J1. subst i1 j1.
  pose proof (make_layer_like K0 K 64 (64 * 2) n1 2) as L2.
  pose proof (make_layer_ok K0 64 (64 * 2) n1 2) as [_ I2].
  pose proof (make_layer_ok K 64 (64 * 2) n1 2) as [_ J2].
  destruct (ResNet._make_layer K0 64 (64 * 2) n1 2) as [a2 i2].
  destruct (ResNet._make_layer K 64 (64 * 2) n1 2) as [b2 j2].
  cbn [fst snd] in L2, I2, J2. subst i2 j2.
  pose proof (make_layer_like K0 K (64 * 2) (64 * 4) n2 2) as L3.
  pose proof (make_layer_ok K0 (64 * 2) (64 * 4) n2 2) as [_ I3].
  pose proof (make_layer_ok K (64 * 2) (64 * 4) n2 2) as [_ J3].
  destruct (ResNet._make_layer K0 (64 * 2) (64 * 4) n2 2) as [a3 i3].
  destruct (ResNet._make_layer K (64 * 2) (64 * 4) n2 2) as [b3 j3].
  cbn [fst snd] in L3, I3, J3. subst i3 j3.
  pose proof (make_layer_like K0 K (64 * 4) (64 * 8) n3 2) as L4.
  pose proof (make_layer_ok K0 (64 * 4) (64 * 8) n3 2) as [_ I4].
  pose proof (make_layer_ok K (64 * 4) (64 * 8) n3 2) as [_ J4].
  destruct (ResNet._make_layer K0 (64 * 4) (64 * 8) n3 2) as [a4 i4].
  destruct (ResNet._make_layer K (64 * 4) (64 * 8) n3 2) as [b4 j4].
  cbn [fst snd] in L4, I4, J4. subst i4 j4.
  unfold Dropout.new. destruct (Qle_bool 0 p && Qle_bool p 1); [|discriminate].
  cbn [bind].
  match goal with |- bind ?r _ = _ -> _ => destruct r as [h0|] end; [|discriminate].
  match goal with |- _ -> bind ?r _ = _ -> _ => destruct r as [h1|] end; [|discriminate].
  cbn [bind]. intros [= <-] [= <-].
  unfold ResNet.init_modules in *.
  cbn [ResNet.num_classes ResNet.cls_fn ResNet.dropout] in *.
  constructor;
    cbn [ResNet.initial_pool ResNet.inplanes ResNet.conv1 ResNet.bn1 ResNet.maxpool
         ResNet.layer1 ResNet.layer2 ResNet.layer3 ResNet.layer4 ResNet.dropout
         ResNet.outplanes ResNet.num_classes ResNet.cls_fn];
    try reflexivity; try (repeat split; fail); try (now apply init_layer_like).
  subst h0 h1. unfold made_head. destruct num_classes as [nc|]; [|exact I].
  destruct classifier as [kind|]; [|exact I].
  destruct (String.eqb kind "linear"); [repeat split|].
  destruct (String.eqb kind "cosine"); [repeat split|exact I].
Qed.

(* ================================================================== *)
(** ** The inputs the network accepts

    Batch normalisation in training mode needs more than one value per
    channel; the lemmas follow the number of values through the layers. *)

Lemma strided_1 (h : nat) : 1 <= h -> strided 1 h = h.
Proof. intros H. unfold strided. rewrite Nat.div_1_r. lia. Qed.

Lemma strided_one (s : nat) : strided s 1 = 1.
Proof. unfold strided. now destruct s. Qed.

Lemma strided_pos (s h : nat) : 1 <= strided s h.
Proof. unfold strided. lia. Qed.

Lemma stem_size_pos (h : nat) : 1 <= stem_size h.
Proof. unfold stem_size. lia. Qed.

Lemma last_size_large (h : nat) : 19 <= h -> 2 <= last_size h.
Proof.
  intros H. unfold last_size.
  assert (H1 : 9 <= stem_size h).
  { unfold stem_size. assert (8 <= (h + 2 * 1 - 5) / 2) by (apply half_lower; lia). lia. }
  rewrite strided_1 by lia.
  assert (H2 : 5 <= strided 2 (stem_size h)) by (apply (down_lower _ 4); lia).
  assert (H3 : 3 <= strided 2 (strided 2 (stem_size h))) by (apply (down_lower _ 2); lia).
  apply (down_lower _ 1). lia.
Qed.

Lemma last_size_small (h : nat) : 3 <= h -> h < 19 -> last_size h = 1.
Proof.
  intros H3 H19.
  do 19 (destruct h as [|h]; [try lia; reflexivity|]). lia.
Qed.

Lemma one_value (n a b : nat) : n * (a * b) = 1 -> n = 1 /\ a = 1 /\ b = 1.
Proof.
  intros E. apply Nat.eq_mul_1 in E as [En E]. apply Nat.eq_mul_1 in E as [Ea Eb].
  now repeat split.
Qed.

Lemma last_values (n h w : nat) :
  3 <= h -> 3 <= w ->
  n * (last_size h * last_size w) = 1 <-> n = 1 /\ h < 19 /\ w < 19.
Proof.
  intros Hh Hw. split.
  - intros E. apply one_value in E as (En & Eh & Ew). split; [exact En|].
    split.
    + destruct (Nat.lt_ge_cases h 19) as [?|G]; [assumption|].
      apply last_size_large in G. lia.
    + destruct (Nat.lt_ge_cases w 19) as [?|G]; [assumption|].
      apply last_size_large in G. lia.
  - intros (-> & H1 & H2). now rewrite !last_size_small.
Qed.

Section Training.
Variable K : Kernels.

Lemma bn_forward_values (tr : bool) (b : BatchNorm2d.t) (x : tensor) (c n h w : nat) :
  BatchNorm2d.num_features b = c ->
  shape x = [n; c; h; w] ->
  tr = false \/ n * (h * w) <> 1 ->
  exists y, BatchNorm2d.forward K tr b x = Ok y /\ shape y = [n; c; h; w].
Proof.
  intros Hc Hx Hb. unfold BatchNorm2d.forward. rewrite Hx, Hc, Nat.eqb_refl.
  assert (Hne : tr && (n * (h * w) =? 1) = false).
  { destruct Hb as [->|Hb]; [reflexivity|].
    apply Nat.eqb_neq in Hb. rewrite Hb. apply andb_false_r. }
  rewrite Hne. cbn [negb]. eexists. split; reflexivity.
Qed.

Lemma bn_forward_one_value (b : BatchNorm2d.t) (x : tensor) (c n h w : nat) :
  shape x = [n; c; h; w] ->
  n * (h * w) = 1 ->
  BatchNorm2d.forward K true b x = Raise ValueError.
Proof.
  intros Hx E. unfold BatchNorm2d.forward. rewrite Hx, E. reflexivity.
Qed.

Lemma block_forward_values (tr : bool) (b : BasicBlock.t) (x : tensor)
    (cin planes s n h w : nat) :
  block_ok cin planes s b ->
  1 <= s ->
  shape x = [n; cin; h; w] ->
  1 <= h -> 1 <= w ->
  tr = false \/ n * (strided s h * strided s w) <> 1 ->
  exists y, BasicBlock.forward K tr b x = Ok y
            /\ shape y = [n; planes; strided s h; strided s w].
Proof.
  intros (Hc1 & Hb1 & Hc2 & Hb2 & Hd) Hs Hx Hh Hw Hb. unfold strided in *.
  unfold BasicBlock.forward.
  destruct (conv_forward_shape K _ x _ _ _ _ _ n h w Hc1 Hx) as (y1 & E1 & S1); [lia|lia|].
  replace (h + 2 * 1 - 3) with (h - 1) in S1 by lia.
  replace (w + 2 * 1 - 3) with (w - 1) in S1 by lia.
  rewrite (bind_ok _ _ _ E1).
  destruct (bn_forward_values tr _ y1 _ _ _ _ Hb1 S1 Hb) as (y2 & E2 & S2).
  rewrite (bind_ok _ _ _ E2).
  assert (S2' : shape (relu y2) = [n; planes; (h - 1) / s + 1; (w - 1) / s + 1])
    by exact S2.
  destruct (conv_forward_shape K _ (relu y2) _ _ _ _ _ _ _ _ Hc2 S2') as (y3 & E3 & S3);
    [lia|lia|].
  replace (((h - 1) / s + 1 + 2 * 1 - 3) / 1 + 1) with ((h - 1) / s + 1) in S3
    by (rewrite Nat.div_1_r; lia).
  replace (((w - 1) / s + 1 + 2 * 1 - 3) / 1 + 1) with ((w - 1) / s + 1) in S3
    by (rewrite Nat.div_1_r; lia).
  rewrite (bind_ok _ _ _ E3).
  destruct (bn_forward_values tr _ y3 _ _ _ _ Hb2 S3 Hb) as (y4 & E4 & S4).
  rewrite (bind_ok _ _ _ E4).
  assert (Hid : exists i,
             match BasicBlock.downsample b with
             | Some (c, bn) =>
                 y <- Conv2d.forward K c x ;; BatchNorm2d.forward K tr bn y
             | None => Ok x
             end = Ok i
             /\ shape i = [n; planes; (h - 1) / s + 1; (w - 1) / s + 1]).
  { destruct (BasicBlock.downsample b) as [[c bn]|].
    - destruct Hd as [Hc Hn].
      destruct (conv_forward_shape K _ x _ _ _ _ _ n h w Hc Hx) as (d1 & D1 & T1);
        [lia|lia|].
      replace (h + 2 * 0 - 1) with (h - 1) in T1 by lia.
      replace (w + 2 * 0 - 1) with (w - 1) in T1 by lia.
      rewrite (bind_ok _ _ _ D1).
      destruct (bn_forward_values tr _ d1 _ _ _ _ Hn T1 Hb) as (d2 & D2 & T2).
      exists d2. split; assumption.
    - destruct Hd as [-> ->]. exists x. split; [reflexivity|].
      rewrite Hx, !Nat.div_1_r. repeat f_equal; lia. }
  destruct Hid as (i & Ei & Si). rewrite (bind_ok _ _ _ Ei).
  unfold iadd. rewrite S4, Si, shape_eqb_refl. cbn [bind].
  eexists. split; reflexivity.
Qed.

Lemma block_forward_one_value (b : BasicBlock.t) (x : tensor)
    (cin planes s n h w : nat) :
  block_ok cin planes s b ->
  shape x = [n; cin; h; w] ->
  1 <= h -> 1 <= w ->
  n * (strided s h * strided s w) = 1 ->
  BasicBlock.forward K true b x = Raise ValueError.
Proof.
  intros (Hc1 & _) Hx Hh Hw E. unfold strided in E. unfold BasicBlock.forward.
  destruct (conv_forward_shape K _ x _ _ _ _ _ n h w Hc1 Hx) as (y1 & E1 & S1); [lia|lia|].
  replace (h + 2 * 1 - 3) with (h - 1) in S1 by lia.
  replace (w + 2 * 1 - 3) with (w - 1) in S1 by lia.
  rewrite (bind_ok _ _ _ E1).
  now rewrite (bn_forward_one_value _ y1 _ _ _ _ S1 E).
Qed.

Lemma sequential_values (tr : bool) (l : list BasicBlock.t) (x : tensor)
    (planes n h w : nat) :
  Forall (block_ok planes planes 1) l ->
  shape x = [n; planes; h; w] ->
  1 <= h -> 1 <= w ->
  tr = false \/ n * (h * w) <> 1 ->
  exists y, sequential (BasicBlock.forward K tr) l x = Ok y
            /\ shape y = [n; planes; h; w].
Proof.
  intros Hl. revert x. induction Hl as [|b l Hb Hl IH]; intros x Hx Hh Hw Hbn.
  - exists x. split; [reflexivity|exact Hx].
  - cbn [sequential].
    destruct (block_forward_values tr b x _ _ _ n h w Hb (le_n 1) Hx Hh Hw) as (y & E & S).
    { now rewrite !strided_1. }
    rewrite !strided_1 in S by assumption.
    rewrite (bind_ok _ _ _ E). now apply IH.
Qed.

Lemma layer_forward_values (tr : bool) (l : list BasicBlock.t) (x : tensor)
    (cin planes s n h w : nat) :
  layer_ok cin planes s l ->
  1 <= s ->
  shape x = [n; cin; h; w] ->
  1 <= h -> 1 <= w ->
  tr = false \/ n * (strided s h * strided s w) <> 1 ->
  exists y, sequential (BasicBlock.forward K tr) l x = Ok y
            /\ shape y = [n; planes; strided s h; strided s w].
Proof.
  intros Hl Hs Hx Hh Hw Hbn. destruct l as [|b rest]; [destruct Hl|].
  destruct Hl as [Hb Hrest]. cbn [sequential].
  destruct (block_forward_values tr b x _ _ _ n h w Hb Hs Hx Hh Hw Hbn) as (y & E & S).
  rewrite (bind_ok _ _ _ E).
  apply (sequential_values tr rest y planes n _ _ Hrest S);
    [apply strided_pos|apply strided_pos|exact Hbn].
Qed.

Lemma layer_forward_one_value (l : list BasicBlock.t) (x : tensor)
    (cin planes s n h w : nat) :
  layer_ok cin planes s l ->
  shape x = [n; cin; h; w] ->
  1 <= h -> 1 <= w ->
  n * (strided s h * strided s w) = 1 ->
  sequential (BasicBlock.forward K true) l x = Raise ValueError.
Proof.
  intros Hl Hx Hh Hw E. destruct l as [|b rest]; [destruct Hl|].
  destruct Hl as [Hb _]. cbn [sequential].
  now rewrite (block_forward_one_value b x _ _ _ n h w Hb Hx Hh Hw E).
Qed.

(** [embed] returns as soon as the last feature map leaves more than one
    value per channel, or in evaluation mode. *)
Lemma embed_values (m : ResNet.t) (x : tensor) (n h w : nat) :
  ResNet_ok m ->
  shape x = [n; 3; h; w] ->
  3 <= h -> 3 <= w ->
  ResNet.training m = false \/ n * (last_size h * last_size w) <> 1 ->
  exists z, ResNet.embed K m x
            = Ok (mkTensor (if n =? 1 then [512] else [n; 512])
                           (map (adaptive_avg_pool2d_at K z) (seq 0 (n * 512)))).
Proof.
  intros [Hpool Hc1 Hb1 L1 L2 L3 L4] Hx Hh Hw Hbn.
  unfold ResNet.embed. rewrite Hpool.
  set (tr := ResNet.training m) in *.
  unfold last_size in Hbn.
  rewrite (strided_1 (stem_size h)), (strided_1 (stem_size w)) in Hbn
    by apply stem_size_pos.
  set (h1 := stem_size h) in *. set (w1 := stem_size w) in *.
  set (h2 := strided 2 h1) in *. set (w2 := strided 2 w1) in *.
  set (h3 := strided 2 h2) in *. set (w3 := strided 2 w2) in *.
  assert (B3 : tr = false \/ n * (h3 * w3) <> 1).
  { destruct Hbn as [?|Hbn]; [now left|right]. intros E. apply Hbn.
    apply one_value in E as (-> & -> & ->). now rewrite !strided_one. }
  assert (B2 : tr = false \/ n * (h2 * w2) <> 1).
  { destruct B3 as [?|B3]; [now left|right]. intros E. apply B3.
    apply one_value in E as (-> & E2 & E2'). unfold h3, w3. rewrite E2, E2'.
    now rewrite !strided_one. }
  assert (B1 : tr = false \/ n * (h1 * w1) <> 1).
  { destruct B2 as [?|B2]; [now left|right]. intros E. apply B2.
    apply one_value in E as (-> & E1 & E1'). unfold h2, w2. rewrite E1, E1'.
    now rewrite !strided_one. }
  assert (Hh1 : 1 <= h1) by apply stem_size_pos.
  assert (Hw1 : 1 <= w1) by apply stem_size_pos.
  destruct (conv_forward_shape K _ x _ _ _ _ _ n h w Hc1 Hx) as (y1 & E1 & S1); [lia|lia|].
  fold (stem_size h) (stem_size w) in S1. fold h1 w1 in S1.
  rewrite (bind_ok _ _ _ E1).
  destruct (bn_forward_values tr _ y1 _ _ _ _ Hb1 S1 B1) as (y2 & E2 & S2).
  rewrite (bind_ok _ _ _ E2). cbn [bind].
  assert (S2' : shape (relu y2) = [n; 64; h1; w1]) by exact S2.
  destruct (layer_forward_values tr _ (relu y2) _ _ _ n h1 w1 L1 (le_n 1) S2' Hh1 Hw1)
    as (z1 & F1 & T1).
  { now rewrite !strided_1. }
  rewrite !strided_1 in T1 by assumption.
  rewrite (bind_ok _ _ _ F1).
  destruct (layer_forward_values tr _ z1 _ _ _ n h1 w1 L2 (le_S _ _ (le_n 1)) T1 Hh1 Hw1 B2)
    as (z2 & F2 & T2).
  fold h2 w2 in T2. rewrite (bind_ok _ _ _ F2).
  destruct (layer_forward_values tr _ z2 _ _ _ n h2 w2 L3 (le_S _ _ (le_n 1)) T2
              (strided_pos _ _) (strided_pos _ _) B3) as (z3 & F3 & T3).
  fold h3 w3 in T3. rewrite (bind_ok _ _ _ F3).
  destruct (layer_forward_values tr _ z3 _ _ _ n h3 w3 L4 (le_S _ _ (le_n 1)) T3
              (strided_pos _ _) (strided_pos _ _) Hbn) as (z4 & F4 & T4).
  rewrite (bind_ok _ _ _ F4).
  unfold AdaptiveAvgPool2d.forward. rewrite T4.
  pose proof (strided_pos 2 h3) as Hh4. pose proof (strided_pos 2 w3) as Hw4.
  apply Nat.leb_le in Hh4, Hw4. rewrite Hh4, Hw4. cbn [andb bind].
  exists z4.
  unfold squeeze, tabulate. cbn [shape data]. rewrite numel_pooled. f_equal. f_equal.
  cbn [filter]. replace (512 =? 1) with false by reflexivity.
  rewrite Nat.eqb_refl. cbn [negb]. destruct (n =? 1); reflexivity.
Qed.

(** In training mode a batch that leaves a single value per channel in the
    last feature map is refused by a batch normalisation: by that of the
    stem, or by the first one of the layer whose output has one value. *)
Lemma embed_one_value (m : ResNet.t) (x : tensor) (n h w : nat) :
  ResNet_ok m ->
  ResNet.training m = true ->
  shape x = [n; 3; h; w] ->
  3 <= h -> 3 <= w ->
  n * (last_size h * last_size w) = 1 ->
  ResNet.embed K m x = Raise ValueError.
Proof.
  intros [Hpool Hc1 Hb1 L1 L2 L3 L4] Htr Hx Hh Hw Hone.
  unfold ResNet.embed. rewrite Hpool, Htr.
  unfold last_size in Hone.
  rewrite (strided_1 (stem_size h)), (strided_1 (stem_size w)) in Hone
    by apply stem_size_pos.
  set (h1 := stem_size h) in *. set (w1 := stem_size w) in *.
  set (h2 := strided 2 h1) in *. set (w2 := strided 2 w1) in *.
  set (h3 := strided 2 h2) in *. set (w3 := strided 2 w2) in *.
  assert (Hh1 : 1 <= h1) by apply stem_size_pos.
  assert (Hw1 : 1 <= w1) by apply stem_size_pos.
  destruct (conv_forward_shape K _ x _ _ _ _ _ n h w Hc1 Hx) as (y1 & E1 & S1); [lia|lia|].
  fold (stem_size h) (stem_size w) in S1. fold h1 w1 in S1.
  rewrite (bind_ok _ _ _ E1).
  destruct (Nat.eq_dec (n * (h1 * w1)) 1) as [Z1|N1].
  { now rewrite (bn_forward_one_value _ y1 _ _ _ _ S1 Z1). }
  destruct (bn_forward_values true _ y1 _ _ _ _ Hb1 S1 (or_intror N1)) as (y2 & E2 & S2).
  rewrite (bind_ok _ _ _ E2). cbn [bind].
  assert (S2' : shape (relu y2) = [n; 64; h1; w1]) by exact S2.
  destruct (layer_forward_values true _ (relu y2) _ _ _ n h1 w1 L1 (le_n 1) S2' Hh1 Hw1)
    as (z1 & F1 & T1).
  { right. now rewrite !strided_1. }
  rewrite !strided_1 in T1 by assumption.
  rewrite (bind_ok _ _ _ F1).
  destruct (Nat.eq_dec (n * (h2 * w2)) 1) as [Z2|N2].
  { now rewrite (layer_forward_one_value _ z1 _ _ _ n h1 w1 L2 T1 Hh1 Hw1 Z2). }
  destruct (layer_forward_values true _ z1 _ _ _ n h1 w1 L2 (le_S _ _ (le_n 1)) T1 Hh1 Hw1
              (or_intror N2)) as (z2 & F2 & T2).
  fold h2 w2 in T2. rewrite (bind_ok _ _ _ F2).
  destruct (Nat.eq_dec (n * (h3 * w3)) 1) as [Z3|N3].
  { now rewrite (layer_forward_one_value _ z2 _ _ _ n h2 w2 L3 T2
                   (strided_pos _ _) (strided_pos _ _) Z3). }
  destruct (layer_forward_values true _ z2 _ _ _ n h2 w2 L3 (le_S _ _ (le_n 1)) T2
              (strided_pos _ _) (strided_pos _ _) (or_intror N3)) as (z3 & F3 & T3).
  fold h3 w3 in T3. rewrite (bind_ok _ _ _ F3).
  now rewrite (layer_forward_one_value _ z3 _ _ _ n h3 w3 L4 T3
                 (strided_pos _ _) (strided_pos _ _) Hone).
Qed.

(** A batch that is not [n; 3; h; w] with [h] and [w] at least 3 is refused
    by the first convolution. *)
Lemma embed_bad_shape (m : ResNet.t) (x : tensor) :
  ResNet_ok m ->
  (forall n h w, shape x = [n; 3; h; w] -> 3 <= h -> 3 <= w -> False) ->
  ResNet.embed K m x = Raise RuntimeError.
Proof.
  intros [_ (Hi & _ & Hk & _ & Hp) _ _ _ _ _] Hbad.
  unfold ResNet.embed, Conv2d.forward. rewrite Hi, Hk, Hp.
  destruct (shape x) as [|n [|c [|h [|w [|d rest]]]]]; try reflexivity.
  destruct ((c =? 3) && (5 <=? h + 2 * 1) && (5 <=? w + 2 * 1)) eqn:E; [|reflexivity].
  exfalso. apply andb_true_iff in E as [E Ew]. apply andb_true_iff in E as [Ec Eh].
  apply Nat.eqb_eq in Ec. apply Nat.leb_le in Eh, Ew. subst c.
  apply (Hbad n h w eq_refl); lia.
Qed.

End Training.

Lemma ok_train (mode : bool) (m : ResNet.t) : ResNet_ok m -> ResNet_ok (ResNet.train mode m).
Proof. intros [H1 H2 H3 H4 H5 H6 H7]. now constructor. Qed.

(* ================================================================== *)
(** ** Label arithmetic in an integer type *)







(* ================================================================== *)
(** ** Runs on a concrete model *)

Lemma made_head_unrecognized (K : Kernels) (classifier : option string)
    (num_classes : option Z) :
  unrecognized classifier -> made_head K classifier num_classes = None.
Proof.
  unfold made_head, unrecognized. destruct num_classes; [|reflexivity].
  destruct classifier as [kind|]; [|reflexivity]. now intros [-> ->].
Qed.

Lemma episode_2way_cover (c : Z) :
  (0 <= c < 2)%Z -> In c (ResNet.support_labels episode_2way).
Proof.
  intros Hc. assert (c = 0 \/ c = 1)%Z as [-> | ->] by lia; cbn; auto.
Qed.

(** A run that returns: the 18-layer model with a cosine head for two
    classes exports the two-way episode as 7 rows. *)
Lemma cosine_2way_run :
  exists m f,
    ResNet.__init__ null_engine [2; 2; 2; 2] (Some "cosine"%string) (Some 2%Z) 0 = Ok m
    /\ ResNet.get_final_features null_engine m episode_2way
       = Ok (f, [0; 1; 5; 6; 7; 8; 9]%Z)
    /\ shape f = [7; 512].
Proof.
  destruct (resnet18_init_ok null_engine (Some "cosine"%string) (Some 2%Z) 0 eq_refl)
    as [m Hm]; [cbn; lia|].
  destruct (init_inv _ _ _ _ _ _ Hm) as (Hok & _ & Hnc & Hcls & _).
  destruct (export_run null_engine m episode_2way 2 1 84 84 84 84 512 2 2%Z
              (CosineHead (CosineClassifier.new null_engine 512 2))
              Hok eq_refl eq_refl) as [Hrun _];
    [lia|right; left; lia|right; right; lia|exact Hnc|exact Hcls|reflexivity|reflexivity
    |exact episode_2way_cover|].
  destruct (Hrun eq_refl) as (f & Hf & Sf).
  exists m, f. split; [exact Hm|]. split; [exact Hf|exact Sf].
Qed.

(* ================================================================== *)
(** ** The claims *)




(** C2: the default 18-layer model (no classifier, 64 classes) on an
    episode of two support images and one query image.  The claim gives
    the export [2 + 1 + 64] rows; the call raises [AttributeError]. *)
Theorem export_default_model_raises :
  exists m,
    ResNet.__init__ null_engine [2; 2; 2; 2] None (Some 64%Z) 0 = Ok m
    /\ ResNet.get_final_features null_engine m episode_2way
       = Raise (AttributeError "cls_fn").
Proof.
  destruct (resnet18_init_ok null_engine None (Some 64%Z) 0 eq_refl) as [m Hm];
    [cbn; lia|].
  destruct (init_inv _ _ _ _ _ _ Hm) as (Hok & _ & Hnc & Hcls & _).
  destruct (embed_value null_engine m (images 2 84 84) 2 84 84 Hok eq_refl) as (fs & Es);
    [lia|lia|right; left; lia|].
  destruct (embed_value null_engine m (images 1 84 84) 1 84 84 Hok eq_refl) as (fq & Eq);
    [lia|lia|right; right; lia|].
  exists m. split; [exact Hm|].
  unfold ResNet.get_final_features, ResNet.final_blocks.
  change (ResNet.support_images episode_2way) with (images 2 84 84).
  change (ResNet.query_images episode_2way) with (images 1 84 84).
  rewrite Es, Eq. cbn [bind]. rewrite Hnc.
  unfold ResNet.get_cls_fn. now rewrite Hcls.
Qed.

(** C3: a model built without a recognized classifier kind has no
    attribute [cls_fn], and [embed] works on it; but [get_final_features]
    does not omit the classifier rows: once both batches are embedded it
    raises [AttributeError] at the test [self.cls_fn != None]. *)
Theorem export_without_classifier_raises (K : Kernels) (layers : list nat)
    (classifier : option string) (nc : Z) (p : Q) (m : ResNet.t)
    (ep : ResNet.episode) (ns nq h w h' w' : nat) :
  unrecognized classifier ->
  ResNet.__init__ K layers classifier (Some nc) p = Ok m ->
  shape (ResNet.support_images ep) = [ns; 3; h; w] ->
  shape (ResNet.query_images ep) = [nq; 3; h'; w'] ->
  3 <= h /\ 3 <= w /\ 3 <= h' /\ 3 <= w' ->
  2 <= ns \/ 19 <= h ->
  2 <= nq \/ 19 <= h' ->
  ResNet.cls_fn m = None
  /\ (exists sf qf,
        ResNet.embed K m (ResNet.support_images ep) = Ok sf
        /\ ResNet.embed K m (ResNet.query_images ep) = Ok qf)
  /\ ResNet.get_final_features K m ep = Raise (AttributeError "cls_fn").
Proof.
  intros Hu Hm Hs Hq (H1 & H2 & H3 & H4) Hbs Hbq.
  destruct (init_inv _ _ _ _ _ _ Hm) as (Hok & _ & Hnc & Hcls & _).
  rewrite (made_head_unrecognized _ _ _ Hu) in Hcls. split; [exact Hcls|].
  destruct (embed_value K m _ ns h w Hok Hs H1 H2 (or_intror Hbs)) as (zs & Es).
  destruct (embed_value K m _ nq h' w' Hok Hq H3 H4 (or_intror Hbq)) as (zq & Eq).
  split; [eexists; eexists; split; [exact Es|exact Eq]|].
  unfold ResNet.get_final_features, ResNet.final_blocks.
  rewrite Es, Eq. cbn [bind]. rewrite Hnc.
  unfold ResNet.get_cls_fn. now rewrite Hcls.
Qed.

Lemma export_without_classifier_raises_witness :
  exists m,
    unrecognized (Some "softmax"%string)
    /\ ResNet.__init__ null_engine [2; 2; 2; 2] (Some "softmax"%string) (Some 2%Z) 0 = Ok m
    /\ ResNet.cls_fn m = None
    /\ (exists sf qf,
          ResNet.embed null_engine m (ResNet.support_images episode_2way) = Ok sf
          /\ ResNet.embed null_engine m (ResNet.query_images episode_2way) = Ok qf)
    /\ ResNet.get_final_features null_engine m episode_2way
       = Raise (AttributeError "cls_fn").
Proof.
  destruct (resnet18_init_ok null_engine (Some "softmax"%string) (Some 2%Z) 0 eq_refl)
    as [m Hm]; [cbn; lia|].
  assert (Hu : unrecognized (Some "softmax"%string)) by (split; reflexivity).
  exists m. split; [exact Hu|]. split; [exact Hm|].
  apply (export_without_classifier_raises null_engine _ _ _ _ m episode_2way
           2 1 84 84 84 84 Hu Hm eq_refl eq_refl); [lia|left; lia|right; lia].
Defined.

(** C4: [nn.Linear(512, num_classes)] keeps its weight as [num_classes]
    rows of dimension 512, so the block [self.cls_fn.weight.T] that the
    export appends has 512 rows of dimension [num_classes], not one row
    per class; unless [num_classes = 512] the stacking then raises. *)
Theorem linear_head_block_is_transposed (K : Kernels) (m : ResNet.t)
    (ep : ResNet.episode) (ns nq h w h' w' : nat) (nc : Z) (l : Linear.t) :
  ResNet_ok m ->
  shape (ResNet.support_images ep) = [ns; 3; h; w] ->
  shape (ResNet.query_images ep) = [nq; 3; h'; w'] ->
  3 <= h /\ 3 <= w /\ 3 <= h' /\ 3 <= w' ->
  ResNet.training m = false \/ 2 <= ns \/ 19 <= h ->
  ResNet.training m = false \/ 2 <= nq \/ 19 <= h' ->
  ResNet.num_classes m = Some nc ->
  ResNet.cls_fn m = Some (LinearHead l) ->
  shape (Linear.weight l) = [Z.to_nat nc; 512] ->
  length (ResNet.support_labels ep) = ns ->
  (forall c, (0 <= c < nc)%Z -> In c (ResNet.support_labels ep)) ->
  Z.to_nat nc <> 512 ->
  shape (T (Linear.weight l)) = [512; Z.to_nat nc]
  /\ ResNet.get_final_features K m ep = Raise RuntimeError.
Proof.
  intros Hok Hs Hq Hh Hbs Hbq Hnc Hcls Hw Hlen Hcov Hne. split.
  - unfold T. cbn [shape]. now rewrite Hw.
  - exact (proj2 (export_run K m ep ns nq h w h' w' (Z.to_nat nc) 512 nc (LinearHead l)
                    Hok Hs Hq Hh Hbs Hbq Hnc Hcls Hw Hlen Hcov) Hne).
Qed.

Lemma linear_head_block_is_transposed_witness :
  exists m,
    ResNet.__init__ null_engine [2; 2; 2; 2] (Some "linear"%string) (Some 2%Z) 0 = Ok m
    /\ ResNet.cls_fn m = Some (LinearHead (Linear.new null_engine 512 2))
    /\ Z.to_nat 2 <> 512
    /\ shape (T (Linear.weight (Linear.new null_engine 512 2))) = [512; 2]
    /\ ResNet.get_final_features null_engine m episode_2way = Raise RuntimeError.
Proof.
  destruct (resnet18_init_ok null_engine (Some "linear"%string) (Some 2%Z) 0 eq_refl)
    as [m Hm]; [cbn; lia|].
  destruct (init_inv _ _ _ _ _ _ Hm) as (Hok & _ & Hnc & Hcls & _).
  exists m. split; [exact Hm|]. split; [exact Hcls|].
  assert (Hne : Z.to_nat 2 <> 512) by (cbn; lia).
  split; [exact Hne|].
  apply (linear_head_block_is_transposed null_engine m episode_2way 2 1 84 84 84 84 2%Z
           (Linear.new null_engine 512 2) Hok eq_refl eq_refl);
    [lia|right; left; lia|right; right; lia|exact Hnc|exact Hcls|reflexivity|reflexivity
    |exact episode_2way_cover|exact Hne].
Defined.

(** C5: in the export the prototypes are computed from the support
    embeddings and the support labels.  When every class in
    [[0, num_classes)] has a support example, the block appended last has
    one row per class, and the row of class [c] is the mean of exactly the
    support embeddings whose label is [c]: its entry [j] is the sum of
    their entries [j] divided by their number.  When a class has no
    support example the computation raises. *)
Theorem prototype_rows_are_class_means (K : Kernels) (m : ResNet.t)
    (ep : ResNet.episode) (sf qf : tensor) (nc : Z) (cls : head) :
  ResNet.embed K m (ResNet.support_images ep) = Ok sf ->
  ResNet.embed K m (ResNet.query_images ep) = Ok qf ->
  ResNet.num_classes m = Some nc ->
  ResNet.cls_fn m = Some cls ->
  let members := class_members sf (ResNet.support_labels ep) in
  let d := last (shape sf) 1 in
  (forall c r, In r (members c)
               <-> exists i, nth_error (ResNet.support_labels ep) i = Some c
                             /\ nth_error (rows sf) i = Some r)
  /\ ((forall c, (0 <= c < nc)%Z -> members c <> []) ->
      exists protos ls,
        ResNet.final_blocks K m ep = Ok ([sf; qf; T (cls_weight cls); protos], ls)
        /\ shape protos = [Z.to_nat nc; d]
        /\ length (rows protos) = Z.to_nat nc
        /\ forall c, (0 <= c < nc)%Z ->
             nth (Z.to_nat c) (rows protos) [] = mean_rows d (members c)
             /\ forall j, j < d ->
                  nth j (nth (Z.to_nat c) (rows protos) []) 0%R
                  = (sum_R (map (fun r => nth j r 0%R) (members c))
                     / INR (length (members c)))%R)
  /\ (forall c, (0 <= c < nc)%Z -> members c = [] ->
      ResNet.final_blocks K m ep = Raise ValueError
      /\ ResNet.get_final_features K m ep = Raise ValueError).
Proof.
  intros Hs Hq Hnc Hcls members d. split; [|split].
  - intros c r. apply class_members_spec.
  - intros Hcov.
    assert (Hne : Forall (fun c => members c <> []) (arange nc)).
    { apply Forall_forall. intros c Hc. apply Hcov. now apply arange_in. }
    destruct (compute_prototypes_ok _ _ _ Hne) as [protos Ep].
    destruct (compute_prototypes_inv _ _ _ _ Ep) as (Sp & Rp & _ & _).
    exists protos. eexists. split; [|split; [exact Sp|split]].
    + unfold ResNet.final_blocks. rewrite Hs, Hq. cbn [bind]. rewrite Hnc.
      unfold ResNet.get_cls_fn. rewrite Hcls. cbn [bind]. rewrite Ep. reflexivity.
    + rewrite Rp, length_map. apply arange_length.
    + intros c Hc.
      assert (E : nth (Z.to_nat c) (rows protos) [] = mean_rows d (members c)).
      { rewrite Rp. rewrite (nth_map_in _ _ _ 0%Z) by (rewrite arange_length; lia).
        rewrite arange_nth by lia. now rewrite Z2Nat.id by lia. }
      split; [exact E|]. intros j Hj. rewrite E. now apply mean_rows_nth.
  - intros c Hc He.
    assert (Ep : compute_prototypes sf (ResNet.support_labels ep) nc = Raise ValueError).
    { unfold compute_prototypes.
      rewrite (prototypes_of_empty _ _ _ _ c); [reflexivity| |exact He].
      now apply arange_in. }
    assert (Eb : ResNet.final_blocks K m ep = Raise ValueError).
    { unfold ResNet.final_blocks. rewrite Hs, Hq. cbn [bind]. rewrite Hnc.
      unfold ResNet.get_cls_fn. rewrite Hcls. cbn [bind]. now rewrite Ep. }
    split; [exact Eb|]. unfold ResNet.get_final_features. now rewrite Eb.
Qed.

Lemma prototype_rows_are_class_means_witness :
  exists m sf qf protos ls,
    ResNet.embed null_engine m (ResNet.support_images episode_2way) = Ok sf
    /\ ResNet.embed null_engine m (ResNet.query_images episode_2way) = Ok qf
    /\ ResNet.num_classes m = Some 2%Z
    /\ (forall c, (0 <= c < 2)%Z ->
          class_members sf (ResNet.support_labels episode_2way) c <> [])
    /\ ResNet.final_blocks null_engine m episode_2way
       = Ok ([sf; qf;
              T (cls_weight (CosineHead (CosineClassifier.new null_engine 512 2)));
              protos], ls)
    /\ length (rows protos) = 2.
Proof.
  destruct (resnet18_init_ok null_engine (Some "cosine"%string) (Some 2%Z) 0 eq_refl)
    as [m Hm]; [cbn; lia|].
  destruct (init_inv _ _ _ _ _ _ Hm) as (Hok & _ & Hnc & Hcls & _).
  destruct (embed_value null_engine m (images 2 84 84) 2 84 84 Hok eq_refl) as (zs & Es);
    [lia|lia|right; left; lia|].
  destruct (embed_value null_engine m (images 1 84 84) 1 84 84 Hok eq_refl) as (zq & Eq);
    [lia|lia|right; right; lia|].
  assert (Hcov : forall c, (0 <= c < 2)%Z ->
            class_members
              (mkTensor (if 2 =? 1 then [512] else [2; 512])
                 (map (adaptive_avg_pool2d_at null_engine zs) (seq 0 (2 * 512))))
              (ResNet.support_labels episode_2way) c <> []).
  { intros c Hc. apply class_members_nonempty; [now apply episode_2way_cover|].
    rewrite embedded_rows_length. cbn. lia. }
  destruct (prototype_rows_are_class_means null_engine m episode_2way _ _ 2%Z _
              Es Eq Hnc Hcls) as (_ & Hmean & _).
  destruct (Hmean Hcov) as (protos & ls & Hb & _ & Hlen & _).
  exists m. eexists. eexists. exists protos, ls.
  split; [exact Es|]. split; [exact Eq|]. split; [exact Hnc|]. split; [exact Hcov|].
  split; [exact Hb|exact Hlen].
Defined.

(** C6, as stated, fails: a row of zeros is returned as a row of zeros,
    of norm 0.  The freshly built network maps the zero images of the
    episode to zero embeddings (every convolution, batch normalisation and
    pooling of zeros is zero), which is what the null engine computes. *)
Lemma export_zero_row_keeps_norm_zero :
  exists m f l r,
    ResNet.__init__ null_engine [2; 2; 2; 2] (Some "cosine"%string) (Some 2%Z) 0 = Ok m
    /\ ResNet.get_final_features null_engine m episode_2way = Ok (f, l)
    /\ In r (rows f)
    /\ norm2 r = 0%R
    /\ ~ (Rabs (norm2 r - 1) <= / 10 ^ 12)%R.
Proof.
  destruct cosine_2way_run as (m & f & Hm & Hf & _).
  destruct (init_inv _ _ _ _ _ _ Hm) as (Hok & _).
  destruct (embed_value null_engine m (images 2 84 84) 2 84 84 Hok eq_refl) as (zs & Es);
    [lia|lia|right; left; lia|].
  destruct (get_final_features_rows null_engine m episode_2way f _ Hf)
    as (sf & qf & nc & cls & protos & Hs & _ & _ & _ & _ & Hr).
  change (ResNet.support_images episode_2way) with (images 2 84 84) in Hs.
  assert (Hz : Forall zeros (rows sf) /\ length (rows sf) = 2).
  { assert (E : Ok sf = Ok (mkTensor (if 2 =? 1 then [512] else [2; 512])
                              (map (adaptive_avg_pool2d_at null_engine zs)
                                   (seq 0 (2 * 512)))))
      by (rewrite <- Hs; exact Es).
    assert (E' : sf = mkTensor (if 2 =? 1 then [512] else [2; 512])
                        (map (adaptive_avg_pool2d_at null_engine zs) (seq 0 (2 * 512))))
      by congruence.
    rewrite E'. split; [|apply embedded_rows_length].
    apply rows_zeros. apply Forall_forall.
    intros a Ha. apply in_map_iff in Ha as (i & <- & _). reflexivity. }
  destruct Hz as [Hz Hlen].
  destruct (rows sf) as [|v rest] eqn:Erows; [discriminate|].
  inversion Hz as [|? ? Hv _]; subst.
  exists m, f. eexists. exists (normalize_row (/ 10 ^ 12)%R v).
  split; [exact Hm|]. split; [exact Hf|].
  assert (Hn : norm2 (normalize_row (/ 10 ^ 12) v) = 0%R).
  { rewrite (normalize_row_zeros _ _ Hv). now apply norm2_zeros. }
  split. { rewrite Hr. cbn [app map]. now left. }
  split; [exact Hn|].
  rewrite Hn. replace (0 - 1)%R with (- (1))%R by lra.
  rewrite Rabs_Ropp, Rabs_R1. pose proof eps_pos as He.
  assert (/ 10 ^ 12 < / 1)%R; [|rewrite Rinv_1 in *; lra].
  apply Rinv_lt_contravar.
  - rewrite Rmult_1_l. apply pow_lt. lra.
  - apply Rlt_pow_R1; [lra|lia].
Qed.

(** C6, amended: every row of an export that is returned is the stacked
    row [v] divided by [max (norm2 v) eps] with [eps = 1e-12], a divisor
    that is never below [eps].  The returned row has norm 1 when
    [norm2 v >= eps]; otherwise it is [v / eps], of norm
    [norm2 v / eps < 1], and a row of zeros is returned unchanged. *)
Theorem export_rows_normalized (K : Kernels) (m : ResNet.t) (ep : ResNet.episode)
    (f : tensor) (l : list Z) :
  ResNet.get_final_features K m ep = Ok (f, l) ->
  exists sf qf cls protos,
    ResNet.embed K m (ResNet.support_images ep) = Ok sf
    /\ ResNet.embed K m (ResNet.query_images ep) = Ok qf
    /\ ResNet.cls_fn m = Some cls
    /\ let stacked := rows sf ++ rows qf ++ rows (T (cls_weight cls)) ++ rows protos in
       let eps := (/ 10 ^ 12)%R in
       rows f = map (fun v => map (fun a => (a / Rmax (norm2 v) eps)%R) v) stacked
       /\ forall v, (eps <= Rmax (norm2 v) eps)%R
                    /\ ((eps <= norm2 v)%R -> norm2 (normalize_row eps v) = 1%R)
                    /\ ((norm2 v < eps)%R ->
                        norm2 (normalize_row eps v) = (norm2 v / eps)%R
                        /\ (norm2 (normalize_row eps v) < 1)%R)
                    /\ (zeros v -> normalize_row eps v = v).
Proof.
  intros H.
  destruct (get_final_features_rows K m ep f l H)
    as (sf & qf & nc & cls & protos & Hs & Hq & _ & Hc & _ & Hr).
  exists sf, qf, cls, protos. split; [exact Hs|]. split; [exact Hq|]. split; [exact Hc|].
  cbv zeta. split; [exact Hr|]. intros v.
  destruct (normalize_row_norm (/ 10 ^ 12) v eps_pos) as (H1 & H2 & H3).
  split; [exact H1|]. split; [exact H2|]. split; [exact H3|].
  apply normalize_row_zeros.
Qed.

Lemma export_rows_normalized_witness :
  exists m f sf,
    ResNet.get_final_features null_engine m episode_2way = Ok (f, [0; 1; 5; 6; 7; 8; 9]%Z)
    /\ ResNet.embed null_engine m (ResNet.support_images episode_2way) = Ok sf
    /\ exists others,
         rows f = map (normalize_row (/ 10 ^ 12)%R) (rows sf ++ others).
Proof.
  destruct cosine_2way_run as (m & f & _ & Hf & _).
  destruct (export_rows_normalized null_engine m episode_2way f _ Hf)
    as (sf & qf & cls & protos & Hs & _ & _ & Hr & _).
  exists m, f, sf. split; [exact Hf|]. split; [exact Hs|].
  eexists. exact Hr.
Defined.

(** C7, as stated, fails: a batch of one image is embedded as a single
    vector of size [512], not as a matrix of size [1; 512], because
    [squeeze] removes the batch dimension with the two pooled ones.  The
    model is the default 18-layer network, freshly constructed. *)
Lemma embed_single_image_is_vector :
  exists m y,
    ResNet.__init__ null_engine [2; 2; 2; 2] None (Some 64%Z) 0 = Ok m
    /\ ResNet.embed null_engine m (images 1 84 84) = Ok y
    /\ shape y = [512]
    /\ shape y <> [1; 512].
Proof.
  destruct (resnet18_init_ok null_engine None (Some 64%Z) 0 eq_refl) as [m Hm];
    [cbn; lia|].
  destruct (init_inv _ _ _ _ _ _ Hm) as (Hok & _).
  destruct (embed_value null_engine m (images 1 84 84) 1 84 84 Hok eq_refl) as (f & E);
    [lia|lia|right; right; lia|].
  exists m. eexists. split; [exact Hm|]. split; [exact E|].
  split; [reflexivity|discriminate].
Qed.

(** C7, amended: on a batch of [n >= 1] three-channel images of height and
    width at least 3, [embed] returns [n] embedding vectors of dimension
    512.  They come as a matrix of size [n; 512] when [n >= 2] and as one
    vector of size [512] when [n = 1].  (In training mode batch
    normalisation needs more than one value per channel: two images, or
    height at least 19.) *)
Theorem embed_shape (K : Kernels) (m : ResNet.t) (x : tensor) (n h w : nat) :
  ResNet_ok m ->
  shape x = [n; 3; h; w] ->
  1 <= n -> 3 <= h -> 3 <= w ->
  ResNet.training m = false \/ 2 <= n \/ 19 <= h ->
  exists y, ResNet.embed K m x = Ok y
            /\ shape y = (if n =? 1 then [512] else [n; 512])
            /\ length (rows y) = n
            /\ Forall (fun r => length r = 512) (rows y).
Proof.
  intros Hok Hx Hn Hh Hw Hb.
  destruct (embed_value K m x n h w Hok Hx Hh Hw Hb) as (f & E).
  eexists. split; [exact E|]. split; [reflexivity|]. split.
  - apply embedded_rows_length.
  - pose proof (rows_full _ (embed_wf K m x _ E)) as Hf.
    rewrite embedded_last in Hf. exact Hf.
Qed.

Lemma embed_shape_witness :
  exists m,
    ResNet.__init__ null_engine [2; 2; 2; 2] None (Some 64%Z) 0 = Ok m
    /\ shape (images 5 84 84) = [5; 3; 84; 84]
    /\ exists y, ResNet.embed null_engine m (images 5 84 84) = Ok y
                 /\ shape y = [5; 512]
                 /\ length (rows y) = 5
                 /\ Forall (fun r => length r = 512) (rows y).
Proof.
  destruct (resnet18_init_ok null_engine None (Some 64%Z) 0 eq_refl) as [m Hm];
    [cbn; lia|].
  exists m. split; [exact Hm|]. split; [reflexivity|].
  destruct (init_inv _ _ _ _ _ _ Hm) as (Hok & _).
  apply (embed_shape null_engine m (images 5 84 84) 5 84 84 Hok eq_refl);
    [lia|lia|lia|right; left; lia].
Defined.

(** C8: with [pretrained] set, [resnet18] never returns.  When the
    constructor has built the model, the subscript [get_state_dict()[0]]
    raises [KeyError]: the keys of the state dictionary are the parameter
    names.  Nothing is loaded and nothing is printed. *)
Theorem resnet18_pretrained_raises (K : Kernels)
    (torch_load : option string -> result checkpoint)
    (pretrained_model_path : option string) (classifier : option string)
    (num_classes : option Z) (dropout : Q) :
  resnet18 K torch_load true pretrained_model_path classifier num_classes dropout
  = match ResNet.__init__ K [2; 2; 2; 2] classifier num_classes dropout with
    | Ok _ => Raise KeyError
    | Raise e => Raise e
    end.
Proof.
  unfold resnet18.
  destruct (ResNet.__init__ K [2; 2; 2; 2] classifier num_classes dropout); reflexivity.
Qed.

(** With the default arguments and a checkpoint path the call raises
    [KeyError], whatever the checkpoint file holds. *)
Example resnet18_pretrained_default
    (torch_load : option string -> result checkpoint) :
  resnet18 null_engine torch_load true (Some "ckpt.pth"%string) None (Some 64%Z) 0
  = Raise KeyError.
Proof.
  destruct (resnet18_init_ok null_engine None (Some 64%Z) 0 eq_refl) as [m Hm];
    [cbn; lia|].
  unfold resnet18. now rewrite Hm.
Qed.

(** C9, as stated, fails: the state dictionary does not hold the mode, and
    a freshly constructed model is in training mode.  The original is the
    default 18-layer model put in evaluation mode ([model.eval()]): on one
    16x16 image it returns an embedding, and the fresh model into which its
    state is loaded in strict mode raises [ValueError] on the same image (a
    batch normalisation in training mode refuses the 1x1 feature map). *)
Lemma reloaded_model_is_in_training_mode :
  exists m0 m' y,
    ResNet.__init__ null_engine [2; 2; 2; 2] None (Some 64%Z) 0 = Ok m0
    /\ ResNet.load_state_dict m0 (ResNet.get_state_dict (ResNet.train false m0)) true
       = Ok m'
    /\ ResNet.embed null_engine (ResNet.train false m0) (images 1 16 16) = Ok y
    /\ ResNet.embed null_engine m' (images 1 16 16) = Raise ValueError
    /\ ResNet.forward null_engine 0 m' (images 1 16 16)
       <> ResNet.forward null_engine 0 (ResNet.train false m0) (images 1 16 16).
Proof.
  destruct (resnet18_init_ok null_engine None (Some 64%Z) 0 eq_refl) as [m0 H0];
    [cbn; lia|].
  destruct (init_inv _ _ _ _ _ _ H0) as (Hok & Htr & _ & Hcls & _).
  destruct (embed_values null_engine (ResNet.train false m0) (images 1 16 16) 1 16 16
              (ok_train false m0 Hok) eq_refl) as [z Ez]; [lia|lia|now left|].
  assert (Er : ResNet.embed null_engine (ResNet.train true (ResNet.train false m0))
                 (images 1 16 16) = Raise ValueError).
  { apply (embed_one_value null_engine _ (images 1 16 16) 1 16 16);
      [apply ok_train, ok_train, Hok|reflexivity|reflexivity|lia|lia|reflexivity]. }
  exists m0, (ResNet.train true (ResNet.train false m0)). eexists.
  split; [exact H0|]. split.
  { rewrite (load_state_dict_like m0 _ (resnet_like_train false m0)). now rewrite Htr. }
  split; [exact Ez|]. split; [exact Er|].
  unfold ResNet.forward. rewrite Er, Ez. cbn [bind].
  unfold ResNet.get_cls_fn.
  change (ResNet.cls_fn (ResNet.train false m0)) with (ResNet.cls_fn m0).
  rewrite Hcls. discriminate.
Qed.

(** C9, amended: the state dictionary of a model, loaded in strict mode
    into a freshly constructed model of the same configuration, gives the
    model back but for its mode: the load succeeds, the reloaded model has
    the same state dictionary and is the original put in the mode of a
    fresh model (training).  Once both are in the same mode, either one,
    the two return the same embeddings, the same class scores (for
    [forward] from the same state of the random generator) and the same
    feature export on every input; an original in training mode is
    reproduced as it is. *)
Theorem state_dict_round_trip (K0 K : Kernels) (layers : list nat)
    (classifier : option string) (num_classes : option Z) (p : Q)
    (m0 m : ResNet.t) :
  ResNet.__init__ K0 layers classifier num_classes p = Ok m0 ->
  resnet_like m0 m ->
  exists m',
    ResNet.load_state_dict m0 (ResNet.get_state_dict m) true = Ok m'
    /\ m' = ResNet.train true m
    /\ ResNet.get_state_dict m' = ResNet.get_state_dict m
    /\ (forall b x,
          ResNet.embed K (ResNet.train b m') x = ResNet.embed K (ResNet.train b m) x)
    /\ (forall b rng x,
          ResNet.forward K rng (ResNet.train b m') x
          = ResNet.forward K rng (ResNet.train b m) x)
    /\ (forall b ep,
          ResNet.get_final_features K (ResNet.train b m') ep
          = ResNet.get_final_features K (ResNet.train b m) ep)
    /\ (forall b, ResNet.training m = b -> ResNet.train b m' = m)
    /\ (ResNet.training m = true ->
        m' = m
        /\ (forall x, ResNet.embed K m' x = ResNet.embed K m x)
        /\ (forall rng x, ResNet.forward K rng m' x = ResNet.forward K rng m x)
        /\ (forall ep, ResNet.get_final_features K m' ep
                       = ResNet.get_final_features K m ep)).
Proof.
  intros H0 Hl. destruct (init_inv _ _ _ _ _ _ H0) as (_ & Ht & _).
  exists (ResNet.train true m). split.
  - rewrite (load_state_dict_like m0 m Hl). now rewrite Ht.
  - assert (Hsame : forall b, ResNet.training m = b -> ResNet.train b (ResNet.train true m) = m)
      by (intros b <-; now destruct m).
    do 5 (split; [reflexivity|]). split; [exact Hsame|].
    intros Htr. assert (E : ResNet.train true m = m) by (rewrite <- Htr at 1; now destruct m).
    rewrite E. repeat split.
Qed.

Lemma state_dict_round_trip_witness :
  exists m0 m m',
    ResNet.__init__ null_engine [2; 2; 2; 2] (Some "linear"%string) (Some 5%Z) 0 = Ok m0
    /\ ResNet.__init__ ones_engine [2; 2; 2; 2] (Some "linear"%string) (Some 5%Z) 0 = Ok m
    /\ resnet_like m0 m
    /\ ResNet.load_state_dict m0 (ResNet.get_state_dict m) true = Ok m'
    /\ ResNet.get_state_dict m' = ResNet.get_state_dict m.
Proof.
  destruct (resnet18_init_ok null_engine (Some "linear"%string) (Some 5%Z) 0 eq_refl)
    as [m0 H0]; [cbn; lia|].
  destruct (resnet18_init_ok ones_engine (Some "linear"%string) (Some 5%Z) 0 eq_refl)
    as [m H]; [cbn; lia|].
  pose proof (init_like _ _ _ _ _ _ _ _ H0 H) as Hl.
  destruct (state_dict_round_trip null_engine null_engine _ _ _ _ m0 m H0 Hl)
    as (m' & L & _ & S & _).
  exists m0, m, m'.
  split; [exact H0|]. split; [exact H|]. split; [exact Hl|]. split; [exact L|exact S].
Defined.

(** C10: dropout is applied in [forward] only.  Two models built from the
    same arguments but for the dropout probability return the same
    embeddings and the same feature export on every input, in either mode;
    neither [embed] nor [get_final_features] takes the state of the random
    generator that [forward] gives to the dropout layer. *)
Theorem dropout_only_in_forward (K : Kernels) (layers : list nat)
    (classifier : option string) (num_classes : option Z) (p1 p2 : Q)
    (m1 m2 : ResNet.t) :
  ResNet.__init__ K layers classifier num_classes p1 = Ok m1 ->
  ResNet.__init__ K layers classifier num_classes p2 = Ok m2 ->
  (forall b x, ResNet.embed K (ResNet.train b m1) x = ResNet.embed K (ResNet.train b m2) x)
  /\ (forall b ep, ResNet.get_final_features K (ResNet.train b m1) ep
                   = ResNet.get_final_features K (ResNet.train b m2) ep)
  /\ (forall b rng x,
        ResNet.forward K rng (ResNet.train b m2) x
        = (y <- ResNet.embed K (ResNet.train b m1) x ;;
           c <- ResNet.get_cls_fn m1 ;;
           cls_forward K c (Dropout.forward K b rng (Dropout.mk p2) y))).
Proof.
  intros H1 H2. rewrite (init_dropout_only K _ _ _ _ _ _ _ H1 H2).
  split; [|split].
  - intros b x. symmetry. apply embed_set_dropout.
  - intros b ep. symmetry. apply export_set_dropout.
  - intros b rng x. unfold ResNet.forward. rewrite embed_set_dropout.
    destruct (ResNet.embed K (ResNet.train b m1) x); reflexivity.
Qed.

Lemma dropout_only_in_forward_witness :
  exists m1 m2,
    ResNet.__init__ null_engine [2; 2; 2; 2] (Some "cosine"%string) (Some 2%Z) 0 = Ok m1
    /\ ResNet.__init__ null_engine [2; 2; 2; 2] (Some "cosine"%string) (Some 2%Z) (1 # 2)
       = Ok m2
    /\ (forall b x, ResNet.embed null_engine (ResNet.train b m1) x
                    = ResNet.embed null_engine (ResNet.train b m2) x)
    /\ (forall b ep, ResNet.get_final_features null_engine (ResNet.train b m1) ep
                     = ResNet.get_final_features null_engine (ResNet.train b m2) ep).
Proof.
  destruct (resnet18_init_ok null_engine (Some "cosine"%string) (Some 2%Z) 0 eq_refl)
    as [m1 H1]; [cbn; lia|].
  destruct (resnet18_init_ok null_engine (Some "cosine"%string) (Some 2%Z) (1 # 2) eq_refl)
    as [m2 H2]; [cbn; lia|].
  exists m1, m2. split; [exact H1|]. split; [exact H2|].
  destruct (dropout_only_in_forward null_engine _ _ _ _ _ m1 m2 H1 H2) as (E1 & E2 & _).
  split; assumption.
Defined.

(* ================================================================== *)
(** ** Further properties of the code *)

(** X1: [BasicBlock.forward] on a block built as [_make_layer] builds its
    first block (with the 1x1 shortcut exactly when the stride is not 1 or
    the channel count changes).  The main path and the shortcut always
    agree in size, so [out += identity] never fails: a batch
    [n; inplanes; h; w] of [n >= 1] maps gives [n; planes; h'; w'] with
    [h' = (h - 1) / stride + 1], the height divided by the stride and
    rounded up. *)
Theorem basic_block_forward_size (K : Kernels) (tr : bool)
    (inplanes planes stride : nat) (x : tensor) (n h w : nat) :
  1 <= stride ->
  shape x = [n; inplanes; h; w] ->
  1 <= n -> 1 <= h -> 1 <= w ->
  tr = false \/ 2 <= n \/ 2 <= (h - 1) / stride + 1 ->
  let downsample :=
    if negb (stride =? 1) || negb (inplanes =? planes)
    then Some (conv1x1 K inplanes planes stride, BatchNorm2d.new planes)
    else None in
  exists y,
    BasicBlock.forward K tr (BasicBlock.__init__ K inplanes planes stride downsample) x
    = Ok y
    /\ shape y = [n; planes; (h - 1) / stride + 1; (w - 1) / stride + 1].
Proof.
  intros Hs Hx Hn Hh Hw Hb downsample.
  apply (block_forward_shape K tr _ x inplanes planes stride n h w); try assumption.
  pose proof (make_layer_ok K inplanes planes 1 stride) as [Hl _].
  unfold ResNet._make_layer, BasicBlock.expansion in Hl. rewrite !Nat.mul_1_r in Hl.
  cbn [fst app layer_ok] in Hl. exact (proj1 Hl).
Qed.

Lemma basic_block_forward_size_witness :
  exists y,
    BasicBlock.forward null_engine true
      (BasicBlock.__init__ null_engine 64 128 2
         (Some (conv1x1 null_engine 64 128 2, BatchNorm2d.new 128)))
      (full [4; 64; 21; 21] 0)
    = Ok y
    /\ shape y = [4; 128; 11; 11].
Proof.
  apply (basic_block_forward_size null_engine true 64 128 2 (full [4; 64; 21; 21] 0)
           4 21 21); [lia|reflexivity|lia|lia|lia|right; left; lia].
Defined.

(** X2: [_make_layer] always builds at least one block ([max 1 blocks] of
    them), leaves [planes * expansion] in [self.inplanes], and the layer
    maps a batch [n; inplanes; h; w] of [n >= 1] maps to [n; planes; h'; w']
    with the sizes of the first block: only the first block changes the
    channel count and strides. *)
Theorem make_layer_forward (K : Kernels) (tr : bool)
    (inplanes planes blocks stride : nat) (x : tensor) (n h w : nat) :
  1 <= stride ->
  shape x = [n; inplanes; h; w] ->
  1 <= n -> 1 <= h -> 1 <= w ->
  tr = false \/ 2 <= n \/ 2 <= (h - 1) / stride + 1 ->
  let made := ResNet._make_layer K inplanes planes blocks stride in
  length (fst made) = Nat.max 1 blocks
  /\ snd made = planes
  /\ exists y,
       sequential (BasicBlock.forward K tr) (fst made) x = Ok y
       /\ shape y = [n; planes; (h - 1) / stride + 1; (w - 1) / stride + 1].
Proof.
  intros Hs Hx Hn Hh Hw Hb made.
  destruct (make_layer_ok K inplanes planes blocks stride) as [Hl Hi]. fold made in Hl, Hi.
  split; [|split; [exact Hi|]].
  - unfold made, ResNet._make_layer. cbn [fst]. rewrite length_app, length_map, length_seq.
    cbn [length]. lia.
  - now apply (layer_forward_shape K tr _ x inplanes planes stride n h w).
Qed.

Lemma make_layer_forward_witness :
  length (fst (ResNet._make_layer null_engine 64 128 0 2)) = 1
  /\ snd (ResNet._make_layer null_engine 64 128 0 2) = 128
  /\ exists y,
       sequential (BasicBlock.forward null_engine true)
         (fst (ResNet._make_layer null_engine 64 128 0 2)) (full [4; 64; 21; 21] 0)
       = Ok y
       /\ shape y = [4; 128; 11; 11].
Proof.
  apply (make_layer_forward null_engine true 64 128 0 2 (full [4; 64; 21; 21] 0) 4 21 21);
    [lia|reflexivity|lia|lia|lia|right; left; lia].
Defined.

(** X3: [ResNet.__init__] reads [layers[0]] .. [layers[3]]: with fewer than
    four entries it raises [IndexError], whatever the other arguments. *)
Theorem init_short_layers_raises (K : Kernels) (layers : list nat)
    (classifier : option string) (num_classes : option Z) (p : Q) :
  length layers < 4 ->
  ResNet.__init__ K layers classifier num_classes p = Raise IndexError.
Proof.
  intros Hl. unfold ResNet.__init__, ResNet.layers_at.
  destruct layers as [|n0 [|n1 [|n2 [|n3 rest]]]]; cbn [nth_error bind];
    try reflexivity.
  cbn [length] in Hl. lia.
Qed.

Lemma init_short_layers_raises_witness :
  length [2; 2; 2] < 4
  /\ ResNet.__init__ null_engine [2; 2; 2] (Some "linear"%string) (Some 5%Z) 0
     = Raise IndexError.
Proof.
  split; [cbn; lia|]. apply init_short_layers_raises. cbn. lia.
Defined.

(** X4: with four layer counts or more, a dropout probability outside
    [[0, 1]] makes [ResNet.__init__] raise [ValueError] (from
    [nn.Dropout]), before any classifier is created; the entries of
    [layers] after the fourth are never read. *)
Theorem init_reads_four_layers (K : Kernels) (layers : list nat)
    (classifier : option string) (num_classes : option Z) (p : Q) :
  4 <= length layers ->
  ResNet.__init__ K layers classifier num_classes p
  = ResNet.__init__ K (firstn 4 layers) classifier num_classes p
  /\ (Qle_bool 0 p && Qle_bool p 1 = false ->
      ResNet.__init__ K layers classifier num_classes p = Raise ValueError).
Proof.
  intros Hl. destruct layers as [|n0 [|n1 [|n2 [|n3 rest]]]]; cbn [length] in Hl; try lia.
  split; [reflexivity|]. intros Hp.
  unfold ResNet.__init__, ResNet.layers_at. cbn [nth_error bind].
  destruct (ResNet._make_layer K 64 64 n0 1) as [l1 i1].
  destruct (ResNet._make_layer K i1 (64 * 2) n1 2) as [l2 i2].
  destruct (ResNet._make_layer K i2 (64 * 4) n2 2) as [l3 i3].
  destruct (ResNet._make_layer K i3 (64 * 8) n3 2) as [l4 i4].
  unfold Dropout.new. now rewrite Hp.
Qed.

Lemma init_reads_four_layers_witness :
  4 <= length [2; 2; 2; 2; 7]
  /\ ResNet.__init__ null_engine [2; 2; 2; 2; 7] (Some "linear"%string) (Some 5%Z) (3 # 2)
     = ResNet.__init__ null_engine [2; 2; 2; 2] (Some "linear"%string) (Some 5%Z) (3 # 2)
  /\ ResNet.__init__ null_engine [2; 2; 2; 2; 7] (Some "linear"%string) (Some 5%Z) (3 # 2)
     = Raise ValueError.
Proof.
  assert (H : 4 <= length [2; 2; 2; 2; 7]) by (cbn; lia).
  split; [exact H|].
  destruct (init_reads_four_layers null_engine [2; 2; 2; 2; 7] (Some "linear"%string)
              (Some 5%Z) (3 # 2) H) as [E1 E2].
  split; [exact E1|]. apply E2. reflexivity.
Defined.

(** X5: a batch [n; c; h; w] with a number of channels other than 3, or
    with images smaller than 3 in height or width (the 5x5 kernel of the
    first convolution does not fit the padded image), is refused with
    [RuntimeError], in either mode, by [embed], by [forward] and, as its
    support batch, by [get_final_features]. *)
Theorem malformed_batch_rejected (K : Kernels) (m : ResNet.t) (x : tensor)
    (n c h w : nat) :
  ResNet_ok m ->
  shape x = [n; c; h; w] ->
  c <> 3 \/ h < 3 \/ w < 3 ->
  ResNet.embed K m x = Raise RuntimeError
  /\ (forall rng, ResNet.forward K rng m x = Raise RuntimeError)
  /\ (forall ep, ResNet.support_images ep = x ->
                 ResNet.get_final_features K m ep = Raise RuntimeError).
Proof.
  intros Hok Hx Hbad.
  assert (E : ResNet.embed K m x = Raise RuntimeError).
  { apply embed_bad_shape; [exact Hok|]. intros n' h' w' Hx' Hh Hw.
    rewrite Hx in Hx'. injection Hx' as _ Ec Eh Ew. lia. }
  split; [exact E|]. split.
  - intros rng. unfold ResNet.forward. now rewrite E.
  - intros ep <-. unfold ResNet.get_final_features, ResNet.final_blocks. now rewrite E.
Qed.

Lemma malformed_batch_rejected_witness :
  exists m,
    ResNet.__init__ null_engine [2; 2; 2; 2] (Some "linear"%string) (Some 5%Z) 0 = Ok m
    /\ ResNet.embed null_engine m (full [2; 1; 84; 84] 0) = Raise RuntimeError
    /\ ResNet.forward null_engine 0 m (full [2; 1; 84; 84] 0) = Raise RuntimeError.
Proof.
  destruct (resnet18_init_ok null_engine (Some "linear"%string) (Some 5%Z) 0 eq_refl)
    as [m Hm]; [cbn; lia|].
  destruct (init_inv _ _ _ _ _ _ Hm) as (Hok & _).
  exists m. split; [exact Hm|].
  destruct (malformed_batch_rejected null_engine m (full [2; 1; 84; 84] 0) 2 1 84 84
              Hok eq_refl) as (E & F & _); [left; lia|].
  split; [exact E|apply F].
Defined.

(** X6: in training mode a single image of height and width below 19 is
    refused with [ValueError]: the last feature map of the network is then
    1x1, and a batch normalisation in training mode needs more than one
    value per channel.  [forward] raises the same way, and so does
    [get_final_features] when the image is its support batch. *)
Theorem training_single_small_image_raises (K : Kernels) (m : ResNet.t) (x : tensor)
    (h w : nat) :
  ResNet_ok m ->
  ResNet.training m = true ->
  shape x = [1; 3; h; w] ->
  3 <= h < 19 -> 3 <= w < 19 ->
  ResNet.embed K m x = Raise ValueError
  /\ (forall rng, ResNet.forward K rng m x = Raise ValueError)
  /\ (forall ep, ResNet.support_images ep = x ->
                 ResNet.get_final_features K m ep = Raise ValueError).
Proof.
  intros Hok Htr Hx Hh Hw.
  assert (E : ResNet.embed K m x = Raise ValueError).
  { apply (embed_one_value K m x 1 h w Hok Htr Hx); [lia|lia|].
    apply last_values; [lia|lia|]. split; [reflexivity|lia]. }
  split; [exact E|]. split.
  - intros rng. unfold ResNet.forward. now rewrite E.
  - intros ep <-. unfold ResNet.get_final_features, ResNet.final_blocks. now rewrite E.
Qed.

Lemma training_single_small_image_raises_witness :
  exists m,
    ResNet.__init__ null_engine [2; 2; 2; 2] (Some "linear"%string) (Some 5%Z) 0 = Ok m
    /\ ResNet.training m = true
    /\ ResNet.embed null_engine m (images 1 16 16) = Raise ValueError.
Proof.
  destruct (resnet18_init_ok null_engine (Some "linear"%string) (Some 5%Z) 0 eq_refl)
    as [m Hm]; [cbn; lia|].
  destruct (init_inv _ _ _ _ _ _ Hm) as (Hok & Htr & _).
  exists m. split; [exact Hm|]. split; [exact Htr|].
  apply (training_single_small_image_raises null_engine m (images 1 16 16) 16 16 Hok Htr
           eq_refl); lia.
Defined.

(** X7: on a batch of [n >= 1] three-channel images of height and width
    at least 3, [embed] returns exactly when the model is in evaluation
    mode, or the batch has two images or more, or the images have height
    or width at least 19 (the last feature map then has more than one
    entry). *)
Theorem embed_accepts_iff (K : Kernels) (m : ResNet.t) (x : tensor) (n h w : nat) :
  ResNet_ok m ->
  shape x = [n; 3; h; w] ->
  1 <= n -> 3 <= h -> 3 <= w ->
  (exists y, ResNet.embed K m x = Ok y)
  <-> (ResNet.training m = false \/ 2 <= n \/ 19 <= h \/ 19 <= w).
Proof.
  intros Hok Hx Hn Hh Hw. split.
  - intros [y Hy].
    destruct (ResNet.training m) eqn:Htr; [right|now left].
    destruct (Nat.eq_dec (n * (last_size h * last_size w)) 1) as [E|N].
    + rewrite (embed_one_value K m x n h w Hok Htr Hx Hh Hw E) in Hy. discriminate.
    + assert (~ (n = 1 /\ h < 19 /\ w < 19)) by (intros H; now apply N, last_values).
      lia.
  - intros Hb.
    destruct (embed_values K m x n h w Hok Hx Hh Hw) as [z E].
    + destruct Hb as [Hb|Hb]; [now left|right].
      intros E. apply last_values in E; lia.
    + eexists. exact E.
Qed.

Lemma embed_accepts_iff_witness :
  exists m,
    ResNet.__init__ null_engine [2; 2; 2; 2] (Some "linear"%string) (Some 5%Z) 0 = Ok m
    /\ ResNet.training m = true
    /\ (exists y, ResNet.embed null_engine m (images 1 16 84) = Ok y)
    /\ ~ (exists y, ResNet.embed null_engine m (images 1 16 16) = Ok y).
Proof.
  destruct (resnet18_init_ok null_engine (Some "linear"%string) (Some 5%Z) 0 eq_refl)
    as [m Hm]; [cbn; lia|].
  destruct (init_inv _ _ _ _ _ _ Hm) as (Hok & Htr & _).
  exists m. split; [exact Hm|]. split; [exact Htr|]. split.
  - apply (embed_accepts_iff null_engine m (images 1 16 84) 1 16 84 Hok eq_refl);
      [lia|lia|lia|]. right. right. right. lia.
  - intros H.
    apply (embed_accepts_iff null_engine m (images 1 16 16) 1 16 16 Hok eq_refl) in H;
      [|lia|lia|lia].
    rewrite Htr in H. destruct H as [H|[H|[H|H]]]; [discriminate|lia|lia|lia].
Defined.

(** X8: [forward] of a model built with the 'linear' classifier returns
    one score per class for every image: a matrix of size
    [n; num_classes] on a batch of [n >= 2] images, and a single vector of
    size [num_classes] on one image, the batch dimension having been
    squeezed away by [embed] (one image is accepted in evaluation mode, or
    with height or width at least 19). *)
Theorem forward_scores_shape (K : Kernels) (layers : list nat) (nc : Z) (p : Q)
    (m : ResNet.t) (mode : bool) (rng : nat) (x : tensor) (n h w : nat) :
  ResNet.__init__ K layers (Some "linear"%string) (Some nc) p = Ok m ->
  shape x = [n; 3; h; w] ->
  1 <= n -> 3 <= h -> 3 <= w ->
  mode = false \/ 2 <= n \/ 19 <= h \/ 19 <= w ->
  exists y, ResNet.forward K rng (ResNet.train mode m) x = Ok y
            /\ shape y = (if n =? 1 then [Z.to_nat nc] else [n; Z.to_nat nc]).
Proof.
  intros Hm Hx Hn Hh Hw Hb.
  destruct (init_inv _ _ _ _ _ _ Hm) as (Hok & _ & _ & Hcls & _).
  destruct (embed_values K (ResNet.train mode m) x n h w (ok_train mode m Hok) Hx Hh Hw)
    as [z E].
  { destruct Hb as [Hb|Hb]; [now left|right].
    intros E. apply last_values in E; lia. }
  unfold ResNet.forward. rewrite E. cbn [bind].
  unfold ResNet.get_cls_fn.
  change (ResNet.cls_fn (ResNet.train mode m)) with (ResNet.cls_fn m).
  rewrite Hcls. cbn [made_head String.eqb Ascii.eqb Bool.eqb bind cls_forward].
  unfold Linear.forward, Linear.new.
  cbn [Linear.in_features Linear.out_features Linear.weight Linear.bias].
  assert (S : shape (Dropout.forward K (ResNet.training (ResNet.train mode m)) rng
                       (ResNet.dropout (ResNet.train mode m))
                       (mkTensor (if n =? 1 then [512] else [n; 512])
                          (map (adaptive_avg_pool2d_at K z) (seq 0 (n * 512)))))
              = (if n =? 1 then [512] else [n; 512])).
  { unfold Dropout.forward. now destruct (ResNet.training (ResNet.train mode m)). }
  rewrite S. destruct (n =? 1); cbn [rev app]; rewrite Nat.eqb_refl;
    eexists; (split; [reflexivity|reflexivity]).
Qed.

Lemma forward_scores_shape_witness :
  exists m y,
    ResNet.__init__ null_engine [2; 2; 2; 2] (Some "linear"%string) (Some 5%Z) 0 = Ok m
    /\ ResNet.forward null_engine 7 (ResNet.train true m) (images 4 84 84) = Ok y
    /\ shape y = [4; 5].
Proof.
  destruct (resnet18_init_ok null_engine (Some "linear"%string) (Some 5%Z) 0 eq_refl)
    as [m Hm]; [cbn; lia|].
  destruct (forward_scores_shape null_engine _ 5%Z 0 m true 7 (images 4 84 84) 4 84 84
              Hm eq_refl) as (y & Hy & Sy); [lia|lia|lia|right; left; lia|].
  exists m, y. split; [exact Hm|]. split; [exact Hy|exact Sy].
Defined.

(** X9: [forward] of a model built without a recognized classifier kind
    (the default [classifier=None] included) or without a number of
    classes never returns: on every batch that [embed] accepts, dropout is
    applied and the read of [self.cls_fn] raises [AttributeError]. *)
Theorem forward_without_classifier_raises (K : Kernels) (layers : list nat)
    (classifier : option string) (num_classes : option Z) (p : Q) (m : ResNet.t) :
  ResNet.__init__ K layers classifier num_classes p = Ok m ->
  num_classes = None \/ unrecognized classifier ->
  forall mode rng x,
    (forall y, ResNet.forward K rng (ResNet.train mode m) x <> Ok y)
    /\ (forall e, ResNet.embed K (ResNet.train mode m) x = Ok e ->
                  ResNet.forward K rng (ResNet.train mode m) x
                  = Raise (AttributeError "cls_fn")).
Proof.
  intros Hm Hu mode rng x.
  destruct (init_inv _ _ _ _ _ _ Hm) as (_ & _ & _ & Hcls & _).
  assert (Hnone : ResNet.cls_fn (ResNet.train mode m) = None).
  { change (ResNet.cls_fn (ResNet.train mode m)) with (ResNet.cls_fn m). rewrite Hcls.
    destruct Hu as [->|Hu]; [reflexivity|now apply made_head_unrecognized]. }
  unfold ResNet.forward, ResNet.get_cls_fn. rewrite Hnone. split.
  - intros y. now destruct (ResNet.embed K (ResNet.train mode m) x).
  - now intros e ->.
Qed.

Lemma forward_without_classifier_raises_witness :
  exists m,
    ResNet.__init__ null_engine [2; 2; 2; 2] None (Some 64%Z) 0 = Ok m
    /\ ResNet.forward null_engine 0 (ResNet.train false m) (images 1 84 84)
       = Raise (AttributeError "cls_fn").
Proof.
  destruct (resnet18_init_ok null_engine None (Some 64%Z) 0 eq_refl) as [m Hm];
    [cbn; lia|].
  destruct (init_inv _ _ _ _ _ _ Hm) as (Hok & _).
  destruct (embed_values null_engine (ResNet.train false m) (images 1 84 84) 1 84 84
              (ok_train false m Hok) eq_refl) as [z E]; [lia|lia|now left|].
  exists m. split; [exact Hm|].
  exact (proj2 (forward_without_classifier_raises null_engine _ None _ _ m Hm
                  (or_intror I) false 0 (images 1 84 84)) _ E).
Defined.

(* ------------------------------------------------------------------ *)
(** *** The model that the constructor returns *)

Lemma init_structure (K : Kernels) (layers : list nat) (classifier : option string)
    (num_classes : option Z) (p : Q) (m : ResNet.t) :
  ResNet.__init__ K layers classifier num_classes p = Ok m ->
  exists n0 n1 n2 n3,
    firstn 4 layers = [n0; n1; n2; n3]
    /\ m = ResNet.init_modules K
             (ResNet.mk false (64 * 8) (Conv2d.new K 3 64 5 2 1) (BatchNorm2d.new 64)
                (MaxPool2d.mk 3 2 1)
                (fst (ResNet._make_layer K 64 64 n0 1))
                (fst (ResNet._make_layer K 64 (64 * 2) n1 2))
                (fst (ResNet._make_layer K (64 * 2) (64 * 4) n2 2))
                (fst (ResNet._make_layer K (64 * 4) (64 * 8) n3 2))
                (Dropout.mk p) 512 num_classes (made_head K classifier num_classes)
                true).
Proof.
  intros H. pose proof (init_inv _ _ _ _ _ _ H) as (_ & _ & _ & Hcls & _).
  revert H Hcls. unfold ResNet.__init__, ResNet.layers_at.
  destruct layers as [|n0 [|n1 [|n2 [|n3 rest]]]]; cbn [nth_error bind].
  - discriminate.
  - destruct (ResNet._make_layer K 64 64 n0 1). discriminate.
  - destruct (ResNet._make_layer K 64 64 n0 1) as [l1 i1].
    destruct (ResNet._make_layer K i1 (64 * 2) n1 2). discriminate.
  - destruct (ResNet._make_layer K 64 64 n0 1) as [l1 i1].
    destruct (ResNet._make_layer K i1 (64 * 2) n1 2) as [l2 i2].
    destruct (ResNet._make_layer K i2 (64 * 4) n2 2). discriminate.
  - destruct (make_layer_ok K 64 64 n0 1) as [_ I1].
    destruct (ResNet._make_layer K 64 64 n0 1) as [l1 i1] eqn:E1.
    cbn [snd] in I1. subst i1.
    destruct (make_layer_ok K 64 (64 * 2) n1 2) as [_ I2].
    destruct (ResNet._make_layer K 64 (64 * 2) n1 2) as [l2 i2] eqn:E2.
    cbn [snd] in I2. subst i2.
    destruct (make_layer_ok K (64 * 2) (64 * 4) n2 2) as [_ I3].
    destruct (ResNet._make_layer K (64 * 2) (64 * 4) n2 2) as [l3 i3] eqn:E3.
    cbn [snd] in I3. subst i3.
    destruct (make_layer_ok K (64 * 4) (64 * 8) n3 2) as [_ I4].
    destruct (ResNet._make_layer K (64 * 4) (64 * 8) n3 2) as [l4 i4] eqn:E4.
    cbn [snd] in I4. subst i4.
    unfold Dropout.new. destruct (Qle_bool 0 p && Qle_bool p 1); [|discriminate].
    cbn [bind].
    match goal with |- bind ?r _ = _ -> _ => destruct r as [h|] end; [|discriminate].
    cbn [bind]. intros [= <-]. unfold ResNet.init_modules at 1. cbn [ResNet.cls_fn].
    intros ->. exists n0, n1, n2, n3. split; [reflexivity|].
    rewrite E1, E2, E3, E4. reflexivity.
Qed.

(** X10: the names under which [get_state_dict] returns the tensors of the
    18-layer network.  The backbone has 120 entries: the weight of each
    convolution, and the weight, bias, running mean, running variance and
    batch counter of each batch normalisation, named by the attribute path
    ([layer2.0.downsample.1.running_var]); only the first blocks of
    [layer2], [layer3] and [layer4] have the shortcut entries.  A 'linear'
    classifier adds [cls_fn.weight] and [cls_fn.bias]; a model without
    classifier has the backbone entries only. *)
Theorem resnet18_state_dict_names (K : Kernels) (classifier : option string)
    (num_classes : option Z) (p : Q) (m : ResNet.t) :
  ResNet.__init__ K [2; 2; 2; 2] classifier num_classes p = Ok m ->
  length resnet18_keys = 120
  /\ firstn 120 (map fst (ResNet.get_state_dict m)) = resnet18_keys
  /\ (forall nc, classifier = Some "linear"%string -> num_classes = Some nc ->
        map fst (ResNet.get_state_dict m)
        = resnet18_keys ++ ["cls_fn.weight"; "cls_fn.bias"]%string)
  /\ (num_classes = None \/ unrecognized classifier ->
        map fst (ResNet.get_state_dict m) = resnet18_keys).
Proof.
  intros H. destruct (init_structure _ _ _ _ _ _ H) as (n0 & n1 & n2 & n3 & Hl & ->).
  injection Hl as <- <- <- <-.
  split; [reflexivity|]. split; [|split].
  - unfold ResNet.get_state_dict. rewrite state_dict_keys.
    unfold ResNet.entries, ResNet.init_modules. cbn [ResNet.cls_fn].
    destruct (made_head K classifier num_classes) as [[l|c]|]; reflexivity.
  - intros nc -> ->. reflexivity.
  - intros Hu.
    assert (E : made_head K classifier num_classes = None).
    { destruct Hu as [->|Hu]; [now destruct classifier|now apply made_head_unrecognized]. }
    unfold ResNet.get_state_dict. rewrite state_dict_keys.
    unfold ResNet.entries, ResNet.init_modules. cbn [ResNet.cls_fn]. rewrite E.
    reflexivity.
Qed.

Lemma resnet18_state_dict_names_witness :
  exists m,
    ResNet.__init__ null_engine [2; 2; 2; 2] (Some "linear"%string) (Some 5%Z) 0 = Ok m
    /\ map fst (ResNet.get_state_dict m)
       = resnet18_keys ++ ["cls_fn.weight"; "cls_fn.bias"]%string.
Proof.
  destruct (resnet18_init_ok null_engine (Some "linear"%string) (Some 5%Z) 0 eq_refl)
    as [m Hm]; [cbn; lia|].
  exists m. split; [exact Hm|].
  destruct (resnet18_state_dict_names null_engine _ _ _ m Hm) as (_ & _ & Hlin & _).
  exact (Hlin 5%Z eq_refl eq_refl).
Defined.

(* ------------------------------------------------------------------ *)
(** *** Parameters and buffers *)

Lemma filter_under (name : string) (es : state) :
  Forall (fun p => p <> []) (paths es) ->
  filter is_parameter (under name es) = under name (filter is_parameter es).
Proof.
  induction es as [|[q t] es IH]; intros H; [reflexivity|].
  inversion H as [|? ? Hq Hes]; subst.
  assert (E : is_parameter (name :: q, t) = is_parameter (q, t)).
  { destruct q as [|a q']; [contradiction (Hq eq_refl)|reflexivity]. }
  unfold under in *. cbn [map filter fst snd]. rewrite E, (IH Hes).
  now destruct (is_parameter (q, t)).
Qed.

Lemma filter_children (cs : list (string * state)) :
  Forall (fun c => Forall (fun p => p <> []) (paths (snd c))) cs ->
  filter is_parameter (children cs)
  = children (map (fun c => (fst c, filter is_parameter (snd c))) cs).
Proof.
  induction 1 as [|c cs Hc Hcs IH]; [reflexivity|].
  unfold children in *. cbn [flat_map map fst snd].
  now rewrite filter_app, IH, (filter_under _ _ Hc).
Qed.

Lemma conv_parameters (c : Conv2d.t) :
  filter is_parameter (Conv2d.entries c) = Conv2d.parameters c.
Proof. reflexivity. Qed.

Lemma bn_parameters (b : BatchNorm2d.t) :
  filter is_parameter (BatchNorm2d.entries b) = BatchNorm2d.parameters b.
Proof. reflexivity. Qed.

Lemma head_parameters_filter (h : head) :
  filter is_parameter (head_entries h) = head_parameters h.
Proof. now destruct h. Qed.

Lemma block_parameters (b : BasicBlock.t) :
  filter is_parameter (BasicBlock.entries b) = BasicBlock.parameters b.
Proof.
  unfold BasicBlock.entries, BasicBlock.parameters. rewrite filter_children.
  - rewrite map_app. cbn [map fst snd]. rewrite !conv_parameters, !bn_parameters.
    destruct (BasicBlock.downsample b) as [[c n]|]; [|reflexivity].
    cbn [map fst snd]. rewrite filter_children.
    + cbn [map fst snd]. now rewrite conv_parameters, bn_parameters.
    + each ltac:(apply children_nonempty).
  - destruct (BasicBlock.downsample b) as [[c n]|]; each ltac:(apply children_nonempty).
Qed.

Lemma blocks_parameters (l : list BasicBlock.t) (start : nat) :
  filter is_parameter
    (children (map (fun ib => (string_of_nat (fst ib), BasicBlock.entries (snd ib)))
                   (indexed start l)))
  = children (map (fun ib => (string_of_nat (fst ib), BasicBlock.parameters (snd ib)))
                  (indexed start l)).
Proof.
  rewrite filter_children.
  - rewrite map_map. f_equal. apply map_ext. intros [i b]. cbn [fst snd].
    now rewrite block_parameters.
  - apply Forall_forall. intros c Hc. apply in_map_iff in Hc as (ib & <- & _).
    cbn [snd]. apply children_nonempty.
Qed.

Lemma resnet_parameters (m : ResNet.t) :
  filter is_parameter (ResNet.entries m) = ResNet.parameters m.
Proof.
  unfold ResNet.entries, ResNet.parameters. rewrite filter_children.
  - rewrite map_app. cbn [map fst snd]. rewrite conv_parameters, bn_parameters.
    unfold layer_entries, layer_parameters. rewrite !blocks_parameters.
    destruct (ResNet.cls_fn m) as [c|]; [|reflexivity].
    cbn [map fst snd]. now rewrite head_parameters_filter.
  - destruct (ResNet.cls_fn m) as [[l|c]|]; each ltac:(apply children_nonempty).
Qed.

(** The entries of the state: the parameters, and three buffers for each
    batch normalisation. *)
Lemma length_under (name : string) (es : state) : length (under name es) = length es.
Proof. unfold under. apply length_map. Qed.

Lemma block_entries_count (b : BasicBlock.t) :
  length (BasicBlock.entries b)
  = length (BasicBlock.parameters b) + 3 * length (block_bns b).
Proof.
  unfold BasicBlock.entries, BasicBlock.parameters, block_bns.
  now destruct (BasicBlock.downsample b) as [[c n]|].
Qed.

Lemma blocks_entries_count (l : list BasicBlock.t) (start : nat) :
  length (children (map (fun ib => (string_of_nat (fst ib), BasicBlock.entries (snd ib)))
                        (indexed start l)))
  = length (children (map (fun ib => (string_of_nat (fst ib),
                                      BasicBlock.parameters (snd ib)))
                          (indexed start l)))
    + 3 * length (flat_map block_bns l).
Proof.
  revert start. induction l as [|b l IH]; intros start; [reflexivity|].
  rewrite indexed_cons. unfold children in *. cbn [map flat_map fst snd].
  rewrite !length_app, !length_under, block_entries_count, (IH (S start)). lia.
Qed.

(** X11: for a model without classifier or with an [nn.Linear] one,
    [get_parameters] returns the tensors of the state dictionary that are
    not buffers of a batch normalisation (running mean, running variance,
    batch counter), in the order of the state dictionary; the state
    dictionary holds these parameters and three buffers for each batch
    normalisation of the network. *)
Theorem get_parameters_are_state_entries (m : ResNet.t) :
  (forall c, ResNet.cls_fn m <> Some (CosineHead c)) ->
  ResNet.named_parameters m = state_dict (filter is_parameter (ResNet.entries m))
  /\ ResNet.get_parameters m = map snd (filter is_parameter (ResNet.entries m))
  /\ (forall t, In t (ResNet.get_parameters m) ->
                In t (map snd (ResNet.get_state_dict m)))
  /\ length (ResNet.get_state_dict m)
     = length (ResNet.get_parameters m) + 3 * length (bns m).
Proof.
  intros _.
  assert (E : ResNet.get_parameters m = map snd (filter is_parameter (ResNet.entries m))).
  { unfold ResNet.get_parameters, ResNet.named_parameters, state_dict.
    rewrite resnet_parameters, map_map. reflexivity. }
  split; [|split; [exact E|split]].
  - unfold ResNet.named_parameters. now rewrite resnet_parameters.
  - intros t Ht. rewrite E in Ht. apply in_map_iff in Ht as ([q t'] & <- & Hin).
    apply filter_In in Hin as [Hin _].
    unfold ResNet.get_state_dict, state_dict. rewrite map_map. cbn [snd].
    apply in_map_iff. exists (q, t'). split; [reflexivity|exact Hin].
  - unfold ResNet.get_parameters, ResNet.named_parameters, ResNet.get_state_dict,
      state_dict, bns.
    rewrite !length_map. unfold ResNet.entries, ResNet.parameters, children.
    rewrite !flat_map_app, !length_app. cbn [flat_map fst snd].
    rewrite !length_app, !length_under.
    unfold layer_entries, layer_parameters.
    rewrite !blocks_entries_count. cbn [length]. rewrite !length_app.
    destruct (ResNet.cls_fn m) as [[l|c]|]; cbn; lia.
Qed.

Lemma get_parameters_are_state_entries_witness :
  exists m,
    ResNet.__init__ null_engine [2; 2; 2; 2] (Some "linear"%string) (Some 5%Z) 0 = Ok m
    /\ (forall c, ResNet.cls_fn m <> Some (CosineHead c))
    /\ ResNet.get_parameters m = map snd (filter is_parameter (ResNet.entries m))
    /\ length (ResNet.get_state_dict m)
       = length (ResNet.get_parameters m) + 3 * length (bns m).
Proof.
  destruct (resnet18_init_ok null_engine (Some "linear"%string) (Some 5%Z) 0 eq_refl)
    as [m Hm]; [cbn; lia|].
  destruct (init_inv _ _ _ _ _ _ Hm) as (_ & _ & _ & Hcls & _).
  assert (Hc : forall c, ResNet.cls_fn m <> Some (CosineHead c))
    by (intros c; rewrite Hcls; discriminate).
  exists m. split; [exact Hm|]. split; [exact Hc|].
  destruct (get_parameters_are_state_entries m Hc) as (_ & E & _ & L).
  split; [exact E|exact L].
Defined.

(* ------------------------------------------------------------------ *)
(** *** The layers after the initialisation loop *)

Lemma make_layer_blocks (K : Kernels) (inplanes planes blocks stride : nat)
    (b : BasicBlock.t) :
  In b (fst (ResNet._make_layer K inplanes planes blocks stride)) ->
  exists a s ds,
    b = BasicBlock.__init__ K a planes s ds
    /\ match ds with
       | Some (c, n) => c = conv1x1 K inplanes planes stride /\ n = BatchNorm2d.new planes
       | None => True
       end.
Proof.
  unfold ResNet._make_layer, BasicBlock.expansion. rewrite !Nat.mul_1_r. cbn [fst].
  intros Hin. apply in_app_or in Hin as [[<-|[]]|Hin].
  - eexists. eexists. eexists. split; [reflexivity|].
    now destruct (negb (stride =? 1) || negb (inplanes =? planes)).
  - apply in_map_iff in Hin as (i & <- & _).
    eexists. eexists. exists None. split; [reflexivity|exact I].
Qed.

Lemma init_layer_blocks (K : Kernels) (name : string) (l : list BasicBlock.t)
    (b : BasicBlock.t) :
  In b (ResNet.init_layer K name l) ->
  exists nm b0, In b0 l /\ b = ResNet.init_block K nm b0.
Proof.
  unfold ResNet.init_layer. intros Hin. apply in_map_iff in Hin as ([i b0] & <- & Hin).
  apply in_combine_r in Hin. eexists. exists b0. split; [exact Hin|reflexivity].
Qed.

Section InitLoop.
Variable K : Kernels.
Variables (Pb : BatchNorm2d.t -> Prop) (Pc : Conv2d.t -> Prop).
Hypothesis Hb : forall c, Pb (ResNet.init_bn (BatchNorm2d.new c)).
Hypothesis Hc : forall nm cin cout k s p, Pc (ResNet.init_conv K nm (Conv2d.new K cin cout k s p)).

Lemma built_layer_modules (name : string) (inplanes planes blocks stride : nat) :
  Forall (fun b => Forall Pb (block_bns b) /\ Forall Pc (block_convs b))
    (ResNet.init_layer K name (fst (ResNet._make_layer K inplanes planes blocks stride))).
Proof.
  apply Forall_forall. intros b Hin.
  apply init_layer_blocks in Hin as (nm & b0 & Hin & ->).
  apply make_layer_blocks in Hin as (a & s & ds & -> & Hds).
  unfold block_bns, block_convs, ResNet.init_block, BasicBlock.__init__, conv3x3.
  cbn [BasicBlock.bn1 BasicBlock.bn2 BasicBlock.conv1 BasicBlock.conv2
       BasicBlock.downsample].
  destruct ds as [[c n]|].
  - destruct Hds as [-> ->]. unfold conv1x1. split; repeat constructor; auto.
  - split; repeat constructor; auto.
Qed.

Lemma built_modules (layers : list nat) (classifier : option string)
    (num_classes : option Z) (p : Q) (m : ResNet.t) :
  ResNet.__init__ K layers classifier num_classes p = Ok m ->
  Forall Pb (bns m) /\ Forall Pc (convs m).
Proof.
  intros H. destruct (init_structure _ _ _ _ _ _ H) as (n0 & n1 & n2 & n3 & _ & ->).
  unfold bns, convs, ResNet.init_modules.
  cbn [ResNet.bn1 ResNet.conv1 ResNet.layer1 ResNet.layer2 ResNet.layer3 ResNet.layer4].
  pose proof (built_layer_modules "layer1" 64 64 n0 1) as L1.
  pose proof (built_layer_modules "layer2" 64 (64 * 2) n1 2) as L2.
  pose proof (built_layer_modules "layer3" (64 * 2) (64 * 4) n2 2) as L3.
  pose proof (built_layer_modules "layer4" (64 * 4) (64 * 8) n3 2) as L4.
  split.
  - constructor; [apply Hb|]. apply Forall_flat_map. rewrite !Forall_app.
    repeat split; (eapply Forall_impl; [|eassumption]); intros b [Hx _]; exact Hx.
  - constructor; [apply Hc|]. apply Forall_flat_map. rewrite !Forall_app.
    repeat split; (eapply Forall_impl; [|eassumption]); intros b [_ Hx]; exact Hx.
Qed.

End InitLoop.

(** X12: the initialisation loop that ends [ResNet.__init__] reaches every
    convolution and every batch normalisation of the network, those of the
    shortcuts included.  In the model returned every convolution weight is
    a draw of [kaiming_normal_] of size [out; in; k; k], and every batch
    normalisation is as [nn.BatchNorm2d] creates it: weight 1, bias 0,
    running mean 0, running variance 1, no batch counted. *)
Theorem init_loop_outcome (K : Kernels) (layers : list nat)
    (classifier : option string) (num_classes : option Z) (p : Q) (m : ResNet.t) :
  ResNet.__init__ K layers classifier num_classes p = Ok m ->
  Forall (fun c =>
            exists name,
              Conv2d.weight c
              = tabulate [Conv2d.out_channels c; Conv2d.in_channels c;
                          Conv2d.kernel_size c; Conv2d.kernel_size c]
                  (kaiming_normal_at K name))
         (convs m)
  /\ Forall (fun b =>
               let c := BatchNorm2d.num_features b in
               BatchNorm2d.weight b = full [c] 1
               /\ BatchNorm2d.bias b = full [c] 0
               /\ BatchNorm2d.running_mean b = full [c] 0
               /\ BatchNorm2d.running_var b = full [c] 1
               /\ BatchNorm2d.num_batches_tracked b = full [] 0)
            (bns m).
Proof.
  intros H.
  destruct (built_modules K
              (fun b =>
                 let c := BatchNorm2d.num_features b in
                 BatchNorm2d.weight b = full [c] 1
                 /\ BatchNorm2d.bias b = full [c] 0
                 /\ BatchNorm2d.running_mean b = full [c] 0
                 /\ BatchNorm2d.running_var b = full [c] 1
                 /\ BatchNorm2d.num_batches_tracked b = full [] 0)
              (fun c =>
                 exists name,
                   Conv2d.weight c
                   = tabulate [Conv2d.out_channels c; Conv2d.in_channels c;
                               Conv2d.kernel_size c; Conv2d.kernel_size c]
                       (kaiming_normal_at K name))
              (fun c => ltac:(repeat split))
              (fun nm cin cout k s q => ex_intro _ (nm ++ ".weight")%string eq_refl)
              layers classifier num_classes p m H) as [Hbn Hconv].
  split; assumption.
Qed.

Lemma init_loop_outcome_witness :
  exists m,
    ResNet.__init__ null_engine [2; 2; 2; 2] (Some "linear"%string) (Some 5%Z) 0 = Ok m
    /\ Forall (fun b => BatchNorm2d.weight b = full [BatchNorm2d.num_features b] 1)
              (bns m).
Proof.
  destruct (resnet18_init_ok null_engine (Some "linear"%string) (Some 5%Z) 0 eq_refl)
    as [m Hm]; [cbn; lia|].
  exists m. split; [exact Hm|].
  destruct (init_loop_outcome null_engine _ _ _ _ m Hm) as [_ Hbn].
  apply (Forall_impl _ (fun b Hb => proj1 Hb) Hbn).
Defined.

(** X13: [resnet18] without [pretrained] builds the network for the layer
    counts [2; 2; 2; 2] and returns it, reading no checkpoint and printing
    nothing: with no classifier kind, an unknown one or 'linear', it
    returns for every dropout probability in [[0, 1]] and every number of
    classes that is not negative.  The model is in training mode; each of
    its four layers has two blocks, of which only the first blocks of
    [layer2], [layer3] and [layer4] have a shortcut convolution; it has 20
    convolutions and 20 batch normalisations, and [get_parameters] returns
    60 tensors, and the weight and the bias of a 'linear' classifier. *)
Theorem resnet18_fresh (K : Kernels) (torch_load : option string -> result checkpoint)
    (pretrained_model_path : option string) (classifier : option string)
    (num_classes : option Z) (dropout : Q) :
  Qle_bool 0 dropout && Qle_bool dropout 1 = true ->
  match num_classes with Some nc => (0 <= nc)%Z | None => True end ->
  classifier <> Some "cosine"%string ->
  exists m,
    resnet18 K torch_load false pretrained_model_path classifier num_classes dropout
    = Ok (m, [])
    /\ ResNet_ok m
    /\ ResNet.training m = true
    /\ ResNet.dropout m = Dropout.mk dropout
    /\ map (map (fun b => match BasicBlock.downsample b with
                          | Some _ => true
                          | None => false
                          end))
           [ResNet.layer1 m; ResNet.layer2 m; ResNet.layer3 m; ResNet.layer4 m]
       = [[false; false]; [true; false]; [true; false]; [true; false]]
    /\ length (convs m) = 20
    /\ length (bns m) = 20
    /\ length (ResNet.get_parameters m)
       = 60 + match ResNet.cls_fn m with
              | Some _ => 2
              | None => 0
              end.
Proof.
  intros Hp Hnc Hcos.
  destruct (resnet18_init_ok K classifier num_classes dropout Hp Hnc) as [m Hm].
  exists m. split; [unfold resnet18; now rewrite Hm|].
  destruct (init_inv _ _ _ _ _ _ Hm) as (Hok & Htr & _ & _ & Hd).
  split; [exact Hok|]. split; [exact Htr|]. split; [exact Hd|].
  destruct (init_structure _ _ _ _ _ _ Hm) as (n0 & n1 & n2 & n3 & Hl & E).
  injection Hl as <- <- <- <-. clear Hm Hok Htr Hd. subst m.
  split; [reflexivity|]. split; [reflexivity|]. split; [reflexivity|].
  unfold ResNet.get_parameters, ResNet.named_parameters, state_dict.
  rewrite !length_map. unfold ResNet.parameters, ResNet.init_modules.
  cbn [ResNet.cls_fn].
  destruct (made_head K classifier num_classes) as [[l|c]|] eqn:E; try reflexivity.
  exfalso. apply Hcos. unfold made_head in E.
  destruct num_classes as [nc|]; [|discriminate].
  destruct classifier as [kind|]; [|discriminate].
  destruct (String.eqb kind "linear"); [discriminate|].
  destruct (String.eqb kind "cosine") eqn:E2; [|discriminate].
  apply String.eqb_eq in E2. now subst.
Qed.

Lemma resnet18_fresh_witness :
  exists m,
    resnet18 null_engine (fun _ => Raise RuntimeError) false None
      (Some "linear"%string) (Some 5%Z) (1 # 2)
    = Ok (m, [])
    /\ length (convs m) = 20
    /\ length (bns m) = 20.
Proof.
  destruct (resnet18_fresh null_engine (fun _ => Raise RuntimeError) None
              (Some "linear"%string) (Some 5%Z) (1 # 2) eq_refl)
    as (m & Hm & _ & _ & _ & _ & Hc & Hb & _); [cbn; lia|discriminate|].
  exists m. split; [exact Hm|]. split; [exact Hc|exact Hb].
Defined.

(* ------------------------------------------------------------------ *)
(** *** The classifier the constructor creates *)

Lemma init_ok (K : Kernels) (layers : list nat) (classifier : option string)
    (num_classes : option Z) (p : Q) :
  4 <= length layers ->
  Qle_bool 0 p && Qle_bool p 1 = true ->
  (forall nc, num_classes = Some nc -> ~ unrecognized classifier -> (0 <= nc)%Z) ->
  exists m, ResNet.__init__ K layers classifier num_classes p = Ok m.
Proof.
  intros Hl Hp Hnc.
  destruct layers as [|n0 [|n1 [|n2 [|n3 rest]]]]; cbn [length] in Hl; try lia.
  unfold ResNet.__init__, ResNet.layers_at. cbn [nth_error bind].
  destruct (ResNet._make_layer K 64 64 n0 1) as [l1 i1].
  destruct (ResNet._make_layer K i1 (64 * 2) n1 2) as [l2 i2].
  destruct (ResNet._make_layer K i2 (64 * 4) n2 2) as [l3 i3].
  destruct (ResNet._make_layer K i3 (64 * 8) n3 2) as [l4 i4].
  unfold Dropout.new. rewrite Hp. cbn [bind].
  destruct num_classes as [nc|]; [|eexists; reflexivity].
  destruct classifier as [kind|]; [|eexists; reflexivity].
  specialize (Hnc nc eq_refl). unfold unrecognized in Hnc.
  destruct (String.eqb kind "linear") eqn:E1.
  - assert (Hn : (nc <? 0)%Z = false).
    { apply Z.ltb_ge, Hnc. now intros [? _]. }
    rewrite Hn. eexists. reflexivity.
  - destruct (String.eqb kind "cosine") eqn:E2; [|eexists; reflexivity].
    assert (Hn : (nc <? 0)%Z = false).
    { apply Z.ltb_ge, Hnc. now intros [_ ?]. }
    rewrite Hn. eexists. reflexivity.
Qed.

(** X14: the classifier that [ResNet.__init__] creates.  With four layer
    counts and a valid dropout probability, a 'linear' classifier for a
    negative number of classes raises [RuntimeError]; with no classifier
    kind, an unknown one, or 'linear' and a number of classes that is not
    negative, the constructor returns.  A model that is returned keeps
    [num_classes], and it has no attribute [cls_fn] exactly when
    [num_classes] is [None] or the kind is neither 'linear' nor 'cosine';
    for 'linear' the classifier is an [nn.Linear] from 512 features to
    [num_classes] scores, with a weight of size [num_classes; 512] and a
    bias of size [num_classes]. *)
Theorem init_classifier (K : Kernels) (layers : list nat) (classifier : option string)
    (num_classes : option Z) (p : Q) :
  4 <= length layers ->
  Qle_bool 0 p && Qle_bool p 1 = true ->
  (forall nc, classifier = Some "linear"%string -> num_classes = Some nc -> (nc < 0)%Z ->
     ResNet.__init__ K layers classifier num_classes p = Raise RuntimeError)
  /\ (classifier <> Some "cosine"%string ->
      (forall nc, classifier = Some "linear"%string -> num_classes = Some nc ->
                  (0 <= nc)%Z) ->
      exists m, ResNet.__init__ K layers classifier num_classes p = Ok m)
  /\ (forall m,
        ResNet.__init__ K layers classifier num_classes p = Ok m ->
        ResNet.num_classes m = num_classes
        /\ (ResNet.cls_fn m = None <-> num_classes = None \/ unrecognized classifier)
        /\ (forall nc, classifier = Some "linear"%string -> num_classes = Some nc ->
              exists l,
                ResNet.cls_fn m = Some (LinearHead l)
                /\ Linear.in_features l = 512
                /\ Linear.out_features l = Z.to_nat nc
                /\ shape (Linear.weight l) = [Z.to_nat nc; 512]
                /\ shape (Linear.bias l) = [Z.to_nat nc])).
Proof.
  intros Hl Hp. split; [|split].
  - intros nc -> -> Hneg.
    destruct layers as [|n0 [|n1 [|n2 [|n3 rest]]]]; cbn [length] in Hl; try lia.
    unfold ResNet.__init__, ResNet.layers_at. cbn [nth_error bind].
    destruct (ResNet._make_layer K 64 64 n0 1) as [l1 i1].
    destruct (ResNet._make_layer K i1 (64 * 2) n1 2) as [l2 i2].
    destruct (ResNet._make_layer K i2 (64 * 4) n2 2) as [l3 i3].
    destruct (ResNet._make_layer K i3 (64 * 8) n3 2) as [l4 i4].
    unfold Dropout.new. rewrite Hp. cbn [bind].
    apply Z.ltb_lt in Hneg. now rewrite Hneg.
  - intros Hcos Hnc. apply (init_ok K layers classifier num_classes p Hl Hp).
    intros nc Hn Hk. apply (Hnc nc); [|exact Hn].
    destruct classifier as [kind|]; [|now contradiction Hk].
    unfold unrecognized in Hk.
    destruct (String.eqb kind "linear") eqn:E1; [apply String.eqb_eq in E1; now subst|].
    destruct (String.eqb kind "cosine") eqn:E2; [|now contradiction Hk].
    apply String.eqb_eq in E2. now subst.
  - intros m Hm.
    destruct (init_inv _ _ _ _ _ _ Hm) as (_ & _ & Hn & Hcls & _).
    split; [exact Hn|]. rewrite Hcls. split.
    + unfold made_head, unrecognized.
      destruct num_classes as [nc|]; [|split; [now left|reflexivity]].
      destruct classifier as [kind|]; [|split; [now right|reflexivity]].
      destruct (String.eqb kind "linear");
        [split; [discriminate|intros [?|[? _]]; discriminate]|].
      destruct (String.eqb kind "cosine");
        [split; [discriminate|intros [?|[_ ?]]; discriminate]|].
      split; [now right|reflexivity].
    + intros nc -> ->. eexists. split; [reflexivity|]. now repeat split.
Qed.

Lemma init_classifier_witness :
  ResNet.__init__ null_engine [2; 2; 2; 2] (Some "linear"%string) (Some (-1)%Z) 0
  = Raise RuntimeError
  /\ exists m,
       ResNet.__init__ null_engine [2; 2; 2; 2] (Some "linear"%string) None 0 = Ok m
       /\ ResNet.cls_fn m = None.
Proof.
  assert (Hl : 4 <= length [2; 2; 2; 2]) by (cbn; lia).
  split.
  - apply (proj1 (init_classifier null_engine [2; 2; 2; 2] (Some "linear"%string)
                    (Some (-1)%Z) 0 Hl eq_refl) (-1)%Z eq_refl eq_refl). lia.
  - destruct (init_classifier null_engine [2; 2; 2; 2] (Some "linear"%string)
                None 0 Hl eq_refl) as (_ & Hex & Hinv).
    destruct Hex as [m Hm]; [discriminate|intros nc _ H; discriminate H|].
    exists m. split; [exact Hm|]. apply (Hinv m Hm). now left.
Defined.

(* ------------------------------------------------------------------ *)
(** *** What a residual block returns *)

Lemma zip_with_length {A B C : Type} (f : A -> B -> C) (l : list A) (l' : list B) :
  length (zip_with f l l') = Nat.min (length l) (length l').
Proof.
  revert l'. induction l as [|a l IH]; intros [|b l']; cbn [zip_with length]; try reflexivity.
  now rewrite IH.
Qed.

Lemma bn_forward_wf (K : Kernels) (tr : bool) (b : BatchNorm2d.t) (x y : tensor) :
  BatchNorm2d.forward K tr b x = Ok y -> wf y.
Proof.
  unfold BatchNorm2d.forward.
  destruct (shape x) as [|n [|c [|h [|w [|d rest]]]]]; try discriminate.
  destruct (tr && (n * (h * w) =? 1)); [discriminate|].
  destruct (negb (c =? BatchNorm2d.num_features b)); [discriminate|].
  intros [= <-]. apply tabulate_wf.
Qed.

(** X15: a residual block ends in a ReLU: every entry of a tensor that
    [BasicBlock.forward] returns is at least 0, whatever the block, the
    mode and the input; and the result holds as many numbers as its size
    says when the input does. *)
Theorem block_output_nonnegative (K : Kernels) (tr : bool) (b : BasicBlock.t)
    (x y : tensor) :
  BasicBlock.forward K tr b x = Ok y ->
  Forall (fun a => (0 <= a)%R) (data y) /\ (wf x -> wf y).
Proof.
  unfold BasicBlock.forward. intros H.
  apply bind_inv in H as (o1 & _ & H). apply bind_inv in H as (o2 & _ & H).
  cbv zeta in H.
  apply bind_inv in H as (o3 & _ & H). apply bind_inv in H as (o4 & H4 & H).
  apply bind_inv in H as (i & Hi & H). apply bind_inv in H as (o5 & H5 & H).
  injection H as <-. split.
  - unfold relu. cbn [data]. apply Forall_forall. intros a Ha.
    apply in_map_iff in Ha as (v & <- & _). apply Rmax_l.
  - intros Hx. unfold iadd in H5.
    destruct (shape_eqb (shape o4) (shape i)) eqn:E; [|discriminate].
    apply shape_eqb_eq in E. injection H5 as <-.
    pose proof (bn_forward_wf K tr _ _ _ H4) as W4.
    assert (Wi : wf i).
    { destruct (BasicBlock.downsample b) as [[c n]|].
      - apply bind_inv in Hi as (d1 & _ & Hi). exact (bn_forward_wf K tr _ _ _ Hi).
      - now injection Hi as <-. }
    unfold wf, relu in *. cbn [data shape].
    rewrite length_map, zip_with_length, W4, Wi, E. apply Nat.min_id.
Qed.

Lemma block_output_nonnegative_witness :
  exists y,
    BasicBlock.forward null_engine true
      (BasicBlock.__init__ null_engine 64 128 2
         (Some (conv1x1 null_engine 64 128 2, BatchNorm2d.new 128)))
      (full [4; 64; 21; 21] 0)
    = Ok y
    /\ Forall (fun a => (0 <= a)%R) (data y)
    /\ wf y.
Proof.
  destruct (make_layer_ok null_engine 64 128 1 2) as [[Hb _] _].
  destruct (block_forward_shape null_engine true _ (full [4; 64; 21; 21] 0)
              64 128 2 4 21 21 Hb) as (y & Hy & _);
    [lia|reflexivity|lia|lia|right; left; lia|].
  exists y. split; [exact Hy|].
  destruct (block_output_nonnegative null_engine true _ _ y Hy) as [Hn Hw].
  split; [exact Hn|]. apply Hw, tabulate_wf.
Defined.

(** X16: the sizes of the tensors that [get_state_dict] returns for the
    network built for the layer counts [2; 2; 2; 2], in the order of the
    state dictionary.  A 3x3 convolution from [cin] to [cout] channels has
    a weight of size [cout; cin; 3; 3], the shortcut of a block one of
    size [cout; cin; 1; 1], the stem one of size [64; 3; 5; 5]; the four
    vectors of a batch normalisation have the size of its channel count
    and its batch counter is a scalar.  The channel counts are 64, 128,
    256 and 512 in the four layers. *)
Theorem resnet18_state_dict_sizes (K : Kernels) (classifier : option string)
    (num_classes : option Z) (p : Q) (m : ResNet.t) :
  ResNet.__init__ K [2; 2; 2; 2] classifier num_classes p = Ok m ->
  length resnet18_sizes = 120
  /\ firstn 120 (map (fun kv => shape (snd kv)) (ResNet.get_state_dict m))
     = resnet18_sizes
  /\ (forall nc, classifier = Some "linear"%string -> num_classes = Some nc ->
        map (fun kv => shape (snd kv)) (ResNet.get_state_dict m)
        = resnet18_sizes ++ [[Z.to_nat nc; 512]; [Z.to_nat nc]]).
Proof.
  intros H. destruct (init_structure _ _ _ _ _ _ H) as (n0 & n1 & n2 & n3 & Hl & ->).
  injection Hl as <- <- <- <-.
  split; [reflexivity|]. split.
  - unfold ResNet.get_state_dict, state_dict. rewrite map_map. cbn [snd].
    unfold ResNet.entries, ResNet.init_modules. cbn [ResNet.cls_fn].
    destruct (made_head K classifier num_classes) as [[l|c]|]; reflexivity.
  - intros nc -> ->. reflexivity.
Qed.

Lemma resnet18_state_dict_sizes_witness :
  exists m,
    ResNet.__init__ null_engine [2; 2; 2; 2] (Some "linear"%string) (Some 5%Z) 0 = Ok m
    /\ map (fun kv => shape (snd kv)) (ResNet.get_state_dict m)
       = resnet18_sizes ++ [[5; 512]; [5]].
Proof.
  destruct (resnet18_init_ok null_engine (Some "linear"%string) (Some 5%Z) 0 eq_refl)
    as [m Hm]; [cbn; lia|].
  exists m. split; [exact Hm|].
  destruct (resnet18_state_dict_sizes null_engine _ _ _ m Hm) as (_ & _ & Hlin).
  exact (Hlin 5%Z eq_refl eq_refl).
Defined.
